(** * NodeProject: build-workflow synthesis and construction-time validation

    A shallow embedding of [src/node-project.ts] (class [NodeProject] and class
    [DependenciesUpgradeMechanism]) and the properties of its workflow
    assembly.

    Conventions of the embedding.
    - An optional TypeScript property [x?: T] is an [option T]; [None] is
      [undefined].  [a ?? b] is [default b a].
    - A value of type [any] is a [JSValue]; a condition [if (v)] on such a
      value is [truthy v].  A condition on an optional boolean is
      [truthy_bool], on an optional string [truthy_string] (the empty
      string is falsy), on an optional array or object [is_Some] (arrays and
      objects are truthy, also when empty).
    - An index-signature object [{ [key: string]: T }] is a [gmap string T];
      the object spread [{ ...a, ...b }] is [b ∪ a] (later entries win).
    - [throw new Error(msg)] is [throw (MkError msg)]; the state reached at
      the throw is kept, as the mutations done before a throw persist.
    - Record fields carry a prefix naming their interface, since projections
      share one name space. *)

From stdpp Require Import gmap strings list fin_maps sorting.
From Stdlib Require Import ZArith.

(** ** JavaScript values *)

(** Values of TypeScript type [any].  Numbers are restricted to integers. *)
#[local] Set Warnings "-register-all".
Inductive JSValue :=
| JSUndefined
| JSNull
| JSBool (b : bool)
| JSNumber (z : Z)
| JSString (s : string)
| JSArray (items : list JSValue)
| JSObject (fields : list (string * JSValue)).
#[local] Set Warnings "register-all".

(** ECMAScript ToBoolean. *)
Definition truthy (v : JSValue) : bool :=
  match v with
  | JSUndefined | JSNull => false
  | JSBool b => b
  | JSNumber z => negb (z =? 0)%Z
  | JSString s => negb (bool_decide (s = ""))
  | JSArray _ | JSObject _ => true
  end.

(** Truthiness of [o.k] for an optional property of type [any]. *)
Definition truthy_any (v : option JSValue) : bool :=
  match v with Some v => truthy v | None => false end.

Definition truthy_bool (b : option bool) : bool := default false b.

Definition truthy_string (s : option string) : bool :=
  match s with Some s => negb (bool_decide (s = "")) | None => false end.

(** Property read [v.k] on a value of type [any]. *)
Fixpoint assoc_get (k : string) (fields : list (string * JSValue)) : JSValue :=
  match fields with
  | [] => JSUndefined
  | (k', v) :: rest => if bool_decide (k = k') then v else assoc_get k rest
  end.

Definition js_get (k : string) (v : JSValue) : JSValue :=
  match v with
  | JSObject fields => assoc_get k fields
  | _ => JSUndefined
  end.

(** ** Strings *)

Definition dquote : string := String (Ascii.ascii_of_nat 34) "".
Definition newline : string := String (Ascii.ascii_of_nat 10) "".
Definition backslash : string := String (Ascii.ascii_of_nat 92) "".
Definition quoted (s : string) : string := dquote +:+ s +:+ dquote.

(** [Array.prototype.join]. *)
Fixpoint join (sep : string) (l : list string) : string :=
  match l with
  | [] => ""
  | [s] => s
  | s :: rest => s +:+ sep +:+ join sep rest
  end.

(** Template-literal interpolation of a possibly undefined string. *)
Definition interpolate (s : option string) : string := default "undefined" s.

(** ** Workflow model ([./github], [./github/workflows-model]) *)

Inductive JobPermission := READ | WRITE | NONE_PERMISSION.

(** A step descriptor: [{ name, id?, if?, run? | uses?, with?, env? }]. *)
Record JobStep := {
  step_name : option string;
  step_id : option string;
  step_if : option string;
  step_uses : option string;
  step_run : option string;
  step_with : option (gmap string JSValue);
  step_env : option (gmap string string)
}.

Definition emptyStep : JobStep :=
  {| step_name := None; step_id := None; step_if := None; step_uses := None;
     step_run := None; step_with := None; step_env := None |}.

Record Job := {
  job_runsOn : string;
  job_env : gmap string string;
  job_permissions : gmap string JobPermission;
  job_if : option JSValue;
  job_steps : list JobStep;
  job_container : option string
}.

Definition set_job_container (image : string) (job : Job) : Job :=
  {| job_runsOn := job_runsOn job; job_env := job_env job;
     job_permissions := job_permissions job; job_if := job_if job;
     job_steps := job_steps job; job_container := Some image |}.

(** Modelled from the spec: the workflow document of the CI-integration
    collaborator ([GithubWorkflow], declared in [./github]): a name, the
    trigger filter (a mapping from event-category name to event-specific
    filter) and the named jobs. *)
Record GithubWorkflow := {
  wf_name : string;
  wf_events : gmap string JSValue;
  wf_jobs : gmap string Job
}.

Record DependabotOptions := {
  dependabot_ignoreProjen : option bool;
  dependabot_other : JSValue
}.

(** Modelled from the spec: the CI-integration collaborator ([GitHub],
    declared in [./github]).  It holds the workflow documents produced for
    it, in creation order; a workflow is referred to by its position.
    [gh_dependabot] and [gh_pullRequestTemplate] hold the arguments of the
    calls of [addDependabot] and [addPullRequestTemplate], one entry for
    each call; what the collaborator renders from them (for a call without
    arguments, its default template) is outside this file. *)
Record GitHub := {
  gh_mergify : bool;
  gh_workflows : list GithubWorkflow;
  gh_dependabot : list DependabotOptions;
  gh_pullRequestTemplate : list (list string)
}.

(** ** Other collaborators *)

Inductive TaskCategory := BUILD | TEST.

(** Modelled from the spec: the task registry ([./tasks]) holds named tasks;
    a task is an ordered list of steps, each a shell command or the spawning
    of another task. *)
Inductive TaskStep := Exec (command : string) | Spawn (subtask : string).

Record Task := {
  task_name : string;
  task_description : string;
  task_category : TaskCategory;
  task_steps : list TaskStep
}.

Inductive NodePackageManager := YARN | NPM | PNPM.
Inductive NpmTaskExecution := PROJEN | SHELL.

(** The part of [NodePackage] ([./node-package]) that [NodeProject] reads
    and the collections it adds to. *)
Record NodePackage := {
  pkg_packageName : string;
  pkg_packageManager : NodePackageManager;
  pkg_npmTaskExecution : NpmTaskExecution;
  pkg_projenCommand : string;
  pkg_installCommand : string;
  pkg_minNodeVersion : option string;
  pkg_license : option string;
  pkg_npmDistTag : string;
  pkg_npmRegistry : string;
  pkg_npmTokenSecret : option string;
  pkg_devDeps : list string;
  pkg_scripts : gmap string string
}.

Definition pkg_addDevDeps (deps : list string) (p : NodePackage) : NodePackage :=
  {| pkg_packageName := pkg_packageName p; pkg_packageManager := pkg_packageManager p;
     pkg_npmTaskExecution := pkg_npmTaskExecution p; pkg_projenCommand := pkg_projenCommand p;
     pkg_installCommand := pkg_installCommand p; pkg_minNodeVersion := pkg_minNodeVersion p;
     pkg_license := pkg_license p; pkg_npmDistTag := pkg_npmDistTag p;
     pkg_npmRegistry := pkg_npmRegistry p; pkg_npmTokenSecret := pkg_npmTokenSecret p;
     pkg_devDeps := pkg_devDeps p ++ deps; pkg_scripts := pkg_scripts p |}.

Definition pkg_setScript (name command : string) (p : NodePackage) : NodePackage :=
  {| pkg_packageName := pkg_packageName p; pkg_packageManager := pkg_packageManager p;
     pkg_npmTaskExecution := pkg_npmTaskExecution p; pkg_projenCommand := pkg_projenCommand p;
     pkg_installCommand := pkg_installCommand p; pkg_minNodeVersion := pkg_minNodeVersion p;
     pkg_license := pkg_license p; pkg_npmDistTag := pkg_npmDistTag p;
     pkg_npmRegistry := pkg_npmRegistry p; pkg_npmTokenSecret := pkg_npmTokenSecret p;
     pkg_devDeps := pkg_devDeps p; pkg_scripts := <[name := command]> (pkg_scripts p) |}.

(** Modelled from the spec: an ignore file ([./ignore-file]) holds the
    include and exclude patterns given to it, in order. *)
Inductive IgnoreEntry := Exclude (pattern : string) | Include (pattern : string).

(** [UpgradeDependenciesSchedule.expressions(cron)] of
    [./upgrade-dependencies]. *)
Inductive UpgradeDependenciesSchedule := Expressions (cron : list string).

Record UpgradeDependenciesWorkflowOptions := {
  uwo_schedule : option UpgradeDependenciesSchedule;
  uwo_secret : option string;
  uwo_labels : option (list string)
}.

Record UpgradeDependenciesOptions := {
  upg_include : option (list string);
  upg_taskName : option string;
  upg_pullRequestTitle : option string;
  upg_ignoreProjen : option bool;
  upg_workflow : option bool;
  upg_workflowOptions : option UpgradeDependenciesWorkflowOptions
}.

Definition noUpgradeDependenciesOptions : UpgradeDependenciesOptions :=
  {| upg_include := None; upg_taskName := None; upg_pullRequestTitle := None;
     upg_ignoreProjen := None; upg_workflow := None; upg_workflowOptions := None |}.

Record NpmPublishOptions := {
  npm_distTag : string;
  npm_registry : string;
  npm_npmTokenSecret : option string
}.

(** Modelled from the spec: the collaborators built with [new X(this, ...)]
    ([License], [IgnoreFile], [Jest], [Release], [AutoMerge],
    [UpgradeDependencies], [Projenrc], each declared in a module of its
    own).  Constructing one registers it with the project, with the options
    it was given; what it does with them is outside this file.  That
    includes what the constructor of a collaborator adds to the project on
    its own (dependencies, tasks and steps of tasks, ignore patterns): the
    dependencies, tasks and ignore patterns of a [NodeProject] below are
    those that the code of [NodeProject] itself puts there. *)
Inductive Component :=
| License (spdx : string) (copyrightOwner copyrightPeriod : option string)
| NpmIgnoreFile
| JestComponent (jestOptions : option JSValue)
| ReleaseComponent (task : string) (releaseWorkflowSetupSteps : list JobStep)
| AutoMergeComponent (buildJob : option string) (autoMergeLabel : option string)
| UpgradeDependencies (options : UpgradeDependenciesOptions)
| Projenrc (projenrcJsOptions : option JSValue).

Record Jest := { jest_config : JSValue }.
Record AutoMerge := { am_autoMergeLabel : string }.
Record Release := { release_publishToNpm : list NpmPublishOptions }.

(** ** The project under construction *)

(** The fields of [this]: those inherited from [Project] ([parent],
    [github], [gitignore], [tasks], the registered components) and those of
    [NodeProject].  A field of [NodeProject] is [None] until the constructor
    assigns it.  [compileTask], [testCompileTask], [testTask] and
    [buildTask] are the tasks named ["compile"], ["test:compile"],
    ["test"] and ["build"] of [tasks]; [releaseWorkflow] and [publisher]
    alias parts of [release]. *)
Record NodeProject := {
  parent : bool;
  github : option GitHub;
  gitignore : list IgnoreEntry;
  tasks_env : gmap string string;
  tasks : gmap string Task;
  components : list Component;
  package : NodePackage;
  npmignore : option (list IgnoreEntry);
  runScriptCommand : option string;
  nodeVersion : option string;
  npmDistTag : option string;
  npmRegistry : option string;
  antitamper : option bool;
  jest : option Jest;
  buildWorkflow : option nat;
  buildWorkflowJobId : option string;
  release : option Release;
  autoMerge : option AutoMerge
}.

Definition set_github (v : option GitHub) (this : NodeProject) : NodeProject :=
  {| parent := parent this; github := v; gitignore := gitignore this; tasks_env := tasks_env this; tasks := tasks this; components := components this; package := package this; npmignore := npmignore this; runScriptCommand := runScriptCommand this; nodeVersion := nodeVersion this; npmDistTag := npmDistTag this; npmRegistry := npmRegistry this; antitamper := antitamper this; jest := jest this; buildWorkflow := buildWorkflow this; buildWorkflowJobId := buildWorkflowJobId this; release := release this; autoMerge := autoMerge this |}.

Definition set_gitignore (v : list IgnoreEntry) (this : NodeProject) : NodeProject :=
  {| parent := parent this; github := github this; gitignore := v; tasks_env := tasks_env this; tasks := tasks this; components := components this; package := package this; npmignore := npmignore this; runScriptCommand := runScriptCommand this; nodeVersion := nodeVersion this; npmDistTag := npmDistTag this; npmRegistry := npmRegistry this; antitamper := antitamper this; jest := jest this; buildWorkflow := buildWorkflow this; buildWorkflowJobId := buildWorkflowJobId this; release := release this; autoMerge := autoMerge this |}.

Definition set_tasks_env (v : gmap string string) (this : NodeProject) : NodeProject :=
  {| parent := parent this; github := github this; gitignore := gitignore this; tasks_env := v; tasks := tasks this; components := components this; package := package this; npmignore := npmignore this; runScriptCommand := runScriptCommand this; nodeVersion := nodeVersion this; npmDistTag := npmDistTag this; npmRegistry := npmRegistry this; antitamper := antitamper this; jest := jest this; buildWorkflow := buildWorkflow this; buildWorkflowJobId := buildWorkflowJobId this; release := release this; autoMerge := autoMerge this |}.

Definition set_tasks (v : gmap string Task) (this : NodeProject) : NodeProject :=
  {| parent := parent this; github := github this; gitignore := gitignore this; tasks_env := tasks_env this; tasks := v; components := components this; package := package this; npmignore := npmignore this; runScriptCommand := runScriptCommand this; nodeVersion := nodeVersion this; npmDistTag := npmDistTag this; npmRegistry := npmRegistry this; antitamper := antitamper this; jest := jest this; buildWorkflow := buildWorkflow this; buildWorkflowJobId := buildWorkflowJobId this; release := release this; autoMerge := autoMerge this |}.

Definition set_components (v : list Component) (this : NodeProject) : NodeProject :=
  {| parent := parent this; github := github this; gitignore := gitignore this; tasks_env := tasks_env this; tasks := tasks this; components := v; package := package this; npmignore := npmignore this; runScriptCommand := runScriptCommand this; nodeVersion := nodeVersion this; npmDistTag := npmDistTag this; npmRegistry := npmRegistry this; antitamper := antitamper this; jest := jest this; buildWorkflow := buildWorkflow this; buildWorkflowJobId := buildWorkflowJobId this; release := release this; autoMerge := autoMerge this |}.

Definition set_package (v : NodePackage) (this : NodeProject) : NodeProject :=
  {| parent := parent this; github := github this; gitignore := gitignore this; tasks_env := tasks_env this; tasks := tasks this; components := components this; package := v; npmignore := npmignore this; runScriptCommand := runScriptCommand this; nodeVersion := nodeVersion this; npmDistTag := npmDistTag this; npmRegistry := npmRegistry this; antitamper := antitamper this; jest := jest this; buildWorkflow := buildWorkflow this; buildWorkflowJobId := buildWorkflowJobId this; release := release this; autoMerge := autoMerge this |}.

Definition set_npmignore (v : option (list IgnoreEntry)) (this : NodeProject) : NodeProject :=
  {| parent := parent this; github := github this; gitignore := gitignore this; tasks_env := tasks_env this; tasks := tasks this; components := components this; package := package this; npmignore := v; runScriptCommand := runScriptCommand this; nodeVersion := nodeVersion this; npmDistTag := npmDistTag this; npmRegistry := npmRegistry this; antitamper := antitamper this; jest := jest this; buildWorkflow := buildWorkflow this; buildWorkflowJobId := buildWorkflowJobId this; release := release this; autoMerge := autoMerge this |}.

Definition set_runScriptCommand (v : option string) (this : NodeProject) : NodeProject :=
  {| parent := parent this; github := github this; gitignore := gitignore this; tasks_env := tasks_env this; tasks := tasks this; components := components this; package := package this; npmignore := npmignore this; runScriptCommand := v; nodeVersion := nodeVersion this; npmDistTag := npmDistTag this; npmRegistry := npmRegistry this; antitamper := antitamper this; jest := jest this; buildWorkflow := buildWorkflow this; buildWorkflowJobId := buildWorkflowJobId this; release := release this; autoMerge := autoMerge this |}.

Definition set_nodeVersion (v : option string) (this : NodeProject) : NodeProject :=
  {| parent := parent this; github := github this; gitignore := gitignore this; tasks_env := tasks_env this; tasks := tasks this; components := components this; package := package this; npmignore := npmignore this; runScriptCommand := runScriptCommand this; nodeVersion := v; npmDistTag := npmDistTag this; npmRegistry := npmRegistry this; antitamper := antitamper this; jest := jest this; buildWorkflow := buildWorkflow this; buildWorkflowJobId := buildWorkflowJobId this; release := release this; autoMerge := autoMerge this |}.

Definition set_npmDistTag (v : option string) (this : NodeProject) : NodeProject :=
  {| parent := parent this; github := github this; gitignore := gitignore this; tasks_env := tasks_env this; tasks := tasks this; components := components this; package := package this; npmignore := npmignore this; runScriptCommand := runScriptCommand this; nodeVersion := nodeVersion this; npmDistTag := v; npmRegistry := npmRegistry this; antitamper := antitamper this; jest := jest this; buildWorkflow := buildWorkflow this; buildWorkflowJobId := buildWorkflowJobId this; release := release this; autoMerge := autoMerge this |}.

Definition set_npmRegistry (v : option string) (this : NodeProject) : NodeProject :=
  {| parent := parent this; github := github this; gitignore := gitignore this; tasks_env := tasks_env this; tasks := tasks this; components := components this; package := package this; npmignore := npmignore this; runScriptCommand := runScriptCommand this; nodeVersion := nodeVersion this; npmDistTag := npmDistTag this; npmRegistry := v; antitamper := antitamper this; jest := jest this; buildWorkflow := buildWorkflow this; buildWorkflowJobId := buildWorkflowJobId this; release := release this; autoMerge := autoMerge this |}.

Definition set_antitamper (v : option bool) (this : NodeProject) : NodeProject :=
  {| parent := parent this; github := github this; gitignore := gitignore this; tasks_env := tasks_env this; tasks := tasks this; components := components this; package := package this; npmignore := npmignore this; runScriptCommand := runScriptCommand this; nodeVersion := nodeVersion this; npmDistTag := npmDistTag this; npmRegistry := npmRegistry this; antitamper := v; jest := jest this; buildWorkflow := buildWorkflow this; buildWorkflowJobId := buildWorkflowJobId this; release := release this; autoMerge := autoMerge this |}.

Definition set_jest (v : option Jest) (this : NodeProject) : NodeProject :=
  {| parent := parent this; github := github this; gitignore := gitignore this; tasks_env := tasks_env this; tasks := tasks this; components := components this; package := package this; npmignore := npmignore this; runScriptCommand := runScriptCommand this; nodeVersion := nodeVersion this; npmDistTag := npmDistTag this; npmRegistry := npmRegistry this; antitamper := antitamper this; jest := v; buildWorkflow := buildWorkflow this; buildWorkflowJobId := buildWorkflowJobId this; release := release this; autoMerge := autoMerge this |}.

Definition set_buildWorkflow (v : option nat) (this : NodeProject) : NodeProject :=
  {| parent := parent this; github := github this; gitignore := gitignore this; tasks_env := tasks_env this; tasks := tasks this; components := components this; package := package this; npmignore := npmignore this; runScriptCommand := runScriptCommand this; nodeVersion := nodeVersion this; npmDistTag := npmDistTag this; npmRegistry := npmRegistry this; antitamper := antitamper this; jest := jest this; buildWorkflow := v; buildWorkflowJobId := buildWorkflowJobId this; release := release this; autoMerge := autoMerge this |}.

Definition set_buildWorkflowJobId (v : option string) (this : NodeProject) : NodeProject :=
  {| parent := parent this; github := github this; gitignore := gitignore this; tasks_env := tasks_env this; tasks := tasks this; components := components this; package := package this; npmignore := npmignore this; runScriptCommand := runScriptCommand this; nodeVersion := nodeVersion this; npmDistTag := npmDistTag this; npmRegistry := npmRegistry this; antitamper := antitamper this; jest := jest this; buildWorkflow := buildWorkflow this; buildWorkflowJobId := v; release := release this; autoMerge := autoMerge this |}.

Definition set_release (v : option Release) (this : NodeProject) : NodeProject :=
  {| parent := parent this; github := github this; gitignore := gitignore this; tasks_env := tasks_env this; tasks := tasks this; components := components this; package := package this; npmignore := npmignore this; runScriptCommand := runScriptCommand this; nodeVersion := nodeVersion this; npmDistTag := npmDistTag this; npmRegistry := npmRegistry this; antitamper := antitamper this; jest := jest this; buildWorkflow := buildWorkflow this; buildWorkflowJobId := buildWorkflowJobId this; release := v; autoMerge := autoMerge this |}.

Definition set_autoMerge (v : option AutoMerge) (this : NodeProject) : NodeProject :=
  {| parent := parent this; github := github this; gitignore := gitignore this; tasks_env := tasks_env this; tasks := tasks this; components := components this; package := package this; npmignore := npmignore this; runScriptCommand := runScriptCommand this; nodeVersion := nodeVersion this; npmDistTag := npmDistTag this; npmRegistry := npmRegistry this; antitamper := antitamper this; jest := jest this; buildWorkflow := buildWorkflow this; buildWorkflowJobId := buildWorkflowJobId this; release := release this; autoMerge := v |}.

(** ** Errors and the construction monad *)

Inductive Error := MkError (message : string).

Inductive Completion (A : Type) :=
| Normal (value : A)
| Throw (error : Error).
Arguments Normal {A} value.
Arguments Throw {A} error.

(** A computation on the project under construction: it completes normally
    or throws, and in both cases leaves a state behind. *)
Definition M (A : Type) : Type := NodeProject → Completion A * NodeProject.

#[export] Instance M_ret : MRet M := λ A a this, (Normal a, this).
#[export] Instance M_bind : MBind M := λ A B f m this,
  match m this with
  | (Normal a, this') => f a this'
  | (Throw e, this') => (Throw e, this')
  end.

Definition throw {A} (message : string) : M A := λ this, (Throw (MkError message), this).
Definition gets {A} (f : NodeProject → A) : M A := λ this, (Normal (f this), this).
Definition modify (f : NodeProject → NodeProject) : M unit := λ this, (Normal tt, f this).
Definition when (b : bool) (m : M unit) : M unit := if b then m else mret tt.

(** ** Error messages *)

Definition err_no_github : string := "no github support".
Definition err_issue_comment : string :=
  quoted "issue_comment" +:+ " should not be used as a trigger due to a security issue".
Definition err_npmignore : string :=
  ".npmignore is not defined for an APP project type. Add " +:+ quoted "npmIgnore: true"
  +:+ " to override this".
Definition err_defaultReleaseBranch : string :=
  quoted "defaultReleaseBranch"
  +:+ " is temporarily a required option while we migrate its default value from "
  +:+ quoted "master" +:+ " to " +:+ quoted "main".
Definition err_not_supported (option_name : string) : string :=
  quoted option_name +:+ " is not supported for APP projects".
Definition err_dependabot : string :=
  "'dependabot' cannot be configured together with 'depsUpgrade'".

(** ** Options *)

(** [DependenciesUpgradeMechanism].  The constructor of the class is
    private: a mechanism is the constant [NONE] or the result of one of the
    static factories [dependabot(options)] and [githubWorkflow(options)].
    A value is represented by the factory call that made it; its two
    private fields, the [binder] closure and [_ignoresProjen], are the
    functions of that name below. *)
Inductive DependenciesUpgradeMechanism :=
| NONE
| dependabot (options : DependabotOptions)
| githubWorkflow (options : UpgradeDependenciesOptions).

(** The options of [NodeProjectOptions] (and of the interfaces it extends)
    that [NodeProject] reads. *)
Record NodeProjectOptions := {
  opt_copyrightOwner : option string;
  opt_authorName : option string;
  opt_copyrightPeriod : option string;
  opt_projenVersion : option string;
  opt_projenDevDependency : option bool;
  opt_buildWorkflow : option bool;
  opt_mutableBuild : option bool;
  opt_antitamper : option bool;
  opt_codeCov : option bool;
  opt_codeCovTokenSecret : option string;
  opt_releaseWorkflow : option bool;
  opt_releaseWorkflowSetupSteps : option (list JobStep);
  opt_releaseToNpm : option bool;
  opt_releaseBranches : option (list string);
  opt_releaseEveryCommit : option bool;
  opt_releaseSchedule : option string;
  opt_defaultReleaseBranch : option string;
  opt_workflowNodeVersion : option string;
  opt_workflowContainerImage : option string;
  opt_dependabot : option bool;
  opt_depsUpgrade : option DependenciesUpgradeMechanism;
  opt_mergifyAutoMergeLabel : option string;
  opt_projenUpgradeSecret : option string;
  opt_projenUpgradeAutoMerge : option bool;
  opt_projenUpgradeSchedule : option (list string);
  opt_projenDuringBuild : option bool;
  opt_npmignoreEnabled : option bool;
  opt_npmignore : option (list string);
  opt_pullRequestTemplate : option bool;
  opt_pullRequestTemplateContents : option string;
  opt_gitignore : option (list string);
  opt_jest : option bool;
  opt_jestOptions : option JSValue;
  opt_projenrcJs : option bool;
  opt_projenrcJsOptions : option JSValue
}.

Record NodeBuildWorkflowOptions := {
  bw_jobId : string;
  bw_image : option string;
  bw_condition : option JSValue;
  bw_trigger : option (gmap string JSValue);
  bw_codeCov : option bool;
  bw_codeCovTokenSecret : option string;
  bw_preBuildSteps : option (list JobStep);
  bw_preCheckoutSteps : option (list JobStep);
  bw_postSteps : option (list JobStep);
  bw_checkoutWith : option (gmap string JSValue);
  bw_antitamperDisabled : option bool;
  bw_env : option (gmap string string);
  bw_permissions : gmap string JobPermission
}.

(** ** Collaborator operations *)

(** [this.github?.f(...)] for a mutation [f] of the GitHub collaborator. *)
Definition with_github (f : GitHub → GitHub) : M unit :=
  modify (λ this, set_github (f <$> github this) this).

Definition gh_set_workflows (ws : list GithubWorkflow) (g : GitHub) : GitHub :=
  {| gh_mergify := gh_mergify g; gh_workflows := ws;
     gh_dependabot := gh_dependabot g;
     gh_pullRequestTemplate := gh_pullRequestTemplate g |}.

Definition emptyWorkflow (name : string) : GithubWorkflow :=
  {| wf_name := name; wf_events := ∅; wf_jobs := ∅ |}.

(** Modelled from the spec: [github.addWorkflow(name)] registers a new
    workflow document, without trigger or job, and returns it. *)
Definition addWorkflow (name : string) : M nat :=
  workflow ← gets (λ this, from_option (λ g, length (gh_workflows g)) 0 (github this));
  with_github (λ g, gh_set_workflows (gh_workflows g ++ [emptyWorkflow name]) g);;
  mret workflow.

(** Modelled from the spec: [workflow.on(events)] adds triggers to those the
    workflow has. *)
Definition wf_on (events : gmap string JSValue) (w : GithubWorkflow) : GithubWorkflow :=
  {| wf_name := wf_name w; wf_events := events ∪ wf_events w; wf_jobs := wf_jobs w |}.

(** Modelled from the spec: [workflow.addJobs(jobs)] adds named jobs. *)
Definition wf_addJobs (jobs : gmap string Job) (w : GithubWorkflow) : GithubWorkflow :=
  {| wf_name := wf_name w; wf_events := wf_events w; wf_jobs := jobs ∪ wf_jobs w |}.

Definition with_workflow (workflow : nat) (f : GithubWorkflow → GithubWorkflow) : M unit :=
  with_github (λ g, gh_set_workflows (alter f workflow (gh_workflows g)) g).

(** Modelled from the spec: [github.addDependabot(options)] and
    [github.addPullRequestTemplate(...content)] record the arguments of the
    call. *)
Definition gh_addDependabot (options : DependabotOptions) (g : GitHub) : GitHub :=
  {| gh_mergify := gh_mergify g; gh_workflows := gh_workflows g;
     gh_dependabot := gh_dependabot g ++ [options];
     gh_pullRequestTemplate := gh_pullRequestTemplate g |}.

Definition gh_addPullRequestTemplate (content : list string) (g : GitHub) : GitHub :=
  {| gh_mergify := gh_mergify g; gh_workflows := gh_workflows g;
     gh_dependabot := gh_dependabot g;
     gh_pullRequestTemplate := gh_pullRequestTemplate g ++ [content] |}.

(** Modelled from the spec: [new X(this, ...)] registers the component with
    the project. *)
Definition addComponent (c : Component) (this : NodeProject) : NodeProject :=
  set_components (components this ++ [c]) this.

(** Modelled from the spec: [this.addTask(name, { description, category })]
    creates the task of that name, without steps. *)
Definition addTask (name description : string) (category : TaskCategory) : M unit :=
  modify (λ this, set_tasks
    (<[name := {| task_name := name; task_description := description;
                  task_category := category; task_steps := [] |}]> (tasks this)) this).

Definition task_add_step (step : TaskStep) (t : Task) : Task :=
  {| task_name := task_name t; task_description := task_description t;
     task_category := task_category t; task_steps := task_steps t ++ [step] |}.

(** Modelled from the spec: [task.exec(command)] and [task.spawn(subtask)]
    append a step to the task. *)
Definition task_step (name : string) (step : TaskStep) : M unit :=
  modify (λ this, set_tasks (alter (task_add_step step) name (tasks this)) this).

(** Modelled from the spec: [this.gitignore.exclude(...)] and
    [this.gitignore.include(...)] append patterns. *)
Definition gitignore_add (entries : list IgnoreEntry) : M unit :=
  modify (λ this, set_gitignore (gitignore this ++ entries) this).

(** [this.npmignore?.exclude(...)]. *)
Definition npmignore_exclude (patterns : list string) : M unit :=
  modify (λ this, set_npmignore ((λ l, l ++ (Exclude <$> patterns)) <$> npmignore this) this).

(** [setScript(name, command)] and [addDevDeps(...deps)] forward to the
    package; modelled from the spec: the package records the script and the
    dependencies. *)
Definition setScript (name command : string) : M unit :=
  modify (λ this, set_package (pkg_setScript name command (package this)) this).

Definition addDevDeps (deps : list string) : M unit :=
  modify (λ this, set_package (pkg_addDevDeps deps (package this)) this).

(** ** [NodeProject]: workflow steps *)

(** [get installWorkflowSteps()]. *)
Definition installWorkflowSteps (this : NodeProject) : list JobStep :=
  (if truthy_string (nodeVersion this) then
     [ {| step_name := Some "Setup Node.js"; step_id := None; step_if := None;
          step_uses := Some "actions/setup-node@v1"; step_run := None;
          step_with := Some {[ "node-version" := from_option JSString JSUndefined (nodeVersion this) ]};
          step_env := None |} ]
   else [])
  ++ [ {| step_name := Some "Install dependencies"; step_id := None; step_if := None;
          step_uses := None; step_run := Some (pkg_installCommand (package this));
          step_with := None; step_env := None |} ].

(** [runTaskCommand(task)], for the task of the given name.  The [default]
    branch of the [switch], which throws, is not reachable: the type
    [NpmTaskExecution] has these two values. *)
Definition runTaskCommand (this : NodeProject) (task : string) : string :=
  match pkg_npmTaskExecution (package this) with
  | PROJEN => pkg_projenCommand (package this) +:+ " " +:+ task
  | SHELL => interpolate (runScriptCommand this) +:+ " " +:+ task
  end.

Definition antitamperStep : JobStep :=
  {| step_name := Some "Anti-tamper check"; step_id := None; step_if := None;
     step_uses := None; step_run := Some "git diff --ignore-space-at-eol --exit-code";
     step_with := None; step_env := None |}.

(** [const antitamperSteps] of [createBuildWorkflow]. *)
Definition antitamperSteps (this : NodeProject) (options : NodeBuildWorkflowOptions)
  : list JobStep :=
  if truthy_bool (bw_antitamperDisabled options) || negb (truthy_bool (antitamper this))
  then [] else [antitamperStep].

Definition checkoutStep (options : NodeBuildWorkflowOptions) : JobStep :=
  {| step_name := Some "Checkout"; step_id := None; step_if := None;
     step_uses := Some "actions/checkout@v2"; step_run := None;
     step_with := bw_checkoutWith options; step_env := None |}.

Definition gitIdentityStep : JobStep :=
  {| step_name := Some "Set git identity"; step_id := None; step_if := None;
     step_uses := None;
     step_run := Some (join newline
       [ "git config user.name " +:+ quoted "Automation";
         "git config user.email " +:+ quoted "github-actions@github.com" ]);
     step_with := None; step_env := None |}.

Definition buildStep (this : NodeProject) : JobStep :=
  {| step_name := Some "Build"; step_id := None; step_if := None;
     step_uses := None; step_run := Some (runTaskCommand this "build");
     step_with := None; step_env := None |}.

(** [this.jest?.config]. *)
Definition jestConfig (this : NodeProject) : option JSValue := jest_config <$> jest this.

(** The [with] object of the coverage step. *)
Definition codecovWith (this : NodeProject) (options : NodeBuildWorkflowOptions)
  : gmap string JSValue :=
  let directory := js_get "coverageDirectory" (default JSUndefined (jestConfig this)) in
  if truthy_string (bw_codeCovTokenSecret options) then
    {[ "token" := JSString ("${{ secrets." +:+ interpolate (bw_codeCovTokenSecret options) +:+ " }}");
       "directory" := directory ]}
  else {[ "directory" := directory ]}.

Definition codecovStep (this : NodeProject) (options : NodeBuildWorkflowOptions) : JobStep :=
  {| step_name := Some "Upload coverage to Codecov"; step_id := None; step_if := None;
     step_uses := Some "codecov/codecov-action@v1"; step_run := None;
     step_with := Some (codecovWith this options); step_env := None |}.

(** The spliced fragment
    [...(options.codeCov || options.codeCovTokenSecret) && this.jest?.config ? [...] : []]. *)
Definition codecovSteps (this : NodeProject) (options : NodeBuildWorkflowOptions)
  : list JobStep :=
  if (truthy_bool (bw_codeCov options) || truthy_string (bw_codeCovTokenSecret options))
     && truthy_any (jestConfig this)
  then [codecovStep this options] else [].

(** The [job] built by [createBuildWorkflow], including the assignment of
    [job.container]. *)
Definition buildJob (this : NodeProject) (options : NodeBuildWorkflowOptions) : Job :=
  let condition := if truthy_any (bw_condition options) then bw_condition options else None in
  let preBuildSteps := default [] (bw_preBuildSteps options) in
  let preCheckoutSteps := default [] (bw_preCheckoutSteps options) in
  let postSteps := default [] (bw_postSteps options) in
  let job :=
    {| job_runsOn := "ubuntu-latest";
       job_env := default ∅ (bw_env options) ∪ {[ "CI" := "true" ]};
       job_permissions := bw_permissions options;
       job_if := condition;
       job_steps :=
         preCheckoutSteps
         ++ [checkoutStep options]
         ++ installWorkflowSteps this
         ++ antitamperSteps this options
         ++ [gitIdentityStep]
         ++ preBuildSteps
         ++ [buildStep this]
         ++ codecovSteps this options
         ++ postSteps
         ++ antitamperSteps this options;
       job_container := None |} in
  if truthy_string (bw_image options)
  then set_job_container (interpolate (bw_image options)) job
  else job.

(** [createBuildWorkflow(name, options)]; the result is the workflow it
    registered with the GitHub collaborator. *)
Definition createBuildWorkflow (name : string) (options : NodeBuildWorkflowOptions) : M nat :=
  let buildJobId := bw_jobId options in
  github ← gets github;
  if github is None then throw err_no_github else
  workflow ← addWorkflow name;
  match bw_trigger options with
  | Some trigger =>
      if truthy_any (trigger !! "issue_comment") then throw err_issue_comment
      else with_workflow workflow (wf_on trigger)
  | None => mret tt
  end;;
  with_workflow workflow (wf_on {[ "workflowDispatch" := JSObject [] ]});;
  job ← gets (λ this, buildJob this options);
  with_workflow workflow (wf_addJobs {[ buildJobId := job ]});;
  mret workflow.

(** ** [DependenciesUpgradeMechanism] *)

(** The closure each factory passes as [binder]:
    [(_) => ({})] for [NONE],
    [(project) => { project.github?.addDependabot(options) }] for
    [dependabot(options)] and
    [(project) => { new UpgradeDependencies(project, options) }] for
    [githubWorkflow(options)]. *)
Definition binder (m : DependenciesUpgradeMechanism) (project : NodeProject)
  : NodeProject :=
  match m with
  | NONE => project
  | dependabot options =>
      set_github (gh_addDependabot options <$> github project) project
  | githubWorkflow options => addComponent (UpgradeDependencies options) project
  end.

(** The second argument each factory passes to the constructor. *)
Definition _ignoresProjen (m : DependenciesUpgradeMechanism) : option bool :=
  match m with
  | NONE => Some true
  | dependabot options => dependabot_ignoreProjen options
  | githubWorkflow options => upg_ignoreProjen options
  end.

(** The default argument [options = {}] of the factories. *)
Definition noDependabotOptions : DependabotOptions :=
  {| dependabot_ignoreProjen := None; dependabot_other := JSObject [] |}.

(** [get ignoresProjen()]. *)
Definition ignoresProjen (m : DependenciesUpgradeMechanism) : bool :=
  default true (_ignoresProjen m).

(** [bind(project)]. *)
Definition bind (m : DependenciesUpgradeMechanism) : M unit := modify (binder m).

(** ** [NodeProject]: the constructor *)

(** What the constructor takes from modules that are not part of this
    file: constants of [./common] and [./version], and the values the
    constructors of [Jest] and [AutoMerge] compute from their options. *)
Record Externals := {
  PROJEN_DIR : string;
  PROJEN_RC : string;
  PROJEN_VERSION : string;
  STANDARD_VERSION : string;
  Jest_config : option JSValue → JSValue;
  AutoMerge_autoMergeLabel : option string → string
}.

Definition PROJEN_SCRIPT : string := "projen".

(** [addLicense(options)]. *)
Definition addLicense (options : NodeProjectOptions) : M unit :=
  license ← gets (λ this, pkg_license (package this));
  when (truthy_string license)
    (modify (addComponent (License (interpolate license)
       (match opt_copyrightOwner options with
        | Some owner => Some owner
        | None => opt_authorName options
        end)
       (opt_copyrightPeriod options)))).

(** [addDefaultGitIgnore()]. *)
Definition addDefaultGitIgnore : M unit :=
  gitignore_add (Exclude <$>
    [ "# Logs"; "logs"; "*.log"; "npm-debug.log*"; "yarn-debug.log*";
      "yarn-error.log*"; "lerna-debug.log*";
      "# Diagnostic reports (https://nodejs.org/api/report.html)";
      "report.[0-9]*.[0-9]*.[0-9]*.[0-9]*.json";
      "# Runtime data"; "pids"; "*.pid"; "*.seed"; "*.pid.lock";
      "# Directory for instrumented libs generated by jscoverage/JSCover";
      "lib-cov";
      "# Coverage directory used by tools like istanbul"; "coverage"; "*.lcov";
      "# nyc test coverage"; ".nyc_output";
      "# Compiled binary addons (https://nodejs.org/api/addons.html)";
      "build/Release";
      "# Dependency directories"; "node_modules/"; "jspm_packages/";
      "# TypeScript cache"; "*.tsbuildinfo";
      "# Optional eslint cache"; ".eslintcache";
      "# Output of 'npm pack'"; "*.tgz";
      "# Yarn Integrity file"; ".yarn-integrity";
      "# parcel-bundler cache (https://parceljs.org/)"; ".cache" ]).

(** [options.buildWorkflow ?? (this.parent ? false : true)], and the same
    default for [releaseWorkflow]. *)
Definition enabledUnlessSubproject (flag : option bool) (this : NodeProject) : bool :=
  default (if parent this then false else true) flag.

(** The three steps of [updateRepo]. *)
Definition updateRepo (buildJobId branch : string) : list JobStep :=
  let gitDiffStepId := "git_diff" in
  let hasChangesCondName := "has_changes" in
  let hasChanges := "steps." +:+ gitDiffStepId +:+ ".outputs." +:+ hasChangesCondName in
  let repoFullName := "github.event.pull_request.head.repo.full_name" in
  [ {| step_name := Some "Check for changes"; step_id := Some gitDiffStepId;
       step_if := None; step_uses := None;
       step_run := Some ("git diff --exit-code || echo "
         +:+ quoted ("::set-output name=" +:+ hasChangesCondName +:+ "::true"));
       step_with := None; step_env := None |};
    {| step_name := Some "Commit and push changes (if changed)"; step_id := None;
       step_if := Some hasChanges; step_uses := None;
       step_run := Some ("git add . && git commit -m " +:+ quoted "chore: self mutation"
         +:+ " && git push origin HEAD:" +:+ branch);
       step_with := None; step_env := None |};
    {| step_name := Some "Update status check (if changed)"; step_id := None;
       step_if := Some hasChanges; step_uses := None;
       step_run := Some (join " "
         [ "gh api"; "-X POST";
           "/repos/${{ " +:+ repoFullName +:+ " }}/check-runs";
           "-F name=" +:+ quoted buildJobId;
           "-F head_sha=" +:+ quoted "$(git rev-parse HEAD)";
           "-F status=" +:+ quoted "completed";
           "-F conclusion=" +:+ quoted "success" ]);
       step_with := None;
       step_env := Some {[ "GITHUB_TOKEN" := "${{ secrets.GITHUB_TOKEN }}" ]} |} ].

(** The options the constructor passes to [createBuildWorkflow]. *)
Definition buildWorkflowOptions (options : NodeProjectOptions) : NodeBuildWorkflowOptions :=
  let mutableBuilds := default true (opt_mutableBuild options) in
  let branch := "${{ github.event.pull_request.head.ref }}" in
  let repo := "${{ github.event.pull_request.head.repo.full_name }}" in
  let buildJobId := "build" in
  {| bw_jobId := buildJobId;
     bw_image := opt_workflowContainerImage options;
     bw_condition := None;
     bw_trigger := Some {[ "pull_request" := JSObject [] ]};
     bw_codeCov := Some (default false (opt_codeCov options));
     bw_codeCovTokenSecret := opt_codeCovTokenSecret options;
     bw_preBuildSteps := None;
     bw_preCheckoutSteps := None;
     bw_postSteps := Some (updateRepo buildJobId branch);
     bw_checkoutWith :=
       if mutableBuilds
       then Some {[ "ref" := JSString branch; "repository" := JSString repo ]}
       else None;
     bw_antitamperDisabled := Some mutableBuilds;
     bw_env := None;
     bw_permissions := {[ "checks" := WRITE; "contents" := WRITE ]} |}.

(** A byte of the form [10xxxxxx], which continues a code point in UTF-8. *)
Definition is_continuation (c : Ascii.ascii) : bool :=
  let n := Ascii.nat_of_ascii c in (128 <=? n)%nat && (n <? 192)%nat.

(** The string starts with a continuation byte. *)
Definition continues (s : string) : bool :=
  match s with
  | String c _ => is_continuation c
  | EmptyString => false
  end.

(** A string spread into an argument list ([...s]): one string per code
    point.  Strings hold UTF-8, so a code point is a byte together with the
    continuation bytes that follow it. *)
Fixpoint spread_string (s : string) : list string :=
  match s with
  | EmptyString => []
  | String c rest =>
      match spread_string rest with
      | point :: points =>
          if continues rest then String c point :: points
          else String c "" :: point :: points
      | [] => [String c ""]
      end
  end.

Definition release_publishToNpm_add (o : NpmPublishOptions) (r : Release) : Release :=
  {| release_publishToNpm := release_publishToNpm r ++ [o] |}.

(** Truthiness of an optional array or object: defined is truthy. *)
Definition truthy_object {A} (o : option A) : bool := if o is Some _ then true else false.

(** [o?.length] as a condition: a defined, non-empty array. *)
Definition truthy_length {A} (o : option (list A)) : bool :=
  match o with Some (_ :: _) => true | _ => false end.

Section Constructor.

Variable X : Externals.

(** From the start of the constructor to the check of
    [defaultReleaseBranch].  The state it starts from is [this] after
    [super(options)] and [new NodePackage(this, options)]. *)
Definition constructor_setup (options : NodeProjectOptions) : M unit :=
  (* the [default] branch of this [switch] throws; [NodePackageManager] has
     no fourth value *)
  modify (λ this, set_runScriptCommand
    (Some match pkg_packageManager (package this) with
          | NPM => "npm run"
          | YARN => "yarn run"
          | PNPM => "pnpm run"
          end) this);;
  modify (λ this, set_nodeVersion
    (match opt_workflowNodeVersion options with
     | Some v => Some v
     | None => pkg_minNodeVersion (package this)
     end) this);;
  modify (λ this, set_tasks_env
    (<["PATH" := "$(npx -c " +:+ dquote +:+ "node -e " +:+ backslash +:+ dquote
                 +:+ "console.log(process.env.PATH)" +:+ backslash +:+ dquote
                 +:+ dquote +:+ ")"]> (tasks_env this)) this);;
  addTask "compile" "Only compile" BUILD;;
  addTask "test:compile" "compiles the test code" TEST;;
  addTask "test" "Run tests" TEST;;
  task_step "test" (Spawn "test:compile");;
  addTask "build" "Full release build (test+compile)" BUILD;;
  when (default true (opt_projenDuringBuild options))
    (parent ← gets parent;
     when (negb parent)
       (projenCommand ← gets (λ this, pkg_projenCommand (package this));
        task_step "build" (Exec projenCommand)));;
  addLicense options;;
  modify (λ this, set_npmDistTag (Some (pkg_npmDistTag (package this))) this);;
  modify (λ this, set_npmRegistry (Some (pkg_npmRegistry (package this))) this);;
  when (default true (opt_npmignoreEnabled options))
    (modify (addComponent NpmIgnoreFile);;
     modify (set_npmignore (Some [])));;
  addDefaultGitIgnore;;
  when (truthy_length (opt_gitignore options))
    (gitignore_add (Exclude <$> default [] (opt_gitignore options)));;
  (if truthy_length (opt_npmignore options) then
     npmignore ← gets npmignore;
     if npmignore is None then throw err_npmignore
     else npmignore_exclude (default [] (opt_npmignore options))
   else mret tt);;
  projenCommand ← gets (λ this, pkg_projenCommand (package this));
  setScript PROJEN_SCRIPT projenCommand;;
  setScript "start" (projenCommand +:+ " start");;
  npmignore_exclude ["/" +:+ PROJEN_RC X];;
  npmignore_exclude ["/" +:+ PROJEN_DIR X];;
  gitignore_add [Include ("/" +:+ PROJEN_RC X)];;
  (let projen := default true (opt_projenDevDependency options) in
   when projen
     (let projenVersion := default ("^" +:+ PROJEN_VERSION X) (opt_projenVersion options) in
      addDevDeps ["projen@" +:+ projenVersion]));;
  if negb (truthy_string (opt_defaultReleaseBranch options))
  then throw err_defaultReleaseBranch
  else mret tt.

(** The anti-tamper flag, the test framework and the build workflow. *)
Definition constructor_build (options : NodeProjectOptions) : M unit :=
  buildEnabled ← gets (enabledUnlessSubproject (opt_buildWorkflow options));
  modify (set_antitamper (Some (buildEnabled && default true (opt_antitamper options))));;
  when (default true (opt_jest options))
    (modify (addComponent (JestComponent (opt_jestOptions options)));;
     modify (set_jest (Some {| jest_config := Jest_config X (opt_jestOptions options) |})));;
  enabled ← gets (enabledUnlessSubproject (opt_buildWorkflow options));
  when enabled
    (workflow ← createBuildWorkflow "Build" (buildWorkflowOptions options);
     modify (set_buildWorkflow (Some workflow));;
     modify (set_buildWorkflowJobId (Some (bw_jobId (buildWorkflowOptions options))))).

(** The release workflow, or the validation of the release options. *)
Definition constructor_release (options : NodeProjectOptions) : M unit :=
  enabled ← gets (enabledUnlessSubproject (opt_releaseWorkflow options));
  if (enabled : bool) then
    addDevDeps [STANDARD_VERSION X];;
    install ← gets installWorkflowSteps;
    modify (addComponent (ReleaseComponent "build"
      (install ++ default [] (opt_releaseWorkflowSetupSteps options))));;
    modify (set_release (Some {| release_publishToNpm := [] |}));;
    when (default false (opt_releaseToNpm options))
      (modify (λ this, set_release
         (release_publishToNpm_add
            {| npm_distTag := pkg_npmDistTag (package this);
               npm_registry := pkg_npmRegistry (package this);
               npm_npmTokenSecret := pkg_npmTokenSecret (package this) |}
          <$> release this) this))
  else
    (if truthy_bool (opt_releaseToNpm options)
     then throw (err_not_supported "releaseToNpm") else mret tt);;
    (if truthy_object (opt_releaseBranches options)
     then throw (err_not_supported "releaseBranches") else mret tt);;
    (if truthy_bool (opt_releaseEveryCommit options)
     then throw (err_not_supported "releaseEveryCommit") else mret tt);;
    (if truthy_string (opt_releaseSchedule options)
     then throw (err_not_supported "releaseSchedule") else mret tt).

(** The auto-merge policy. *)
Definition constructor_autoMerge (options : NodeProjectOptions) : M unit :=
  mergify ← gets (λ this, from_option gh_mergify false (github this));
  when mergify
    (buildJob ← gets buildWorkflowJobId;
     modify (addComponent (AutoMergeComponent buildJob (opt_mergifyAutoMergeLabel options)));;
     modify (set_autoMerge (Some
       {| am_autoMergeLabel := AutoMerge_autoMergeLabel X (opt_mergifyAutoMergeLabel options) |}));;
     npmignore_exclude ["/.mergify.yml"]).

(** The choice and the binding of the upgrade mechanism; the result is
    [dependenciesUpgrade]. *)
Definition constructor_depsUpgrade (options : NodeProjectOptions)
  : M DependenciesUpgradeMechanism :=
  (if truthy_object (opt_dependabot options) && truthy_object (opt_depsUpgrade options)
   then throw err_dependabot else mret tt);;
  let defaultDependenciesUpgrade :=
    if default false (opt_dependabot options)
    then dependabot noDependabotOptions
    else githubWorkflow noUpgradeDependenciesOptions in
  let dependenciesUpgrade := default defaultDependenciesUpgrade (opt_depsUpgrade options) in
  bind dependenciesUpgrade;;
  mret dependenciesUpgrade.

(** The options of the upgrade of the generator's own package. *)
Definition projenUpgradeOptions (options : NodeProjectOptions) (this : NodeProject)
  : UpgradeDependenciesOptions :=
  let projenAutoMerge := default true (opt_projenUpgradeAutoMerge options) in
  let autoMergeLabel := am_autoMergeLabel <$> autoMerge this in
  {| upg_include := Some ["projen"];
     upg_taskName := Some "upgrade-projen";
     upg_pullRequestTitle := Some "upgrade projen";
     upg_ignoreProjen := Some false;
     upg_workflow := Some (truthy_string (opt_projenUpgradeSecret options));
     upg_workflowOptions := Some
       {| uwo_schedule := Some (Expressions
            (default ["0 6 * * *"] (opt_projenUpgradeSchedule options)));
          uwo_secret := opt_projenUpgradeSecret options;
          uwo_labels := Some
            (if projenAutoMerge && truthy_string autoMergeLabel
             then [interpolate autoMergeLabel] else []) |} |}.

Definition constructor_projenUpgrade (options : NodeProjectOptions)
    (dependenciesUpgrade : DependenciesUpgradeMechanism) : M unit :=
  packageName ← gets (λ this, pkg_packageName (package this));
  when (ignoresProjen dependenciesUpgrade && negb (bool_decide (packageName = "projen")))
    (modify (λ this, addComponent (UpgradeDependencies (projenUpgradeOptions options this)) this)).

(** The pull-request template and the generator-config file. *)
Definition constructor_finish (options : NodeProjectOptions) : M unit :=
  when (default true (opt_pullRequestTemplate options))
    (with_github (gh_addPullRequestTemplate
       (from_option spread_string [] (opt_pullRequestTemplateContents options))));;
  (let projenrcJs := default true (opt_projenrcJs options) in
   when projenrcJs (modify (addComponent (Projenrc (opt_projenrcJsOptions options))))).

(** [constructor(options)], after [super(options)] and
    [new NodePackage(this, options)]. *)
Definition constructor (options : NodeProjectOptions) : M unit :=
  constructor_setup options;;
  constructor_build options;;
  constructor_release options;;
  constructor_autoMerge options;;
  dependenciesUpgrade ← constructor_depsUpgrade options;
  constructor_projenUpgrade options dependenciesUpgrade;;
  constructor_finish options.

End Constructor.

(** ** Step categories *)

(** The categories of the steps of a build job, in the order in which the
    specification lists them. *)
Inductive StepCategory :=
| PreCheckout | Checkout | Install | AntiTamperPre | GitIdentity
| PreBuild | Build | CoverageUpload | Post | AntiTamperPost.

Definition category_rank (c : StepCategory) : nat :=
  match c with
  | PreCheckout => 0 | Checkout => 1 | Install => 2 | AntiTamperPre => 3
  | GitIdentity => 4 | PreBuild => 5 | Build => 6 | CoverageUpload => 7
  | Post => 8 | AntiTamperPost => 9
  end.

Definition categoryOrder (c1 c2 : StepCategory) : Prop :=
  category_rank c1 ≤ category_rank c2.

(** The specification's account of the step sequence: every step with the
    category it is emitted for.  It is compared with [job_steps (buildJob
    this options)] below. *)
Definition categorisedSteps (this : NodeProject) (options : NodeBuildWorkflowOptions)
  : list (StepCategory * JobStep) :=
  ((PreCheckout,.) <$> default [] (bw_preCheckoutSteps options))
  ++ [(Checkout, checkoutStep options)]
  ++ ((Install,.) <$> installWorkflowSteps this)
  ++ ((AntiTamperPre,.) <$> antitamperSteps this options)
  ++ [(GitIdentity, gitIdentityStep)]
  ++ ((PreBuild,.) <$> default [] (bw_preBuildSteps options))
  ++ [(Build, buildStep this)]
  ++ ((CoverageUpload,.) <$> codecovSteps this options)
  ++ ((Post,.) <$> default [] (bw_postSteps options))
  ++ ((AntiTamperPost,.) <$> antitamperSteps this options).

(** A step that uploads coverage. *)
Definition isCoverageUpload (s : JobStep) : Prop :=
  step_uses s = Some "codecov/codecov-action@v1".

#[export] Instance isCoverageUpload_dec s : Decision (isCoverageUpload s).
Proof. unfold isCoverageUpload. apply _. Defined.

(** Coverage reporting is asked for (the flag is set or a secret name is
    given) and the test framework reports a configuration. *)
Definition coverageRequested (this : NodeProject) (options : NodeBuildWorkflowOptions)
  : Prop :=
  (bw_codeCov options = Some true
   ∨ ∃ secret, bw_codeCovTokenSecret options = Some secret ∧ secret ≠ "")
  ∧ ∃ j, jest this = Some j ∧ truthy (jest_config j) = true.

(** The components created after the last construction-time check: the
    upgrade pipelines and the generator-config file. *)
Definition lateComponent (c : Component) : Prop :=
  match c with
  | UpgradeDependencies _ | Projenrc _ => True
  | _ => False
  end.

#[export] Instance lateComponent_dec c : Decision (lateComponent c).
Proof. destruct c; apply _. Defined.

(** The mechanism the constructor binds: [options.depsUpgrade ??
    defaultDependenciesUpgrade]. *)
Definition chosenMechanism (options : NodeProjectOptions) : DependenciesUpgradeMechanism :=
  default (if default false (opt_dependabot options)
           then dependabot noDependabotOptions
           else githubWorkflow noUpgradeDependenciesOptions)
          (opt_depsUpgrade options).

(** The components [constructor_finish] creates. *)
Definition finishComponents (options : NodeProjectOptions) : list Component :=
  if default true (opt_projenrcJs options)
  then [Projenrc (opt_projenrcJsOptions options)] else [].

(** One of the release options is set. *)
Definition releaseOptionSet (options : NodeProjectOptions) : Prop :=
  opt_releaseToNpm options = Some true
  ∨ (∃ branch branches, opt_releaseBranches options = Some (branch :: branches))
  ∨ opt_releaseEveryCommit options = Some true
  ∨ (∃ schedule, opt_releaseSchedule options = Some schedule ∧ schedule ≠ "").


(** ** Observations on computations and states *)

(** The job of a workflow registered with the GitHub collaborator. *)
Definition emittedJob (this : NodeProject) (workflow : nat) (jobId : string) : option Job :=
  g ← github this; w ← gh_workflows g !! workflow; wf_jobs w !! jobId.

(** The trigger filter has a truthy entry for ["issue_comment"]. *)
Definition refusedTrigger (options : NodeBuildWorkflowOptions) : bool :=
  from_option (λ trigger, truthy_any (trigger !! "issue_comment")) false (bw_trigger options).

(** The workflow document a successful [createBuildWorkflow] leaves:
    manual dispatch and the caller's triggers, and the build job. *)
Definition builtWorkflow (name : string) (options : NodeBuildWorkflowOptions)
    (this : NodeProject) : GithubWorkflow :=
  {| wf_name := name;
     wf_events := {[ "workflowDispatch" := JSObject [] ]} ∪ default ∅ (bw_trigger options);
     wf_jobs := {[ bw_jobId options := buildJob this options ]} |}.

(** The project whose GitHub collaborator [g] holds one more workflow. *)
Definition registerWorkflow (w : GithubWorkflow) (g : GitHub) (this : NodeProject)
  : NodeProject :=
  set_github (Some (gh_set_workflows (gh_workflows g ++ [w]) g)) this.

(** [m] leaves the observation [π] of the project unchanged, however it
    completes. *)
Definition preserves {A T} (π : NodeProject → T) (m : M A) : Prop :=
  ∀ this, π (m this).2 = π this.

(** [m] throws only errors whose message satisfies [E]. *)
Definition throwsOnly {A} (E : string → Prop) (m : M A) : Prop :=
  ∀ this message this', m this = (Throw (MkError message), this') → E message.

(** The messages of the checks of each phase of the constructor. *)
Definition setupError (message : string) : Prop :=
  message = err_npmignore ∨ message = err_defaultReleaseBranch.

Definition releaseOptionNames : list string :=
  ["releaseToNpm"; "releaseBranches"; "releaseEveryCommit"; "releaseSchedule"].

Definition releaseError (message : string) : Prop :=
  ∃ name, name ∈ releaseOptionNames ∧ message = err_not_supported name.


(** ** Sample inputs *)

Definition sampleExternals : Externals :=
  {| PROJEN_DIR := ".projen"; PROJEN_RC := ".projenrc.js"; PROJEN_VERSION := "0.17.0";
     STANDARD_VERSION := "standard-version@^9";
     Jest_config := λ _, JSObject [("coverageDirectory", JSString "coverage")];
     AutoMerge_autoMergeLabel := default "auto-merge" |}.

Definition samplePackage : NodePackage :=
  {| pkg_packageName := "my-project"; pkg_packageManager := YARN;
     pkg_npmTaskExecution := PROJEN; pkg_projenCommand := "npx projen";
     pkg_installCommand := "yarn install --check-files --frozen-lockfile";
     pkg_minNodeVersion := Some "12.0.0"; pkg_license := Some "Apache-2.0";
     pkg_npmDistTag := "latest"; pkg_npmRegistry := "registry.npmjs.org";
     pkg_npmTokenSecret := None; pkg_devDeps := []; pkg_scripts := ∅ |}.

Definition sampleGitHub : GitHub :=
  {| gh_mergify := true; gh_workflows := []; gh_dependabot := [];
     gh_pullRequestTemplate := [] |}.

(** A root project right after [super(options)] and
    [new NodePackage(this, options)], with or without GitHub support. *)
Definition sampleProject (github : option GitHub) : NodeProject :=
  {| parent := false; github := github; gitignore := []; tasks_env := ∅; tasks := ∅;
     components := []; package := samplePackage; npmignore := None;
     runScriptCommand := None; nodeVersion := None; npmDistTag := None;
     npmRegistry := None; antitamper := None; jest := None; buildWorkflow := None;
     buildWorkflowJobId := None; release := None; autoMerge := None |}.

(** The same project further on in its construction: node version, script
    command, anti-tamper flag and test framework are set. *)
Definition sampleConfiguredProject : NodeProject :=
  set_jest (Some {| jest_config := Jest_config sampleExternals None |})
    (set_antitamper (Some true)
       (set_nodeVersion (Some "12.0.0")
          (set_runScriptCommand (Some "yarn run") (sampleProject (Some sampleGitHub))))).

(** Project options: the default release branch ["main"], the build
    workflow asked for, and the given release and upgrade options. *)
Definition sampleOptions (releaseWorkflow releaseToNpm dependabot : option bool)
    (depsUpgrade : option DependenciesUpgradeMechanism) : NodeProjectOptions :=
  {| opt_copyrightOwner := None; opt_authorName := None; opt_copyrightPeriod := None;
     opt_projenVersion := None; opt_projenDevDependency := None;
     opt_buildWorkflow := Some true; opt_mutableBuild := None; opt_antitamper := None;
     opt_codeCov := None; opt_codeCovTokenSecret := None;
     opt_releaseWorkflow := releaseWorkflow;
     opt_releaseWorkflowSetupSteps := None; opt_releaseToNpm := releaseToNpm;
     opt_releaseBranches := None; opt_releaseEveryCommit := None;
     opt_releaseSchedule := None; opt_defaultReleaseBranch := Some "main";
     opt_workflowNodeVersion := None; opt_workflowContainerImage := None;
     opt_dependabot := dependabot; opt_depsUpgrade := depsUpgrade;
     opt_mergifyAutoMergeLabel := None; opt_projenUpgradeSecret := None;
     opt_projenUpgradeAutoMerge := None; opt_projenUpgradeSchedule := None;
     opt_projenDuringBuild := None; opt_npmignoreEnabled := None; opt_npmignore := None;
     opt_pullRequestTemplate := None; opt_pullRequestTemplateContents := None;
     opt_gitignore := None; opt_jest := None; opt_jestOptions := None;
     opt_projenrcJs := None; opt_projenrcJsOptions := None |}.

Definition sampleStep (name command : string) : JobStep :=
  {| step_name := Some name; step_id := None; step_if := None; step_uses := None;
     step_run := Some command; step_with := None; step_env := None |}.

(** Build-workflow options with the given trigger filter and environment,
    caller-supplied steps, anti-tamper and coverage with a secret name. *)
Definition sampleBuildOptions (trigger : option (gmap string JSValue))
    (env : option (gmap string string)) : NodeBuildWorkflowOptions :=
  {| bw_jobId := "build"; bw_image := None; bw_condition := None; bw_trigger := trigger;
     bw_codeCov := Some true; bw_codeCovTokenSecret := Some "CODECOV_TOKEN";
     bw_preBuildSteps := Some [sampleStep "Lint" "yarn lint"];
     bw_preCheckoutSteps := Some [sampleStep "Greet" "echo hello"];
     bw_postSteps := Some [sampleStep "Report" "yarn report"];
     bw_checkoutWith := None; bw_antitamperDisabled := Some false; bw_env := env;
     bw_permissions := {[ "contents" := READ ]} |}.

(** ** The states of a successful construction *)

(** The project after the anti-tamper flag and the test framework are set
    (the constructor up to the build workflow). *)
Definition jestState (X : Externals) (options : NodeProjectOptions) (this : NodeProject)
  : NodeProject :=
  let this0 :=
    set_antitamper
      (Some (enabledUnlessSubproject (opt_buildWorkflow options) this
             && default true (opt_antitamper options))) this in
  if default true (opt_jest options)
  then set_jest (Some {| jest_config := Jest_config X (opt_jestOptions options) |})
         (addComponent (JestComponent (opt_jestOptions options)) this0)
  else this0.

(** The project after the build workflow was created for the GitHub
    collaborator [g]. *)
Definition builtState (X : Externals) (options : NodeProjectOptions) (g : GitHub)
    (this : NodeProject) : NodeProject :=
  let this0 := jestState X options this in
  set_buildWorkflowJobId (Some "build")
    (set_buildWorkflow (Some (length (gh_workflows g)))
       (registerWorkflow (builtWorkflow "Build" (buildWorkflowOptions options) this0) g this0)).

(** The project after the release workflow was set up. *)
Definition releasedState (X : Externals) (options : NodeProjectOptions) (this : NodeProject)
  : NodeProject :=
  let this0 :=
    set_release (Some {| release_publishToNpm := [] |})
      (addComponent
         (ReleaseComponent "build"
            (installWorkflowSteps this
             ++ default [] (opt_releaseWorkflowSetupSteps options)))
         (set_package (pkg_addDevDeps [STANDARD_VERSION X] (package this)) this)) in
  if default false (opt_releaseToNpm options)
  then set_release
         (Some {| release_publishToNpm :=
                    [ {| npm_distTag := pkg_npmDistTag (package this);
                         npm_registry := pkg_npmRegistry (package this);
                         npm_npmTokenSecret := pkg_npmTokenSecret (package this) |} ] |})
         this0
  else this0.

(** The project after the auto-merge policy was set up. *)
Definition autoMergedState (X : Externals) (options : NodeProjectOptions)
    (this : NodeProject) : NodeProject :=
  if from_option gh_mergify false (github this)
  then set_npmignore ((λ l, l ++ [Exclude "/.mergify.yml"]) <$> npmignore this)
         (set_autoMerge
            (Some {| am_autoMergeLabel :=
                       AutoMerge_autoMergeLabel X (opt_mergifyAutoMergeLabel options) |})
            (addComponent
               (AutoMergeComponent (buildWorkflowJobId this)
                  (opt_mergifyAutoMergeLabel options)) this))
  else this.

(** The project after the upgrade mechanism was bound and the upgrade of
    the generator's package was set up. *)
Definition upgradedState (options : NodeProjectOptions) (this : NodeProject)
  : NodeProject :=
  let this0 := binder (chosenMechanism options) this in
  if ignoresProjen (chosenMechanism options)
     && negb (bool_decide (pkg_packageName (package this0) = "projen"))
  then addComponent (UpgradeDependencies (projenUpgradeOptions options this0)) this0
  else this0.

(** The project after the pull-request template and the generator-config
    file were added. *)
Definition finishedState (options : NodeProjectOptions) (this : NodeProject)
  : NodeProject :=
  let this0 :=
    if default true (opt_pullRequestTemplate options)
    then set_github
           (gh_addPullRequestTemplate
              (from_option spread_string [] (opt_pullRequestTemplateContents options))
            <$> github this) this
    else this in
  if default true (opt_projenrcJs options)
  then addComponent (Projenrc (opt_projenrcJsOptions options)) this0
  else this0.

(** The first release option that is set, if any. *)
Definition releaseCheck (options : NodeProjectOptions) : option string :=
  if truthy_bool (opt_releaseToNpm options) then Some (err_not_supported "releaseToNpm")
  else if truthy_object (opt_releaseBranches options)
  then Some (err_not_supported "releaseBranches")
  else if truthy_bool (opt_releaseEveryCommit options)
  then Some (err_not_supported "releaseEveryCommit")
  else if truthy_string (opt_releaseSchedule options)
  then Some (err_not_supported "releaseSchedule")
  else None.

(** The check of the [npmignore] option and of [defaultReleaseBranch]. *)
Definition setupCheck (options : NodeProjectOptions) (this : NodeProject) : option string :=
  if truthy_length (opt_npmignore options)
     && negb (default true (opt_npmignoreEnabled options))
     && negb (truthy_object (npmignore this))
  then Some err_npmignore
  else if negb (truthy_string (opt_defaultReleaseBranch options))
  then Some err_defaultReleaseBranch
  else None.

(** The construction-time checks as a validator: the message of the first
    check that fails, in the order in which the constructor makes them. *)
Definition failedCheck (options : NodeProjectOptions) (this : NodeProject)
  : option string :=
  match setupCheck options this with
  | Some message => Some message
  | None =>
      if enabledUnlessSubproject (opt_buildWorkflow options) this
         && negb (truthy_object (github this))
      then Some err_no_github
      else
        match (if enabledUnlessSubproject (opt_releaseWorkflow options) this
               then None else releaseCheck options) with
        | Some message => Some message
        | None =>
            if truthy_object (opt_dependabot options)
               && truthy_object (opt_depsUpgrade options)
            then Some err_dependabot
            else None
        end
  end.

(** ** The setup phase in blocks *)

(** The blocks of [constructor_setup], in order: the script command, the
    node version and the [PATH] of the tasks; the tasks; the license and the
    ignore files; the check of the [npmignore] option; the scripts, the
    generator's files and its dependency; the check of
    [defaultReleaseBranch]. *)
Definition setup_environment (options : NodeProjectOptions) : M unit :=
  modify (λ this, set_runScriptCommand
    (Some match pkg_packageManager (package this) with
          | NPM => "npm run"
          | YARN => "yarn run"
          | PNPM => "pnpm run"
          end) this);;
  modify (λ this, set_nodeVersion
    (match opt_workflowNodeVersion options with
     | Some v => Some v
     | None => pkg_minNodeVersion (package this)
     end) this);;
  modify (λ this, set_tasks_env
    (<["PATH" := "$(npx -c " +:+ dquote +:+ "node -e " +:+ backslash +:+ dquote
                 +:+ "console.log(process.env.PATH)" +:+ backslash +:+ dquote
                 +:+ dquote +:+ ")"]> (tasks_env this)) this).

Definition setup_tasks (options : NodeProjectOptions) : M unit :=
  addTask "compile" "Only compile" BUILD;;
  addTask "test:compile" "compiles the test code" TEST;;
  addTask "test" "Run tests" TEST;;
  task_step "test" (Spawn "test:compile");;
  addTask "build" "Full release build (test+compile)" BUILD;;
  when (default true (opt_projenDuringBuild options))
    (parent ← gets parent;
     when (negb parent)
       (projenCommand ← gets (λ this, pkg_projenCommand (package this));
        task_step "build" (Exec projenCommand))).

Definition setup_files (options : NodeProjectOptions) : M unit :=
  addLicense options;;
  modify (λ this, set_npmDistTag (Some (pkg_npmDistTag (package this))) this);;
  modify (λ this, set_npmRegistry (Some (pkg_npmRegistry (package this))) this);;
  when (default true (opt_npmignoreEnabled options))
    (modify (addComponent NpmIgnoreFile);;
     modify (set_npmignore (Some [])));;
  addDefaultGitIgnore;;
  when (truthy_length (opt_gitignore options))
    (gitignore_add (Exclude <$> default [] (opt_gitignore options))).

Definition setup_npmignore (options : NodeProjectOptions) : M unit :=
  if truthy_length (opt_npmignore options) then
    npmignore ← gets npmignore;
    if npmignore is None then throw err_npmignore
    else npmignore_exclude (default [] (opt_npmignore options))
  else mret tt.

Definition setup_scripts (X : Externals) (options : NodeProjectOptions) : M unit :=
  projenCommand ← gets (λ this, pkg_projenCommand (package this));
  setScript PROJEN_SCRIPT projenCommand;;
  setScript "start" (projenCommand +:+ " start");;
  npmignore_exclude ["/" +:+ PROJEN_RC X];;
  npmignore_exclude ["/" +:+ PROJEN_DIR X];;
  gitignore_add [Include ("/" +:+ PROJEN_RC X)];;
  (let projen := default true (opt_projenDevDependency options) in
   when projen
     (let projenVersion := default ("^" +:+ PROJEN_VERSION X) (opt_projenVersion options) in
      addDevDeps ["projen@" +:+ projenVersion])).

Definition setup_defaultReleaseBranch (options : NodeProjectOptions) : M unit :=
  if negb (truthy_string (opt_defaultReleaseBranch options))
  then throw err_defaultReleaseBranch
  else mret tt.

(** The project at the check of the [npmignore] option. *)
Definition filesState (options : NodeProjectOptions) (this : NodeProject) : NodeProject :=
  (setup_files options (setup_tasks options (setup_environment options this).2).2).2.

(** The project at the end of the setup phase. *)
Definition setupState (X : Externals) (options : NodeProjectOptions) (this : NodeProject)
  : NodeProject :=
  (setup_scripts X options (setup_npmignore options (filesState options this)).2).2.

(** The project after the build phase, the release phase, and the whole
    constructor, when no check fails. *)
Definition buildPhaseState (X : Externals) (options : NodeProjectOptions)
    (this : NodeProject) : NodeProject :=
  if enabledUnlessSubproject (opt_buildWorkflow options) this
  then match github this with
       | Some g => builtState X options g this
       | None => jestState X options this
       end
  else jestState X options this.

Definition releasePhaseState (X : Externals) (options : NodeProjectOptions)
    (this : NodeProject) : NodeProject :=
  if enabledUnlessSubproject (opt_releaseWorkflow options) this
  then releasedState X options this else this.

Definition assembledState (X : Externals) (options : NodeProjectOptions)
    (this : NodeProject) : NodeProject :=
  finishedState options
    (upgradedState options
       (autoMergedState X options
          (releasePhaseState X options
             (buildPhaseState X options (setupState X options this))))).

(** The project in which the constructor builds the job of the build
    workflow, and that job. *)
Definition assembledBuildJob (X : Externals) (options : NodeProjectOptions)
    (this : NodeProject) : Job :=
  buildJob (jestState X options (setupState X options this)) (buildWorkflowOptions options).

(** [job] is the job ["build"] of the build workflow of the project. *)
Definition buildJobOf (this : NodeProject) (job : Job) : Prop :=
  ∃ workflow,
    buildWorkflow this = Some workflow ∧ emittedJob this workflow "build" = Some job.

(** The node version of the workflows:
    [options.workflowNodeVersion ?? this.package.minNodeVersion]. *)
Definition workflowNodeVersion (options : NodeProjectOptions) (this : NodeProject)
  : option string :=
  match opt_workflowNodeVersion options with
  | Some v => Some v
  | None => pkg_minNodeVersion (package this)
  end.

(** The command that runs the scripts of a package manager. *)
Definition scriptCommand (m : NodePackageManager) : string :=
  match m with NPM => "npm run" | YARN => "yarn run" | PNPM => "pnpm run" end.

(** The workflows of the GitHub collaborator, if there is one. *)
Definition registeredWorkflows (this : NodeProject) : option (list GithubWorkflow) :=
  gh_workflows <$> github this.

(** What the build job is computed from. *)
Definition jobInputs (this : NodeProject)
  : option string * string * option bool * option Jest * option string
    * NpmTaskExecution * string :=
  (nodeVersion this, pkg_installCommand (package this), antitamper this, jest this,
   runScriptCommand this, pkg_npmTaskExecution (package this),
   pkg_projenCommand (package this)).

(** The branch of the pull request, as the build workflow refers to it. *)
Definition pullRequestBranch : string := "${{ github.event.pull_request.head.ref }}".
Definition pullRequestRepository : string :=
  "${{ github.event.pull_request.head.repo.full_name }}".

(** The fields of the package that the constructor only reads. *)
Definition packageIdentity (p : NodePackage) :=
  (pkg_packageName p, pkg_packageManager p, pkg_npmTaskExecution p, pkg_projenCommand p,
   pkg_installCommand p, pkg_minNodeVersion p, pkg_license p, pkg_npmDistTag p,
   pkg_npmRegistry p, pkg_npmTokenSecret p).

Definition packageOf (this : NodeProject) := packageIdentity (package this).

(** The [Setup Node.js] step for a node version. *)
Definition setupNodeStep (version : string) : JobStep :=
  {| step_name := Some "Setup Node.js"; step_id := None; step_if := None;
     step_uses := Some "actions/setup-node@v1"; step_run := None;
     step_with := Some {[ "node-version" := JSString version ]}; step_env := None |}.

Definition installDependenciesStep (command : string) : JobStep :=
  {| step_name := Some "Install dependencies"; step_id := None; step_if := None;
     step_uses := None; step_run := Some command; step_with := None; step_env := None |}.

(** The components the constructor creates, in the order of their creation,
    for the options and the project it starts from; [final] is the
    assembled project. *)
Definition createdComponents (options : NodeProjectOptions) (this final : NodeProject)
  : list Component :=
  (if truthy_string (pkg_license (package this))
   then [License (interpolate (pkg_license (package this)))
           (match opt_copyrightOwner options with
            | Some owner => Some owner
            | None => opt_authorName options
            end)
           (opt_copyrightPeriod options)]
   else [])
  ++ (if default true (opt_npmignoreEnabled options) then [NpmIgnoreFile] else [])
  ++ (if default true (opt_jest options) then [JestComponent (opt_jestOptions options)]
      else [])
  ++ (if enabledUnlessSubproject (opt_releaseWorkflow options) this
      then [ReleaseComponent "build"
              (installWorkflowSteps final
               ++ default [] (opt_releaseWorkflowSetupSteps options))]
      else [])
  ++ (if from_option gh_mergify false (github this)
      then [AutoMergeComponent (buildWorkflowJobId final)
              (opt_mergifyAutoMergeLabel options)]
      else [])
  ++ match chosenMechanism options with
     | githubWorkflow upgradeOptions => [UpgradeDependencies upgradeOptions]
     | _ => []
     end
  ++ (if ignoresProjen (chosenMechanism options)
         && negb (bool_decide (pkg_packageName (package this) = "projen"))
      then [UpgradeDependencies (projenUpgradeOptions options final)]
      else [])
  ++ finishComponents options.

(** Observations that decide which components are created. *)
Definition mergifyOf (this : NodeProject) : bool := from_option gh_mergify false (github this).
Definition packageNameOf (this : NodeProject) : string := pkg_packageName (package this).

(** The bot configurations and the pull-request templates of the GitHub
    collaborator, if there is one. *)
Definition dependabotOf (this : NodeProject) : option (list DependabotOptions) :=
  gh_dependabot <$> github this.
Definition templatesOf (this : NodeProject) : option (list (list string)) :=
  gh_pullRequestTemplate <$> github this.
Definition mergifyFlagOf (this : NodeProject) : option bool := gh_mergify <$> github this.

(** The development dependencies and the scripts of the package. *)
Definition devDepsOf (this : NodeProject) : list string := pkg_devDeps (package this).
Definition scriptsOf (this : NodeProject) : gmap string string := pkg_scripts (package this).

(** What [publishToNpm] is given: the coordinates of the package. *)
Definition npmPublishOptions (p : NodePackage) : NpmPublishOptions :=
  {| npm_distTag := pkg_npmDistTag p; npm_registry := pkg_npmRegistry p;
     npm_npmTokenSecret := pkg_npmTokenSecret p |}.

(** ** The deprecated command wrappers *)

(** [for (const x of l) { body(x) }]. *)
Fixpoint for_of {A} (l : list A) (body : A → M unit) : M unit :=
  match l with
  | [] => mret tt
  | x :: rest => body x;; for_of rest body
  end.

(** [addCompileCommand(...commands)], [addTestCommand(...commands)] and
    [addBuildCommand(...commands)]. *)
Definition addCompileCommand (commands : list string) : M unit :=
  for_of commands (λ c, task_step "compile" (Exec c)).

Definition addTestCommand (commands : list string) : M unit :=
  for_of commands (λ c, task_step "test" (Exec c)).

Definition addBuildCommand (commands : list string) : M unit :=
  for_of commands (λ c, task_step "build" (Exec c)).

(** A task with more steps at its end. *)
Definition task_add_steps (steps : list TaskStep) (t : Task) : Task :=
  {| task_name := task_name t; task_description := task_description t;
     task_category := task_category t; task_steps := task_steps t ++ steps |}.

(** The task that [addTask] creates, with the given steps. *)
Definition newTask (name description : string) (category : TaskCategory)
    (steps : list TaskStep) : Task :=
  {| task_name := name; task_description := description; task_category := category;
     task_steps := steps |}.

(** [t] is the task that [addTask] creates for that name, description and
    category, and its steps start with [steps]. *)
Definition startsAs (name description : string) (category : TaskCategory)
    (steps : list TaskStep) (t : Task) : Prop :=
  task_name t = name ∧ task_description t = description ∧ task_category t = category
  ∧ steps `prefix_of` task_steps t.

(** ** Further sample inputs *)

(** The options [{ defaultReleaseBranch: "main" }]. *)
Definition defaultOptions : NodeProjectOptions :=
  {| opt_copyrightOwner := None; opt_authorName := None; opt_copyrightPeriod := None;
     opt_projenVersion := None; opt_projenDevDependency := None;
     opt_buildWorkflow := None; opt_mutableBuild := None; opt_antitamper := None;
     opt_codeCov := None; opt_codeCovTokenSecret := None;
     opt_releaseWorkflow := None;
     opt_releaseWorkflowSetupSteps := None; opt_releaseToNpm := None;
     opt_releaseBranches := None; opt_releaseEveryCommit := None;
     opt_releaseSchedule := None; opt_defaultReleaseBranch := Some "main";
     opt_workflowNodeVersion := None; opt_workflowContainerImage := None;
     opt_dependabot := None; opt_depsUpgrade := None;
     opt_mergifyAutoMergeLabel := None; opt_projenUpgradeSecret := None;
     opt_projenUpgradeAutoMerge := None; opt_projenUpgradeSchedule := None;
     opt_projenDuringBuild := None; opt_npmignoreEnabled := None; opt_npmignore := None;
     opt_pullRequestTemplate := None; opt_pullRequestTemplateContents := None;
     opt_gitignore := None; opt_jest := None; opt_jestOptions := None;
     opt_projenrcJs := None; opt_projenrcJsOptions := None |}.

(** A subproject right after [super(options)] and
    [new NodePackage(this, options)], without GitHub support. *)
Definition sampleSubproject : NodeProject :=
  {| parent := true; github := None; gitignore := []; tasks_env := ∅; tasks := ∅;
     components := []; package := samplePackage; npmignore := None;
     runScriptCommand := None; nodeVersion := None; npmDistTag := None;
     npmRegistry := None; antitamper := None; jest := None; buildWorkflow := None;
     buildWorkflowJobId := None; release := None; autoMerge := None |}.

(** * Properties *)

(** ** The build-workflow builder *)

Lemma alter_last {A} (f : A → A) (l : list A) (x : A) :
  alter f (length l) (l ++ [x]) = l ++ [f x].
Proof. induction l; simpl; [done | by f_equal]. Qed.

Lemma createBuildWorkflow_no_github name options this :
  github this = None →
  createBuildWorkflow name options this = (Throw (MkError err_no_github), this).
Proof. intros H. unfold createBuildWorkflow, mbind, M_bind, gets. by rewrite H. Qed.

Lemma createBuildWorkflow_refused name options this g :
  github this = Some g → refusedTrigger options = true →
  createBuildWorkflow name options this
  = (Throw (MkError err_issue_comment), registerWorkflow (emptyWorkflow name) g this).
Proof.
  intros H R. unfold createBuildWorkflow, mbind, M_bind, gets. rewrite H.
  unfold refusedTrigger in R. destruct (bw_trigger options) as [trigger|]; [|done].
  simpl in R. unfold addWorkflow, with_github, mbind, M_bind, gets, modify. simpl.
  rewrite H, R. reflexivity.
Qed.

Lemma createBuildWorkflow_accepted name options this g :
  github this = Some g → refusedTrigger options = false →
  createBuildWorkflow name options this
  = (Normal (length (gh_workflows g)), registerWorkflow (builtWorkflow name options this) g this).
Proof.
  intros H R. unfold createBuildWorkflow, mbind, M_bind, gets. rewrite H.
  unfold refusedTrigger in R. unfold registerWorkflow, builtWorkflow.
  unfold addWorkflow, with_workflow, with_github, mbind, M_bind, gets, modify, mret, M_ret.
  simpl. rewrite H. simpl.
  destruct (bw_trigger options) as [trigger|]; simpl in *.
  - rewrite R. simpl. repeat (rewrite !alter_last; simpl).
    unfold wf_addJobs, wf_on, emptyWorkflow. simpl.
    by rewrite !(right_id_L ∅ (∪)).
  - repeat (rewrite !alter_last; simpl).
    unfold wf_addJobs, wf_on, emptyWorkflow. simpl.
    by rewrite !(right_id_L ∅ (∪)).
Qed.

Lemma createBuildWorkflow_cases name options this :
  match github this with
  | None =>
      createBuildWorkflow name options this = (Throw (MkError err_no_github), this)
  | Some g =>
      if refusedTrigger options then
        createBuildWorkflow name options this
        = (Throw (MkError err_issue_comment), registerWorkflow (emptyWorkflow name) g this)
      else
        createBuildWorkflow name options this
        = (Normal (length (gh_workflows g)),
           registerWorkflow (builtWorkflow name options this) g this)
  end.
Proof.
  destruct (github this) as [g|] eqn:G.
  - destruct (refusedTrigger options) eqn:R.
    + by apply createBuildWorkflow_refused.
    + by apply createBuildWorkflow_accepted.
  - by apply createBuildWorkflow_no_github.
Qed.

Lemma emittedJob_registerWorkflow name options this g :
  emittedJob (registerWorkflow (builtWorkflow name options this) g this)
    (length (gh_workflows g)) (bw_jobId options)
  = Some (buildJob this options).
Proof.
  unfold emittedJob, registerWorkflow. simpl.
  rewrite list_lookup_middle by done. simpl. apply lookup_singleton_eq.
Qed.

(** A build workflow that was created holds the job [buildJob]. *)
Lemma createBuildWorkflow_emits name options this workflow this' :
  createBuildWorkflow name options this = (Normal workflow, this') →
  emittedJob this' workflow (bw_jobId options) = Some (buildJob this options).
Proof.
  intros E. pose proof (createBuildWorkflow_cases name options this) as C.
  destruct (github this) as [g|]; [destruct (refusedTrigger options)|];
    rewrite C in E; try discriminate.
  injection E as <- <-. apply emittedJob_registerWorkflow.
Qed.

Lemma buildJob_steps this options :
  job_steps (buildJob this options)
  = default [] (bw_preCheckoutSteps options)
    ++ [checkoutStep options]
    ++ installWorkflowSteps this
    ++ antitamperSteps this options
    ++ [gitIdentityStep]
    ++ default [] (bw_preBuildSteps options)
    ++ [buildStep this]
    ++ codecovSteps this options
    ++ default [] (bw_postSteps options)
    ++ antitamperSteps this options.
Proof. unfold buildJob. by destruct (truthy_string (bw_image options)). Qed.

Lemma buildJob_env this options :
  job_env (buildJob this options) = default ∅ (bw_env options) ∪ {[ "CI" := "true" ]}.
Proof. unfold buildJob. by destruct (truthy_string (bw_image options)). Qed.

Lemma categorisedSteps_steps this options :
  (categorisedSteps this options).*2 = job_steps (buildJob this options).
Proof.
  rewrite buildJob_steps. unfold categorisedSteps.
  rewrite !fmap_app, <- !list_fmap_compose. simpl.
  by rewrite !list_fmap_id.
Qed.

Lemma Forall_labelled {A} (P : StepCategory → Prop) c (l : list A) :
  P c → Forall P ((c,.) <$> l).*1.
Proof. intros H. rewrite <- list_fmap_compose. apply Forall_fmap, Forall_true. by intros. Qed.

Lemma sorted_labelled {A} c (l : list A) (rest : list (StepCategory * A)) :
  Forall (categoryOrder c) rest.*1 →
  StronglySorted categoryOrder rest.*1 →
  StronglySorted categoryOrder (((c,.) <$> l) ++ rest).*1.
Proof.
  intros F S. induction l as [|x l IH]; simpl; [done|].
  constructor; [done|].
  rewrite fmap_app. apply Forall_app. split; [|done].
  apply Forall_labelled. unfold categoryOrder. lia.
Qed.

Lemma sorted_single {A} c (x : A) (rest : list (StepCategory * A)) :
  Forall (categoryOrder c) rest.*1 →
  StronglySorted categoryOrder rest.*1 →
  StronglySorted categoryOrder ([(c, x)] ++ rest).*1.
Proof. intros. by apply (sorted_labelled c [x]). Qed.

Lemma sorted_last {A} c (l : list A) :
  StronglySorted categoryOrder ((c,.) <$> l).*1.
Proof.
  pose proof (sorted_labelled c l []) as H. rewrite app_nil_r in H.
  apply H; constructor.
Qed.

Ltac solve_category_bound :=
  repeat (rewrite fmap_app; apply Forall_app; split);
  first [ apply Forall_labelled; unfold categoryOrder; simpl; lia
        | repeat constructor; unfold categoryOrder; simpl; lia ].

Lemma categorisedSteps_sorted this options :
  StronglySorted categoryOrder (categorisedSteps this options).*1.
Proof.
  unfold categorisedSteps.
  repeat first
    [ apply sorted_labelled; [solve_category_bound|]
    | apply sorted_single; [solve_category_bound|] ].
  apply sorted_last.
Qed.

(** C1. For every options set on which the build-workflow builder succeeds,
    the steps of the emitted job are, in this order: the pre-checkout steps,
    the checkout step, the install steps, the anti-tamper steps, the
    git-identity step, the pre-build steps, the build step, the coverage
    upload steps, the post steps and the anti-tamper steps again; labelled
    with their categories, the sequence is sorted by the fixed category
    order, so no step appears before a step of an earlier category. *)
Theorem build_job_steps_follow_category_order name options this workflow this' :
  createBuildWorkflow name options this = (Normal workflow, this') →
  ∃ job,
    emittedJob this' workflow (bw_jobId options) = Some job
    ∧ job_steps job = (categorisedSteps this options).*2
    ∧ StronglySorted categoryOrder (categorisedSteps this options).*1.
Proof.
  intros E. exists (buildJob this options). split; [|split].
  - by eapply createBuildWorkflow_emits.
  - symmetry. apply categorisedSteps_steps.
  - apply categorisedSteps_sorted.
Qed.


(** C10. The environment of the emitted build job has [CI = 'true'] whenever
    the caller's environment map does not define [CI]; every entry of the
    caller's map, [CI] included, is in the job's environment with the
    caller's value. *)
Theorem build_job_env_CI name options this workflow this' :
  createBuildWorkflow name options this = (Normal workflow, this') →
  ∃ job,
    emittedJob this' workflow (bw_jobId options) = Some job
    ∧ (default ∅ (bw_env options) !! "CI" = None → job_env job !! "CI" = Some "true")
    ∧ (∀ value, default ∅ (bw_env options) !! "CI" = Some value →
         job_env job !! "CI" = Some value)
    ∧ (∀ key value, default ∅ (bw_env options) !! key = Some value →
         job_env job !! key = Some value).
Proof.
  intros E. exists (buildJob this options). split; [by eapply createBuildWorkflow_emits|].
  rewrite buildJob_env. split; [|split].
  - intros H. rewrite lookup_union_r by done. apply lookup_singleton_eq.
  - intros value H. by apply lookup_union_Some_l.
  - intros key value H. by apply lookup_union_Some_l.
Qed.

Lemma coverageRequested_true this options :
  coverageRequested this options
  ↔ (truthy_bool (bw_codeCov options) || truthy_string (bw_codeCovTokenSecret options))
    && truthy_any (jestConfig this) = true.
Proof.
  unfold coverageRequested, jestConfig. rewrite andb_true_iff, orb_true_iff. split.
  - intros [Hreq (j & -> & Hc)]. split; [|done].
    destruct Hreq as [->|(secret & -> & Hne)]; [by left|right].
    simpl. by rewrite bool_decide_eq_false_2.
  - intros [C1 C2]. split.
    + destruct C1 as [C1|C1].
      * left. by destruct (bw_codeCov options) as [[]|].
      * right. destruct (bw_codeCovTokenSecret options) as [secret|]; [|done].
        exists secret. split; [done|]. simpl in C1.
        intros ->. by rewrite bool_decide_eq_true_2 in C1.
    + destruct (jest this) as [j|]; [|done]. by exists j.
Qed.

Lemma codecovSteps_requested this options :
  coverageRequested this options → codecovSteps this options = [codecovStep this options].
Proof. rewrite coverageRequested_true. unfold codecovSteps. by intros ->. Qed.

Lemma codecovSteps_not_requested this options :
  ¬ coverageRequested this options → codecovSteps this options = [].
Proof.
  rewrite coverageRequested_true. unfold codecovSteps. by destruct (_ && _).
Qed.

Lemma filter_coverage_install this :
  filter isCoverageUpload (installWorkflowSteps this) = [].
Proof. unfold installWorkflowSteps. by destruct (truthy_string (nodeVersion this)). Qed.

Lemma filter_coverage_antitamper this options :
  filter isCoverageUpload (antitamperSteps this options) = [].
Proof. unfold antitamperSteps. by destruct (_ || _). Qed.

Lemma filter_coverage_codecov this options :
  filter isCoverageUpload (codecovSteps this options) = codecovSteps this options.
Proof. unfold codecovSteps. by destruct (_ && _). Qed.

(** C6. The coverage-upload steps of the emitted job are those the caller
    supplied among its own steps and the one the builder splices in between
    the build step and the post steps; the builder's step is there if and
    only if the coverage flag is set or a secret name is supplied, and the
    test framework reports a configuration.  With a secret name its [with]
    object holds the token reference and the coverage directory, otherwise
    the directory alone. *)
Theorem coverage_upload_step name options this workflow this' :
  createBuildWorkflow name options this = (Normal workflow, this') →
  ∃ job,
    emittedJob this' workflow (bw_jobId options) = Some job
    ∧ filter isCoverageUpload (job_steps job)
      = filter isCoverageUpload (default [] (bw_preCheckoutSteps options))
        ++ filter isCoverageUpload (default [] (bw_preBuildSteps options))
        ++ codecovSteps this options
        ++ filter isCoverageUpload (default [] (bw_postSteps options))
    ∧ (codecovSteps this options = [codecovStep this options]
       ↔ coverageRequested this options)
    ∧ (codecovSteps this options = [] ↔ ¬ coverageRequested this options)
    ∧ let directory := js_get "coverageDirectory" (default JSUndefined (jestConfig this)) in
      (∀ secret, bw_codeCovTokenSecret options = Some secret → secret ≠ "" →
         step_with (codecovStep this options)
         = Some {[ "token" := JSString ("${{ secrets." +:+ secret +:+ " }}");
                   "directory" := directory ]})
      ∧ (truthy_string (bw_codeCovTokenSecret options) = false →
         step_with (codecovStep this options) = Some {[ "directory" := directory ]}).
Proof.
  intros E. exists (buildJob this options). split; [by eapply createBuildWorkflow_emits|].
  split; [|split; [|split; [|split]]].
  - rewrite buildJob_steps, !filter_app, filter_coverage_install,
      !filter_coverage_antitamper, filter_coverage_codecov.
    simpl. by rewrite app_nil_r.
  - split; [|apply codecovSteps_requested].
    rewrite coverageRequested_true. unfold codecovSteps. by destruct (_ && _).
  - split; [|apply codecovSteps_not_requested].
    intros H Hr. apply codecovSteps_requested in Hr. congruence.
  - intros secret Hs Hne. simpl. unfold codecovWith. rewrite Hs. simpl.
    by rewrite bool_decide_eq_false_2.
  - intros Hs. simpl. unfold codecovWith. by rewrite Hs.
Qed.


(** What the guard does catch: a trigger filter that maps
    ["issue_comment"] to a truthy value (any filter object, the empty one
    included).  The builder then raises an error, whatever the other fields
    are: the error that refuses the trigger when the project has GitHub
    support, and "no github support" when it has none. *)
Theorem issue_comment_trigger_refused name options this trigger :
  bw_trigger options = Some trigger →
  truthy_any (trigger !! "issue_comment") = true →
  ∃ this',
    createBuildWorkflow name options this
    = (Throw (MkError (if github this is Some _ then err_issue_comment else err_no_github)),
       this').
Proof.
  intros T V. destruct (github this) as [g|] eqn:G.
  - eexists. apply createBuildWorkflow_refused; [done|].
    unfold refusedTrigger. by rewrite T.
  - eexists. by apply createBuildWorkflow_no_github.
Qed.

Lemma issue_comment_trigger_refused_witness :
  let options := sampleBuildOptions (Some {[ "issue_comment" := JSObject [] ]}) None in
  let this := sampleProject (Some sampleGitHub) in
  ∃ this',
    createBuildWorkflow "Build" options this = (Throw (MkError err_issue_comment), this').
Proof.
  exact (issue_comment_trigger_refused "Build"
           (sampleBuildOptions (Some {[ "issue_comment" := JSObject [] ]}) None)
           (sampleProject (Some sampleGitHub))
           {[ "issue_comment" := JSObject [] ]} eq_refl eq_refl).
Defined.

(** ** Reasoning about the constructor *)

Lemma bind_inv {A B} (m : M A) (f : A → M B) this c this' :
  (m ≫= f) this = (c, this') →
  (∃ a this1, m this = (Normal a, this1) ∧ f a this1 = (c, this'))
  ∨ (∃ e, m this = (Throw e, this') ∧ c = Throw e).
Proof.
  unfold mbind, M_bind. destruct (m this) as [[a|e] this1]; intros H.
  - left. eauto.
  - right. injection H as <- <-. eauto.
Qed.

Lemma bind_normal {A B} (m : M A) (f : A → M B) this a this1 :
  m this = (Normal a, this1) → (m ≫= f) this = f a this1.
Proof. unfold mbind, M_bind. by intros ->. Qed.

Lemma bind_throw {A B} (m : M A) (f : A → M B) this e this1 :
  m this = (Throw e, this1) → (m ≫= f) this = (Throw e, this1).
Proof. unfold mbind, M_bind. by intros ->. Qed.

Section Rules.

Context {T : Type} (π : NodeProject → T) (E : string → Prop).

Lemma preserves_bind {A B} (m : M A) (f : A → M B) :
  preserves π m → (∀ a, preserves π (f a)) → preserves π (m ≫= f).
Proof.
  intros Hm Hf this. unfold mbind, M_bind.
  specialize (Hm this). destruct (m this) as [[a|e] this1]; simpl in *; [|done].
  by rewrite Hf.
Qed.

Lemma preserves_ret {A} (a : A) : preserves π (mret a).
Proof. done. Qed.

Lemma preserves_throw {A} message : preserves π (throw (A:=A) message).
Proof. done. Qed.

Lemma preserves_gets {A} (f : NodeProject → A) : preserves π (gets f).
Proof. done. Qed.

Lemma preserves_modify f : (∀ this, π (f this) = π this) → preserves π (modify f).
Proof. intros H this. apply H. Qed.

Lemma preserves_when b m : preserves π m → preserves π (when b m).
Proof. by destruct b. Qed.

Lemma throwsOnly_bind {A B} (m : M A) (f : A → M B) :
  throwsOnly E m → (∀ a, throwsOnly E (f a)) → throwsOnly E (m ≫= f).
Proof.
  intros Hm Hf this message this' H.
  apply bind_inv in H as [(a & this1 & _ & H)|(e & H & [= <-])].
  - by eapply Hf.
  - by eapply Hm.
Qed.

Lemma throwsOnly_ret {A} (a : A) : throwsOnly E (mret a).
Proof. by intros ???. Qed.

Lemma throwsOnly_throw {A} message : E message → throwsOnly E (throw (A:=A) message).
Proof. intros H ??? [= <- _]. done. Qed.

Lemma throwsOnly_gets {A} (f : NodeProject → A) : throwsOnly E (gets f).
Proof. by intros ???. Qed.

Lemma throwsOnly_modify f : throwsOnly E (modify f).
Proof. by intros ???. Qed.

Lemma throwsOnly_when b m : throwsOnly E m → throwsOnly E (when b m).
Proof. by destruct b. Qed.

Lemma preserves_createBuildWorkflow name options :
  (∀ w g this, github this = Some g → π (registerWorkflow w g this) = π this) →
  preserves π (createBuildWorkflow name options).
Proof.
  intros H this. pose proof (createBuildWorkflow_cases name options this) as C.
  destruct (github this) as [g|] eqn:G; [destruct (refusedTrigger options)|];
    rewrite C; simpl; auto.
Qed.

End Rules.

Create HintDb node_project discriminated.

#[export] Hint Unfold addTask task_step gitignore_add npmignore_exclude setScript
  addDevDeps addLicense addDefaultGitIgnore with_github bind : node_project.

(** One step of the proof that a computation preserves an observation or
    throws only certain errors: the rule for the head of the computation. *)
Ltac monadic_step side :=
  lazymatch goal with
  | |- preserves _ (mbind _ _) => apply preserves_bind; [|intros ?]
  | |- preserves _ (mret _) => apply preserves_ret
  | |- preserves _ (throw _) => apply preserves_throw
  | |- preserves _ (gets _) => apply preserves_gets
  | |- preserves _ (modify _) => apply preserves_modify; intros ?; side
  | |- preserves _ (when _ _) => apply preserves_when
  | |- throwsOnly _ (mbind _ _) => apply throwsOnly_bind; [|intros ?]
  | |- throwsOnly _ (mret _) => apply throwsOnly_ret
  | |- throwsOnly _ (throw _) => apply throwsOnly_throw; side
  | |- throwsOnly _ (gets _) => apply throwsOnly_gets
  | |- throwsOnly _ (modify _) => apply throwsOnly_modify
  | |- throwsOnly _ (when _ _) => apply throwsOnly_when
  | |- _ _ (if ?b then _ else _) => destruct b
  | |- _ _ (match ?x with _ => _ end) => destruct x
  | |- _ => progress autounfold with node_project
  | |- _ => progress cbv zeta
  end.

Ltac monadic side := repeat monadic_step side.

(** *** The errors of the phases *)

Lemma constructor_setup_throws X options :
  throwsOnly setupError (constructor_setup X options).
Proof. unfold constructor_setup. monadic ltac:(unfold setupError; auto). Qed.

Lemma throwsOnly_mono {A} (E E' : string → Prop) (m : M A) :
  (∀ message, E message → E' message) → throwsOnly E m → throwsOnly E' m.
Proof. intros H Hm this message this' R. eapply H, Hm, R. Qed.

Lemma buildWorkflowOptions_accepted options :
  refusedTrigger (buildWorkflowOptions options) = false.
Proof. reflexivity. Qed.

Lemma throwsOnly_createBuildWorkflow options :
  throwsOnly (λ message, message = err_no_github)
    (createBuildWorkflow "Build" (buildWorkflowOptions options)).
Proof.
  intros this message this' R.
  pose proof (createBuildWorkflow_cases "Build" (buildWorkflowOptions options) this) as C.
  rewrite buildWorkflowOptions_accepted in C.
  destruct (github this); rewrite C in R; by injection R.
Qed.

Lemma constructor_build_throws X options :
  throwsOnly (λ message, message = err_no_github) (constructor_build X options).
Proof.
  unfold constructor_build. monadic idtac.
  apply throwsOnly_createBuildWorkflow.
Qed.


Lemma constructor_autoMerge_throws X options :
  throwsOnly (λ _, False) (constructor_autoMerge X options).
Proof. unfold constructor_autoMerge. monadic idtac. Qed.

Lemma constructor_depsUpgrade_throws options :
  throwsOnly (λ message, message = err_dependabot) (constructor_depsUpgrade options).
Proof. unfold constructor_depsUpgrade. monadic ltac:(reflexivity). Qed.

Lemma constructor_projenUpgrade_throws options m :
  throwsOnly (λ _, False) (constructor_projenUpgrade options m).
Proof. unfold constructor_projenUpgrade. monadic idtac. Qed.

Lemma constructor_finish_throws options :
  throwsOnly (λ _, False) (constructor_finish options).
Proof. unfold constructor_finish. monadic idtac. Qed.

(** *** What the phases leave unchanged *)

Lemma constructor_setup_parent X options : preserves parent (constructor_setup X options).
Proof. unfold constructor_setup. monadic ltac:(reflexivity). Qed.

Lemma constructor_build_parent X options : preserves parent (constructor_build X options).
Proof.
  unfold constructor_build. monadic ltac:(reflexivity).
  by apply preserves_createBuildWorkflow.
Qed.

Lemma constructor_release_parent X options :
  preserves parent (constructor_release X options).
Proof. unfold constructor_release. monadic ltac:(reflexivity). Qed.

(** *** The release options *)

Lemma enabledUnlessSubproject_parent flag this this' :
  parent this' = parent this →
  enabledUnlessSubproject flag this' = enabledUnlessSubproject flag this.
Proof. unfold enabledUnlessSubproject. by intros ->. Qed.

Lemma releaseError_intro name :
  name ∈ releaseOptionNames → releaseError (err_not_supported name).
Proof. intros H. by exists name. Qed.

Lemma constructor_release_disabled X options this :
  enabledUnlessSubproject (opt_releaseWorkflow options) this = false →
  releaseOptionSet options →
  ∃ message,
    releaseError message
    ∧ constructor_release X options this = (Throw (MkError message), this).
Proof.
  intros D S. unfold constructor_release, mbind, M_bind, gets, throw, mret, M_ret.
  rewrite D.
  destruct (truthy_bool (opt_releaseToNpm options)) eqn:E1.
  { eexists. split; [|reflexivity]. apply releaseError_intro. set_solver. }
  destruct (truthy_object (opt_releaseBranches options)) eqn:E2.
  { eexists. split; [|reflexivity]. apply releaseError_intro. set_solver. }
  destruct (truthy_bool (opt_releaseEveryCommit options)) eqn:E3.
  { eexists. split; [|reflexivity]. apply releaseError_intro. set_solver. }
  destruct (truthy_string (opt_releaseSchedule options)) eqn:E4.
  { eexists. split; [|reflexivity]. apply releaseError_intro. set_solver. }
  exfalso. destruct S as [S|[(b & bs & S)|[S|(s & S & Hne)]]].
  - by rewrite S in E1.
  - by rewrite S in E2.
  - by rewrite S in E3.
  - rewrite S in E4. simpl in E4. by rewrite bool_decide_eq_false_2 in E4.
Qed.

Lemma constructor_release_enabled X options this :
  enabledUnlessSubproject (opt_releaseWorkflow options) this = true →
  ∃ this', constructor_release X options this = (Normal tt, this').
Proof.
  intros D. unfold constructor_release, mbind, M_bind, gets, modify, addDevDeps.
  rewrite D. simpl. destruct (default false (opt_releaseToNpm options)); by eexists.
Qed.

(** The messages of the release checks differ from those of the other
    checks. *)
Lemma releaseError_not_other message :
  releaseError message →
  ¬ (setupError message ∨ message = err_no_github ∨ message = err_dependabot).
Proof.
  intros (name & Hin & ->) H. unfold releaseOptionNames in Hin.
  repeat (apply elem_of_cons in Hin as [->|Hin]); [..|by apply elem_of_nil in Hin];
    destruct H as [[H|H]|[H|H]]; discriminate H.
Qed.

(** C4. With the release workflow disabled, assembly raises an error
    whenever the publish-to-registry flag is true, the release-branch list
    is non-empty, the release-every-commit flag is true or the release
    schedule is non-empty; when the checks before the release options pass,
    the error is the one of the first release option that is set, raised in
    the state these checks left.  With the release workflow enabled,
    assembly never raises one of these errors. *)
Theorem release_options_need_release_workflow X options this :
  (enabledUnlessSubproject (opt_releaseWorkflow options) this = false →
   releaseOptionSet options →
   (∃ e this', constructor X options this = (Throw e, this'))
   ∧ (∀ this1,
        (constructor_setup X options;; constructor_build X options) this
        = (Normal tt, this1) →
        ∃ message,
          releaseError message
          ∧ constructor X options this = (Throw (MkError message), this1)))
  ∧ (enabledUnlessSubproject (opt_releaseWorkflow options) this = true →
     ∀ message this',
       constructor X options this = (Throw (MkError message), this') →
       ¬ releaseError message).
Proof.
  split.
  - intros D S.
    assert (∀ this1,
        (constructor_setup X options;; constructor_build X options) this
        = (Normal tt, this1) →
        ∃ message,
          releaseError message
          ∧ constructor X options this = (Throw (MkError message), this1)) as Hrun.
    { intros this2 R. pose proof R as R'.
      apply bind_inv in R' as [([] & this1 & E1 & E2)|(e & _ & [=])].
      pose proof (constructor_setup_parent X options this) as P1.
      pose proof (constructor_build_parent X options this1) as P2.
      rewrite E1 in P1. rewrite E2 in P2. simpl in *.
      destruct (constructor_release_disabled X options this2) as (message & Hm & Hr);
        [|done|].
      { rewrite <- D. apply enabledUnlessSubproject_parent. congruence. }
      exists message. split; [done|].
      unfold constructor. rewrite (bind_normal _ _ _ _ _ E1).
      rewrite (bind_normal _ _ _ _ _ E2).
      by rewrite (bind_throw _ _ _ _ _ Hr). }
    split; [|done].
    destruct ((constructor_setup X options;; constructor_build X options) this)
      as [[[]|e] this2] eqn:R.
    + destruct (Hrun this2 eq_refl) as (message & _ & Hr). eauto.
    + unfold constructor.
      apply bind_inv in R as [([] & this1 & E1 & E2)|(e' & E1 & _)].
      * rewrite (bind_normal _ _ _ _ _ E1), (bind_throw _ _ _ _ _ E2). eauto.
      * rewrite (bind_throw _ _ _ _ _ E1). eauto.
  - intros D message this' R Hrel.
    apply (releaseError_not_other message Hrel).
    unfold constructor in R.
    apply bind_inv in R as [([] & this1 & E1 & R)|(e & E1 & [= <-])].
    2:{ left. by eapply constructor_setup_throws. }
    pose proof (constructor_setup_parent X options this) as P1.
    rewrite E1 in P1. simpl in P1.
    apply bind_inv in R as [([] & this2 & E2 & R)|(e & E2 & [= <-])].
    2:{ right; left. by eapply constructor_build_throws. }
    pose proof (constructor_build_parent X options this1) as P2.
    rewrite E2 in P2. simpl in P2.
    apply bind_inv in R as [([] & this3 & E3 & R)|(e & E3 & [= <-])].
    2:{ destruct (constructor_release_enabled X options this2) as [s Hs].
        - rewrite <- D. apply enabledUnlessSubproject_parent. congruence.
        - congruence. }
    apply bind_inv in R as [([] & this4 & E4 & R)|(e & E4 & [= <-])].
    2:{ by eapply constructor_autoMerge_throws in E4. }
    apply bind_inv in R as [(m & this5 & E5 & R)|(e & E5 & [= <-])].
    2:{ right; right. by eapply constructor_depsUpgrade_throws. }
    apply bind_inv in R as [([] & this6 & E6 & R)|(e & E6 & [= <-])].
    2:{ by eapply constructor_projenUpgrade_throws in E6. }
    by eapply constructor_finish_throws in R.
Qed.

(** *** The upgrade mechanism *)

Lemma constructor_depsUpgrade_conflict options this :
  is_Some (opt_dependabot options) → is_Some (opt_depsUpgrade options) →
  constructor_depsUpgrade options this = (Throw (MkError err_dependabot), this).
Proof.
  intros [b Hb] [m Hm]. unfold constructor_depsUpgrade. by rewrite Hb, Hm.
Qed.

Lemma constructor_depsUpgrade_run options this c this' :
  constructor_depsUpgrade options this = (c, this') →
  (c = Throw (MkError err_dependabot) ∧ this' = this)
  ∨ (c = Normal (chosenMechanism options)
     ∧ this' = binder (chosenMechanism options) this).
Proof.
  unfold constructor_depsUpgrade, mbind, M_bind, throw, mret, M_ret, bind, modify.
  destruct (_ && _); intros [= <- <-]; auto.
Qed.

Lemma constructor_projenUpgrade_run options m this :
  constructor_projenUpgrade options m this
  = (Normal tt,
     if ignoresProjen m && negb (bool_decide (pkg_packageName (package this) = "projen"))
     then addComponent (UpgradeDependencies (projenUpgradeOptions options this)) this
     else this).
Proof.
  unfold constructor_projenUpgrade, mbind, M_bind, gets. by destruct (_ && _).
Qed.

Lemma constructor_finish_run options this :
  ∃ this',
    constructor_finish options this = (Normal tt, this')
    ∧ components this' = components this ++ finishComponents options
    ∧ package this' = package this
    ∧ autoMerge this' = autoMerge this
    ∧ antitamper this' = antitamper this.
Proof.
  unfold constructor_finish, finishComponents, mbind, M_bind, with_github, modify.
  destruct (default true (opt_pullRequestTemplate options)),
    (default true (opt_projenrcJs options)); simpl;
    eexists; (split; [reflexivity|]); simpl; by rewrite ?app_nil_r.
Qed.

(** C5. When both the [dependabot] option and the [depsUpgrade] option are
    set, assembly raises an error, and the error is the one of the conflict
    when the checks before it pass.  When neither is set, the mechanism that
    is chosen and bound is the custom pipeline [githubWorkflow()] with
    default options: binding it registers its upgrade pipeline, which a
    project that was assembled holds. *)
Theorem upgrade_mechanisms_exclusive X options this :
  (is_Some (opt_dependabot options) → is_Some (opt_depsUpgrade options) →
   (∃ e this', constructor X options this = (Throw e, this'))
   ∧ ∀ this1, constructor_depsUpgrade options this1
              = (Throw (MkError err_dependabot), this1))
  ∧ (opt_dependabot options = None → opt_depsUpgrade options = None →
     chosenMechanism options = githubWorkflow noUpgradeDependenciesOptions
     ∧ (∀ this1, constructor_depsUpgrade options this1
                 = (Normal (githubWorkflow noUpgradeDependenciesOptions),
                    addComponent (UpgradeDependencies noUpgradeDependenciesOptions) this1))
     ∧ (∀ this', constructor X options this = (Normal tt, this') →
                 UpgradeDependencies noUpgradeDependenciesOptions ∈ components this')).
Proof.
  split.
  - intros Hd Hu. split; [|intros; by apply constructor_depsUpgrade_conflict].
    unfold constructor.
    destruct (constructor_setup X options this) as [[[]|e] this1] eqn:E1;
      [rewrite (bind_normal _ _ _ _ _ E1)|rewrite (bind_throw _ _ _ _ _ E1); eauto].
    destruct (constructor_build X options this1) as [[[]|e] this2] eqn:E2;
      [rewrite (bind_normal _ _ _ _ _ E2)|rewrite (bind_throw _ _ _ _ _ E2); eauto].
    destruct (constructor_release X options this2) as [[[]|e] this3] eqn:E3;
      [rewrite (bind_normal _ _ _ _ _ E3)|rewrite (bind_throw _ _ _ _ _ E3); eauto].
    destruct (constructor_autoMerge X options this3) as [[[]|e] this4] eqn:E4;
      [rewrite (bind_normal _ _ _ _ _ E4)|rewrite (bind_throw _ _ _ _ _ E4); eauto].
    rewrite (bind_throw _ _ _ _ _ (constructor_depsUpgrade_conflict options this4 Hd Hu)).
    eauto.
  - intros Hd Hu.
    assert (chosenMechanism options = githubWorkflow noUpgradeDependenciesOptions) as Hc.
    { unfold chosenMechanism. by rewrite Hd, Hu. }
    split; [done|]. split.
    + intros this1. unfold constructor_depsUpgrade. by rewrite Hd, Hu.
    + intros this' R. unfold constructor in R.
      apply bind_inv in R as [([] & this1 & E1 & R)|(e & E1 & [=])].
      apply bind_inv in R as [([] & this2 & E2 & R)|(e & E2 & [=])].
      apply bind_inv in R as [([] & this3 & E3 & R)|(e & E3 & [=])].
      apply bind_inv in R as [([] & this4 & E4 & R)|(e & E4 & [=])].
      apply bind_inv in R as [(m & this5 & E5 & R)|(e & E5 & [=])].
      apply bind_inv in R as [([] & this6 & E6 & R)|(e & E6 & [=])].
      destruct (constructor_finish_run options this6) as (s & Hs & Hcomp & _).
      rewrite Hs in R. injection R as <-. rewrite Hcomp. clear Hs Hcomp.
      rewrite constructor_projenUpgrade_run in E6. injection E6 as <-.
      apply constructor_depsUpgrade_run in E5 as [[[=] _]|[[= ->] ->]].
      rewrite Hc. apply elem_of_app. left.
      assert (UpgradeDependencies noUpgradeDependenciesOptions
              ∈ components (binder (githubWorkflow noUpgradeDependenciesOptions) this4))
        as Hin by (unfold binder, addComponent; simpl; apply elem_of_app; right;
                   apply list_elem_of_singleton; done).
      destruct (_ && _); [|done].
      unfold addComponent at 1. simpl. apply elem_of_app. by left.
Qed.

(** *** The anti-tamper flag *)

Lemma bind_gets {A B} (f : NodeProject → A) (k : A → M B) this :
  (gets f ≫= k) this = k (f this) this.
Proof. reflexivity. Qed.

Lemma bind_modify {B} f (k : unit → M B) this :
  (modify f ≫= k) this = k tt (f this).
Proof. reflexivity. Qed.

Lemma binder_antitamper m this : antitamper (binder m this) = antitamper this.
Proof. by destruct m. Qed.

Lemma constructor_build_antitamper X options this :
  antitamper (constructor_build X options this).2
  = Some (enabledUnlessSubproject (opt_buildWorkflow options) this
          && default true (opt_antitamper options)).
Proof.
  unfold constructor_build. rewrite bind_gets, bind_modify.
  match goal with |- antitamper (?m ?s).2 = _ =>
    assert (preserves antitamper m) as P end.
  { monadic ltac:(reflexivity). by apply preserves_createBuildWorkflow. }
  by rewrite P.
Qed.

Lemma constructor_release_antitamper X options :
  preserves antitamper (constructor_release X options).
Proof. unfold constructor_release. monadic ltac:(reflexivity). Qed.

Lemma constructor_autoMerge_antitamper X options :
  preserves antitamper (constructor_autoMerge X options).
Proof. unfold constructor_autoMerge. monadic ltac:(reflexivity). Qed.

Lemma constructor_depsUpgrade_antitamper options :
  preserves antitamper (constructor_depsUpgrade options).
Proof.
  unfold constructor_depsUpgrade. monadic ltac:(apply binder_antitamper).
Qed.

Lemma constructor_projenUpgrade_antitamper options m :
  preserves antitamper (constructor_projenUpgrade options m).
Proof. unfold constructor_projenUpgrade. monadic ltac:(reflexivity). Qed.

Lemma constructor_finish_antitamper options :
  preserves antitamper (constructor_finish options).
Proof. unfold constructor_finish. monadic ltac:(reflexivity). Qed.

(** The state a computation leaves, from an equation on its result. *)
Lemma preserves_run {A T} (π : NodeProject → T) (m : M A) this c this' :
  preserves π m → m this = (c, this') → π this' = π this.
Proof. intros P R. specialize (P this). by rewrite R in P. Qed.

(** C9. In an assembled project the anti-tamper flag is the conjunction of
    "the build workflow is enabled" and the caller's [antitamper] option
    defaulted to true: it is false when the build workflow is disabled,
    whatever the option, and equals the defaulted option when the build
    workflow is enabled. *)
Theorem antitamper_requires_build_workflow X options this this' :
  constructor X options this = (Normal tt, this') →
  antitamper this'
  = Some (enabledUnlessSubproject (opt_buildWorkflow options) this
          && default true (opt_antitamper options))
  ∧ (enabledUnlessSubproject (opt_buildWorkflow options) this = false →
     antitamper this' = Some false)
  ∧ (enabledUnlessSubproject (opt_buildWorkflow options) this = true →
     antitamper this' = Some (default true (opt_antitamper options))).
Proof.
  intros R.
  assert (antitamper this'
          = Some (enabledUnlessSubproject (opt_buildWorkflow options) this
                  && default true (opt_antitamper options))) as H.
  { unfold constructor in R.
    apply bind_inv in R as [([] & this1 & E1 & R)|(e & E1 & [=])].
    apply bind_inv in R as [([] & this2 & E2 & R)|(e & E2 & [=])].
    apply bind_inv in R as [([] & this3 & E3 & R)|(e & E3 & [=])].
    apply bind_inv in R as [([] & this4 & E4 & R)|(e & E4 & [=])].
    apply bind_inv in R as [(m & this5 & E5 & R)|(e & E5 & [=])].
    apply bind_inv in R as [([] & this6 & E6 & R)|(e & E6 & [=])].
    rewrite (preserves_run _ _ _ _ _ (constructor_finish_antitamper options) R).
    rewrite (preserves_run _ _ _ _ _ (constructor_projenUpgrade_antitamper options m) E6).
    rewrite (preserves_run _ _ _ _ _ (constructor_depsUpgrade_antitamper options) E5).
    rewrite (preserves_run _ _ _ _ _ (constructor_autoMerge_antitamper X options) E4).
    rewrite (preserves_run _ _ _ _ _ (constructor_release_antitamper X options) E3).
    pose proof (constructor_build_antitamper X options this1) as B.
    rewrite E2 in B. simpl in B. rewrite B.
    by rewrite (enabledUnlessSubproject_parent _ this this1)
      by apply (preserves_run _ _ _ _ _ (constructor_setup_parent X options) E1). }
  split; [done|]. rewrite H. split; by intros ->.
Qed.

(** *** The upgrade of the generator's own package *)

Lemma projenUpgradeOptions_autoMerge options this this' :
  autoMerge this' = autoMerge this →
  projenUpgradeOptions options this' = projenUpgradeOptions options this.
Proof. unfold projenUpgradeOptions. by intros ->. Qed.

(** C8. When the bound mechanism ignores the generator's package (which it
    does unless told otherwise) and the package is not the generator
    itself, the constructor creates one more upgrade pipeline after binding
    the mechanism, and nothing else but the generator-config file follows
    it.  The pipeline includes only ["projen"]; it is scheduled by the
    caller's cron expressions or by ["0 6 * * *"]; its workflow is enabled
    exactly when the secret name is supplied; it is labelled with the
    auto-merge label when auto-merge of the upgrade is not switched off and
    the project has an auto-merge policy with a non-empty label, and has no
    label otherwise. *)
Theorem projen_upgrade_pipeline X options :
  (∀ m this1,
     ignoresProjen m = true → pkg_packageName (package this1) ≠ "projen" →
     constructor_projenUpgrade options m this1
     = (Normal tt, addComponent (UpgradeDependencies (projenUpgradeOptions options this1)) this1))
  ∧ (∀ m, _ignoresProjen m = None → ignoresProjen m = true)
  ∧ (∀ this1, ∃ w,
       let o := projenUpgradeOptions options this1 in
       upg_include o = Some ["projen"]
       ∧ upg_ignoreProjen o = Some false
       ∧ (upg_workflow o = Some true
          ↔ ∃ secret, opt_projenUpgradeSecret options = Some secret ∧ secret ≠ "")
       ∧ upg_workflowOptions o = Some w
       ∧ uwo_schedule w
         = Some (Expressions (default ["0 6 * * *"] (opt_projenUpgradeSchedule options)))
       ∧ uwo_secret w = opt_projenUpgradeSecret options
       ∧ (∀ am, opt_projenUpgradeAutoMerge options ≠ Some false →
                autoMerge this1 = Some am → am_autoMergeLabel am ≠ "" →
                uwo_labels w = Some [am_autoMergeLabel am])
       ∧ (opt_projenUpgradeAutoMerge options = Some false ∨ autoMerge this1 = None
          ∨ (∃ am, autoMerge this1 = Some am ∧ am_autoMergeLabel am = "") →
          uwo_labels w = Some []))
  ∧ (∀ this this',
       constructor X options this = (Normal tt, this') →
       ignoresProjen (chosenMechanism options) = true →
       pkg_packageName (package this') ≠ "projen" →
       ∃ this4,
         (constructor_setup X options;; constructor_build X options;;
          constructor_release X options;; constructor_autoMerge X options) this
         = (Normal tt, this4)
         ∧ components this'
           = components (binder (chosenMechanism options) this4)
               ++ [UpgradeDependencies (projenUpgradeOptions options this')]
               ++ finishComponents options
         ∧ Forall (λ c, ∀ o, c ≠ UpgradeDependencies o) (finishComponents options)).
Proof.
  split; [|split; [|split]].
  - intros m this1 Hi Hn. rewrite constructor_projenUpgrade_run, Hi.
    by rewrite bool_decide_eq_false_2.
  - intros m H. unfold ignoresProjen. by rewrite H.
  - intros this1. eexists. cbv zeta. unfold projenUpgradeOptions.
    cbn [upg_include upg_ignoreProjen upg_workflow upg_workflowOptions].
    split; [done|]. split; [done|]. split; [|split; [reflexivity|]].
    { destruct (opt_projenUpgradeSecret options) as [secret|]; simpl.
      - destruct (decide (secret = "")) as [->|Hne].
        + split; [done|]. by intros (? & [= <-] & ?).
        + rewrite bool_decide_eq_false_2 by done. split; [|done]. by exists secret.
      - split; [done|]. by intros (? & [=] & _). }
    cbn [uwo_schedule uwo_secret uwo_labels].
    split; [done|]. split; [done|]. split.
    + intros am Hauto -> Hl. simpl. rewrite bool_decide_eq_false_2 by done.
      by destruct (opt_projenUpgradeAutoMerge options) as [[]|].
    + intros [->|[->|(am & -> & Hl)]]; simpl; [done|..].
      * by rewrite andb_false_r.
      * rewrite Hl. by rewrite andb_false_r.
  - intros this this' R Hi Hn. unfold constructor in R.
    apply bind_inv in R as [([] & this1 & E1 & R)|(e & E1 & [=])].
    apply bind_inv in R as [([] & this2 & E2 & R)|(e & E2 & [=])].
    apply bind_inv in R as [([] & this3 & E3 & R)|(e & E3 & [=])].
    apply bind_inv in R as [([] & this4 & E4 & R)|(e & E4 & [=])].
    apply bind_inv in R as [(m & this5 & E5 & R)|(e & E5 & [=])].
    apply bind_inv in R as [([] & this6 & E6 & R)|(e & E6 & [=])].
    destruct (constructor_finish_run options this6) as (s & Hs & Hcomp & Hpkg & Ham & _).
    rewrite Hs in R. injection R as <-.
    apply constructor_depsUpgrade_run in E5 as [[[=] _]|[[= ->] ->]].
    rewrite constructor_projenUpgrade_run in E6. injection E6 as <-.
    rewrite Hi in *. simpl in *.
    destruct (bool_decide _) eqn:Hname.
    { apply bool_decide_eq_true_1 in Hname. simpl in *. congruence. }
    simpl in *. exists this4.
    split; [|split].
    + rewrite (bind_normal _ _ _ _ _ E1), (bind_normal _ _ _ _ _ E2).
      by rewrite (bind_normal _ _ _ _ _ E3).
    + rewrite Hcomp, <- app_assoc.
      by rewrite (projenUpgradeOptions_autoMerge options _ s Ham).
    + unfold finishComponents. destruct (default true _); by repeat constructor.
Qed.

(** *** Failed assembly *)








(** ** The properties at sample inputs *)

Lemma build_job_steps_follow_category_order_witness :
  let options := sampleBuildOptions (Some {[ "pull_request" := JSObject [] ]}) None in
  let this := sampleConfiguredProject in
  ∃ job,
    emittedJob (registerWorkflow (builtWorkflow "Build" options this) sampleGitHub this)
      0 (bw_jobId options) = Some job
    ∧ job_steps job = (categorisedSteps this options).*2
    ∧ StronglySorted categoryOrder (categorisedSteps this options).*1.
Proof.
  apply (build_job_steps_follow_category_order "Build"
           (sampleBuildOptions (Some {[ "pull_request" := JSObject [] ]}) None)
           sampleConfiguredProject 0).
  vm_compute. reflexivity.
Defined.


Lemma release_options_need_release_workflow_witness :
  let options := sampleOptions (Some false) (Some true) None None in
  let this := sampleProject (Some sampleGitHub) in
  ∃ e this', constructor sampleExternals options this = (Throw e, this').
Proof.
  apply (proj1 (release_options_need_release_workflow sampleExternals
           (sampleOptions (Some false) (Some true) None None)
           (sampleProject (Some sampleGitHub)))).
  - reflexivity.
  - left. reflexivity.
Defined.

Lemma upgrade_mechanisms_exclusive_witness :
  let options := sampleOptions None None (Some true) (Some NONE) in
  let this := sampleProject (Some sampleGitHub) in
  ∃ e this', constructor sampleExternals options this = (Throw e, this').
Proof.
  apply (proj1 (upgrade_mechanisms_exclusive sampleExternals
           (sampleOptions None None (Some true) (Some NONE))
           (sampleProject (Some sampleGitHub)))).
  - exists true. reflexivity.
  - exists NONE. reflexivity.
Defined.

Lemma coverage_upload_step_witness :
  let options := sampleBuildOptions (Some {[ "pull_request" := JSObject [] ]}) None in
  let this := sampleConfiguredProject in
  ∃ job,
    emittedJob (registerWorkflow (builtWorkflow "Build" options this) sampleGitHub this)
      0 (bw_jobId options) = Some job
    ∧ filter isCoverageUpload (job_steps job)
      = filter isCoverageUpload (default [] (bw_preCheckoutSteps options))
        ++ filter isCoverageUpload (default [] (bw_preBuildSteps options))
        ++ codecovSteps this options
        ++ filter isCoverageUpload (default [] (bw_postSteps options))
    ∧ (codecovSteps this options = [codecovStep this options]
       ↔ coverageRequested this options)
    ∧ (codecovSteps this options = [] ↔ ¬ coverageRequested this options)
    ∧ let directory := js_get "coverageDirectory" (default JSUndefined (jestConfig this)) in
      (∀ secret, bw_codeCovTokenSecret options = Some secret → secret ≠ "" →
         step_with (codecovStep this options)
         = Some {[ "token" := JSString ("${{ secrets." +:+ secret +:+ " }}");
                   "directory" := directory ]})
      ∧ (truthy_string (bw_codeCovTokenSecret options) = false →
         step_with (codecovStep this options) = Some {[ "directory" := directory ]}).
Proof.
  apply (coverage_upload_step "Build"
           (sampleBuildOptions (Some {[ "pull_request" := JSObject [] ]}) None)
           sampleConfiguredProject 0).
  vm_compute. reflexivity.
Defined.


Lemma projen_upgrade_pipeline_witness :
  let options := sampleOptions None None None None in
  let this := sampleProject (Some sampleGitHub) in
  constructor_projenUpgrade options (githubWorkflow noUpgradeDependenciesOptions) this
  = (Normal tt,
     addComponent (UpgradeDependencies (projenUpgradeOptions options this)) this).
Proof.
  apply (proj1 (projen_upgrade_pipeline sampleExternals
           (sampleOptions None None None None))).
  - reflexivity.
  - vm_compute. discriminate.
Defined.

Lemma antitamper_requires_build_workflow_witness :
  let options := sampleOptions None None None None in
  let this := sampleProject (Some sampleGitHub) in
  antitamper (constructor sampleExternals options this).2 = Some true.
Proof.
  apply (proj1 (antitamper_requires_build_workflow sampleExternals
           (sampleOptions None None None None)
           (sampleProject (Some sampleGitHub))
           (constructor sampleExternals (sampleOptions None None None None)
              (sampleProject (Some sampleGitHub))).2
           ltac:(vm_compute; reflexivity))).
Defined.

Lemma build_job_env_CI_witness :
  let options :=
    sampleBuildOptions (Some {[ "pull_request" := JSObject [] ]})
      (Some {[ "CI" := "false"; "NODE_ENV" := "test" ]}) in
  let this := sampleConfiguredProject in
  ∃ job,
    emittedJob (registerWorkflow (builtWorkflow "Build" options this) sampleGitHub this)
      0 (bw_jobId options) = Some job
    ∧ (default ∅ (bw_env options) !! "CI" = None → job_env job !! "CI" = Some "true")
    ∧ (∀ value, default ∅ (bw_env options) !! "CI" = Some value →
         job_env job !! "CI" = Some value)
    ∧ (∀ key value, default ∅ (bw_env options) !! key = Some value →
         job_env job !! key = Some value).
Proof.
  apply (build_job_env_CI "Build"
           (sampleBuildOptions (Some {[ "pull_request" := JSObject [] ]})
              (Some {[ "CI" := "false"; "NODE_ENV" := "test" ]}))
           sampleConfiguredProject 0).
  vm_compute. reflexivity.
Defined.

(** The scenario of default options: one job, whose steps are the checkout,
    the install steps, the git identity, the build and the three steps that
    push the changes back; the build is mutable by default, so there is no
    anti-tamper step. *)
Example default_build_job_steps :
  let this' := (constructor sampleExternals (sampleOptions None None None None)
                  (sampleProject (Some sampleGitHub))).2 in
  (λ job, step_name <$> job_steps job) <$> emittedJob this' 0 "build"
  = Some [ Some "Checkout"; Some "Setup Node.js"; Some "Install dependencies";
           Some "Set git identity"; Some "Build"; Some "Check for changes";
           Some "Commit and push changes (if changed)";
           Some "Update status check (if changed)" ].
Proof. vm_compute. reflexivity. Qed.

(** ** The phases of the constructor, run *)

Lemma bind_total {B} (m : M unit) (f : unit → M B) this :
  throwsOnly (λ _, False) m → (m ≫= f) this = f tt (m this).2.
Proof.
  intros H. unfold mbind, M_bind.
  destruct (m this) as [[[]|[message]] this1] eqn:R; [done|].
  by apply H in R.
Qed.

Lemma constructor_build_run X options this :
  constructor_build X options this
  = if enabledUnlessSubproject (opt_buildWorkflow options) this then
      match github this with
      | Some g => (Normal tt, builtState X options g this)
      | None => (Throw (MkError err_no_github), jestState X options this)
      end
    else (Normal tt, jestState X options this).
Proof.
  unfold constructor_build. rewrite bind_gets, bind_modify.
  assert (∀ (k : M unit) s,
    (when (default true (opt_jest options))
       (modify (addComponent (JestComponent (opt_jestOptions options)));;
        modify (set_jest (Some {| jest_config := Jest_config X (opt_jestOptions options) |})))
     ≫= λ _, k) s
    = k (if default true (opt_jest options)
         then set_jest (Some {| jest_config := Jest_config X (opt_jestOptions options) |})
                (addComponent (JestComponent (opt_jestOptions options)) s)
         else s)) as Hjest.
  { intros k s. by destruct (default true (opt_jest options)). }
  rewrite Hjest, bind_gets. fold (jestState X options this).
  assert (enabledUnlessSubproject (opt_buildWorkflow options) (jestState X options this)
          = enabledUnlessSubproject (opt_buildWorkflow options) this) as ->.
  { apply enabledUnlessSubproject_parent. unfold jestState. by destruct (default true _). }
  destruct (enabledUnlessSubproject (opt_buildWorkflow options) this); [|done].
  unfold when.
  pose proof (createBuildWorkflow_cases "Build" (buildWorkflowOptions options)
                (jestState X options this)) as C.
  assert (github (jestState X options this) = github this) as G.
  { unfold jestState. by destruct (default true _). }
  rewrite G, buildWorkflowOptions_accepted in C.
  destruct (github this) as [g|].
  - by rewrite (bind_normal _ _ _ _ _ C).
  - by rewrite (bind_throw _ _ _ _ _ C).
Qed.

Lemma constructor_release_run X options this :
  constructor_release X options this
  = if enabledUnlessSubproject (opt_releaseWorkflow options) this
    then (Normal tt, releasedState X options this)
    else match releaseCheck options with
         | Some message => (Throw (MkError message), this)
         | None => (Normal tt, this)
         end.
Proof.
  unfold constructor_release, releaseCheck, releasedState. rewrite bind_gets.
  destruct (enabledUnlessSubproject (opt_releaseWorkflow options) this).
  - unfold addDevDeps. rewrite bind_modify, bind_gets, !bind_modify.
    by destruct (default false (opt_releaseToNpm options)).
  - unfold mbind, M_bind, throw, mret, M_ret.
    by destruct (truthy_bool (opt_releaseToNpm options)),
      (truthy_object (opt_releaseBranches options)),
      (truthy_bool (opt_releaseEveryCommit options)),
      (truthy_string (opt_releaseSchedule options)).
Qed.

Lemma constructor_autoMerge_run X options this :
  constructor_autoMerge X options this = (Normal tt, autoMergedState X options this).
Proof.
  unfold constructor_autoMerge, autoMergedState. rewrite bind_gets.
  by destruct (from_option gh_mergify false (github this)).
Qed.

Lemma constructor_depsUpgrade_cases options this :
  constructor_depsUpgrade options this
  = if truthy_object (opt_dependabot options) && truthy_object (opt_depsUpgrade options)
    then (Throw (MkError err_dependabot), this)
    else (Normal (chosenMechanism options), binder (chosenMechanism options) this).
Proof. unfold constructor_depsUpgrade. by destruct (_ && _). Qed.

Lemma constructor_finish_state options this :
  constructor_finish options this = (Normal tt, finishedState options this).
Proof.
  unfold constructor_finish, finishedState, with_github.
  by destruct (default true (opt_pullRequestTemplate options)),
    (default true (opt_projenrcJs options)).
Qed.

Lemma buildPhaseState_parent X options this :
  parent (buildPhaseState X options this) = parent this.
Proof.
  unfold buildPhaseState, builtState, jestState.
  by destruct (enabledUnlessSubproject _ this), (github this), (default true (opt_jest options)).
Qed.

(** The constructor after a setup phase that passed its checks. *)
Lemma constructor_after_setup X options this this1 :
  constructor_setup X options this = (Normal tt, this1) →
  constructor X options this
  = if enabledUnlessSubproject (opt_buildWorkflow options) this1
       && negb (truthy_object (github this1))
    then (Throw (MkError err_no_github), jestState X options this1)
    else
      let this2 := buildPhaseState X options this1 in
      match (if enabledUnlessSubproject (opt_releaseWorkflow options) this1
             then None else releaseCheck options) with
      | Some message => (Throw (MkError message), this2)
      | None =>
          let this4 := autoMergedState X options (releasePhaseState X options this2) in
          if truthy_object (opt_dependabot options) && truthy_object (opt_depsUpgrade options)
          then (Throw (MkError err_dependabot), this4)
          else (Normal tt, finishedState options (upgradedState options this4))
      end.
Proof.
  intros E1. unfold constructor. rewrite (bind_normal _ _ _ _ _ E1).
  assert (∀ this3,
    (constructor_autoMerge X options;;
     dependenciesUpgrade ← constructor_depsUpgrade options;
     constructor_projenUpgrade options dependenciesUpgrade;;
     constructor_finish options) this3
    = if truthy_object (opt_dependabot options) && truthy_object (opt_depsUpgrade options)
      then (Throw (MkError err_dependabot), autoMergedState X options this3)
      else (Normal tt,
            finishedState options (upgradedState options (autoMergedState X options this3))))
    as Hlate.
  { intros this3.
    rewrite (bind_normal _ _ _ _ _ (constructor_autoMerge_run X options this3)).
    pose proof (constructor_depsUpgrade_cases options (autoMergedState X options this3)) as D.
    destruct (_ && _).
    - by rewrite (bind_throw _ _ _ _ _ D).
    - rewrite (bind_normal _ _ _ _ _ D).
      rewrite (bind_normal _ _ _ _ _ (constructor_projenUpgrade_run options _ _)).
      by rewrite constructor_finish_state. }
  pose proof (constructor_build_run X options this1) as B.
  pose proof (buildPhaseState_parent X options this1) as P.
  pose proof (constructor_release_run X options (buildPhaseState X options this1)) as R.
  unfold releasePhaseState.
  rewrite (enabledUnlessSubproject_parent _ this1 _ P) in *.
  unfold buildPhaseState in *.
  destruct (enabledUnlessSubproject (opt_buildWorkflow options) this1);
    [destruct (github this1) as [g|]|]; simpl;
    try (by rewrite (bind_throw _ _ _ _ _ B));
    rewrite (bind_normal _ _ _ _ _ B);
    (destruct (enabledUnlessSubproject (opt_releaseWorkflow options) this1);
     [|destruct (releaseCheck options)]);
    try (by rewrite (bind_throw _ _ _ _ _ R));
    rewrite (bind_normal _ _ _ _ _ R); apply Hlate.
Qed.

(** ** The setup phase *)

(** [π] after a computation that preserves it. *)
Ltac push π :=
  repeat match goal with
  | |- context [π (?m ?s).2] =>
      let P := fresh "P" in
      assert (preserves π m) as P by (monadic ltac:(reflexivity));
      rewrite (P s); clear P
  end.

(** Runs the steps at the head of a computation that cannot throw. *)
Ltac run_total :=
  repeat first [ rewrite bind_total by (monadic idtac); cbv beta
               | rewrite bind_gets ].

Lemma bind_assoc {A B C} (m : M A) (f : A → M B) (g : B → M C) this :
  ((m ≫= f) ≫= g) this = (m ≫= λ a, f a ≫= g) this.
Proof. unfold mbind, M_bind. by destruct (m this) as [[a|e] this1]. Qed.

Lemma when_state b (m : M unit) this :
  (when b m this).2 = if b then (m this).2 else this.
Proof. by destruct b. Qed.

(** The [.npmignore] file at the check of the [npmignore] option. *)
Lemma npmignore_created options this :
  npmignore
    (when (default true (opt_npmignoreEnabled options))
       (modify (addComponent NpmIgnoreFile);; modify (set_npmignore (Some []))) this).2
  = if default true (opt_npmignoreEnabled options) then Some [] else npmignore this.
Proof. by destruct (default true _). Qed.

Lemma bind_ext {A B} (m : M A) (f g : A → M B) this :
  (∀ a this1, f a this1 = g a this1) → (m ≫= f) this = (m ≫= g) this.
Proof. intros H. unfold mbind, M_bind. by destruct (m this) as [[a|e] this1]. Qed.

Lemma constructor_setup_blocks X options this :
  constructor_setup X options this
  = (setup_environment options;; setup_tasks options;; setup_files options;;
     setup_npmignore options;; setup_scripts X options;;
     setup_defaultReleaseBranch options) this.
Proof.
  unfold constructor_setup, setup_environment, setup_tasks, setup_files,
    setup_npmignore, setup_scripts, setup_defaultReleaseBranch.
  repeat (rewrite ?bind_assoc; first [reflexivity | apply bind_ext; intros ? ?]).
Qed.

Lemma filesState_npmignore options this :
  npmignore (filesState options this)
  = if default true (opt_npmignoreEnabled options) then Some [] else npmignore this.
Proof.
  unfold filesState, setup_files, setup_tasks, setup_environment. run_total.
  push npmignore. rewrite npmignore_created. by push npmignore.
Qed.

Lemma setup_npmignore_run options this :
  setup_npmignore options this
  = if truthy_length (opt_npmignore options) && negb (truthy_object (npmignore this))
    then (Throw (MkError err_npmignore), this)
    else (Normal tt, (setup_npmignore options this).2).
Proof.
  unfold setup_npmignore.
  destruct (truthy_length (opt_npmignore options)); [|done].
  rewrite bind_gets. by destruct (npmignore this).
Qed.

(** The setup phase, run: its outcome and the state it leaves. *)
Lemma constructor_setup_run X options this :
  constructor_setup X options this
  = match setupCheck options this with
    | Some message =>
        (Throw (MkError message),
         if bool_decide (message = err_npmignore)
         then filesState options this else setupState X options this)
    | None => (Normal tt, setupState X options this)
    end.
Proof.
  rewrite constructor_setup_blocks.
  rewrite bind_total by (unfold setup_environment; monadic idtac). cbv beta.
  rewrite bind_total by (unfold setup_tasks; monadic idtac). cbv beta.
  rewrite bind_total by (unfold setup_files; monadic idtac). cbv beta.
  fold (filesState options this). unfold setupCheck, setupState.
  pose proof (setup_npmignore_run options (filesState options this)) as N.
  rewrite filesState_npmignore in N.
  destruct (truthy_length (opt_npmignore options)),
    (default true (opt_npmignoreEnabled options)), (npmignore this); simpl in *;
    try (by rewrite (bind_throw _ _ _ _ _ N));
    rewrite (bind_normal _ _ _ _ _ N);
    (rewrite bind_total by (unfold setup_scripts; monadic idtac)); cbv beta;
    unfold setup_defaultReleaseBranch;
    by destruct (truthy_string (opt_defaultReleaseBranch options)).
Qed.

(** What the setup phase leaves as it is. *)
Ltac setup_fact π :=
  unfold setupState, filesState, setup_scripts, setup_npmignore, setup_files, setup_tasks,
    setup_environment;
  run_total; push π.

Lemma setupState_parent X options this : parent (setupState X options this) = parent this.
Proof. by setup_fact parent. Qed.

Lemma setupState_github X options this : github (setupState X options this) = github this.
Proof. by setup_fact github. Qed.

(** The constructor, run: the first failed check decides the outcome. *)
Lemma constructor_run X options this :
  match failedCheck options this with
  | Some message => ∃ this', constructor X options this = (Throw (MkError message), this')
  | None => constructor X options this = (Normal tt, assembledState X options this)
  end.
Proof.
  unfold failedCheck. pose proof (constructor_setup_run X options this) as S.
  destruct (setupCheck options this) as [message|].
  { eexists. unfold constructor. by rewrite (bind_throw _ _ _ _ _ S). }
  rewrite (constructor_after_setup _ _ _ _ S), setupState_github.
  rewrite !(enabledUnlessSubproject_parent _ this _ (setupState_parent X options this)).
  unfold assembledState.
  destruct (_ && negb _); [by eexists|].
  destruct (if enabledUnlessSubproject (opt_releaseWorkflow options) this then None
            else releaseCheck options); [by eexists|].
  simpl. destruct (_ && _); [by eexists|done].
Qed.

(** A project that was assembled passed every check and is
    [assembledState]. *)
Lemma constructor_normal X options this this' :
  constructor X options this = (Normal tt, this') →
  failedCheck options this = None ∧ this' = assembledState X options this.
Proof.
  intros R. pose proof (constructor_run X options this) as C.
  destruct (failedCheck options this) as [message|].
  - destruct C as [s C]. congruence.
  - split; [done|]. congruence.
Qed.

(** [π] of a state of the construction, as far back as the phases leave it
    unchanged. *)
Ltac kept tac :=
  by (intros ?; tac; try unfold registeredWorkflows; try unfold jobInputs; try unfold packageOf;
      try unfold packageNameOf; try unfold mergifyOf; try unfold devDepsOf;
      try unfold scriptsOf; try unfold dependabotOf; try unfold templatesOf;
      try unfold mergifyFlagOf;
      unfold fmap, option_fmap, option_map;
      simpl; repeat case_match; simpl in *; simplify_eq;
      repeat match goal with H : github _ = _ |- _ => rewrite H; clear H end;
      reflexivity).

Ltac push_states π :=
  repeat match goal with
  | |- context [π (finishedState ?o ?s)] =>
      let H := fresh in
      assert (∀ s', π (finishedState o s') = π s') as H
        by kept ltac:(unfold finishedState, addComponent);
      rewrite (H s); clear H
  | |- context [π (upgradedState ?o ?s)] =>
      let H := fresh in
      assert (∀ s', π (upgradedState o s') = π s') as H
        by kept ltac:(unfold upgradedState, binder, addComponent);
      rewrite (H s); clear H
  | |- context [π (autoMergedState ?X ?o ?s)] =>
      let H := fresh in
      assert (∀ s', π (autoMergedState X o s') = π s') as H
        by kept ltac:(unfold autoMergedState, addComponent);
      rewrite (H s); clear H
  | |- context [π (releasePhaseState ?X ?o ?s)] =>
      let H := fresh in
      assert (∀ s', π (releasePhaseState X o s') = π s') as H
        by kept ltac:(unfold releasePhaseState, releasedState, addComponent);
      rewrite (H s); clear H
  | |- context [π (buildPhaseState ?X ?o ?s)] =>
      let H := fresh in
      assert (∀ s', π (buildPhaseState X o s') = π s') as H
        by kept ltac:(unfold buildPhaseState, builtState, jestState, registerWorkflow,
                        addComponent);
      rewrite (H s); clear H
  | |- context [π (jestState ?X ?o ?s)] =>
      let H := fresh in
      assert (∀ s', π (jestState X o s') = π s') as H
        by kept ltac:(unfold jestState, addComponent);
      rewrite (H s); clear H
  | |- context [π (setupState ?X ?o ?s)] =>
      let H := fresh in
      assert (∀ s', π (setupState X o s') = π s') as H by (intros ?; by setup_fact π);
      rewrite (H s); clear H
  end.

Lemma assembledState_parent X options this :
  parent (assembledState X options this) = parent this.
Proof. unfold assembledState. by push_states parent. Qed.

Lemma assembledState_antitamper X options this :
  antitamper (assembledState X options this)
  = Some (enabledUnlessSubproject (opt_buildWorkflow options) this
          && default true (opt_antitamper options)).
Proof.
  unfold assembledState. push_states antitamper.
  unfold buildPhaseState, builtState, jestState.
  rewrite (enabledUnlessSubproject_parent _ this _ (setupState_parent X options this)).
  by repeat case_match.
Qed.

(** ** Further properties of the constructor *)

(** X1. The constructor raises exactly when one of its checks fails, and
    then with the message of the first failing check, in this order:
    [npmignore] patterns without an [.npmignore] file, a missing or empty
    [defaultReleaseBranch], a build workflow without GitHub support, a
    release option ([releaseToNpm], [releaseBranches],
    [releaseEveryCommit], [releaseSchedule], in this order) with the
    release workflow disabled, [dependabot] together with [depsUpgrade].
    When no check fails it completes. *)
Theorem constructor_validation X options this :
  (failedCheck options this = None
   ↔ ∃ this', constructor X options this = (Normal tt, this'))
  ∧ (∀ message,
       failedCheck options this = Some message
       ↔ ∃ this', constructor X options this = (Throw (MkError message), this')).
Proof.
  pose proof (constructor_run X options this) as C.
  destruct (failedCheck options this) as [m|].
  - destruct C as [s C]. split.
    + split; [done|]. intros [s' H]. congruence.
    + intros message. split.
      * intros [= <-]. eauto.
      * intros [s' H]. congruence.
  - split.
    + split; eauto.
    + intros message. split; [done|]. intros [s' H]. congruence.
Qed.

Lemma constructor_validation_witness :
  (∃ this',
     constructor sampleExternals (sampleOptions None None None None)
       (sampleProject (Some sampleGitHub)) = (Normal tt, this'))
  ∧ ∃ this',
      constructor sampleExternals (sampleOptions (Some false) (Some true) (Some true) (Some NONE))
        (sampleProject None) = (Throw (MkError err_no_github), this').
Proof.
  split.
  - apply (proj1 (proj1 (constructor_validation sampleExternals
             (sampleOptions None None None None) (sampleProject (Some sampleGitHub))))).
    vm_compute. reflexivity.
  - apply (proj1 (proj2 (constructor_validation sampleExternals
             (sampleOptions (Some false) (Some true) (Some true) (Some NONE))
             (sampleProject None)) err_no_github)).
    vm_compute. reflexivity.
Defined.

(** The build job of an assembled project. *)
Lemma assembled_buildWorkflow X options this :
  enabledUnlessSubproject (opt_buildWorkflow options) this = true →
  failedCheck options this = None →
  ∃ g,
    github this = Some g
    ∧ buildWorkflow (assembledState X options this) = Some (length (gh_workflows g))
    ∧ buildWorkflowJobId (assembledState X options this) = Some "build"
    ∧ registeredWorkflows (assembledState X options this)
      = Some (gh_workflows g
              ++ [builtWorkflow "Build" (buildWorkflowOptions options)
                    (jestState X options (setupState X options this))]).
Proof.
  intros En F. unfold failedCheck in F.
  destruct (setupCheck options this); [done|]. rewrite En in F.
  destruct (github this) as [g|] eqn:G; [|done]. exists g. split; [done|].
  unfold assembledState.
  push_states buildWorkflow. push_states buildWorkflowJobId.
  push_states registeredWorkflows.
  unfold buildPhaseState.
  rewrite (enabledUnlessSubproject_parent _ this _ (setupState_parent X options this)), En.
  rewrite setupState_github, G. unfold builtState, registeredWorkflows. by simpl.
Qed.

Lemma assembled_buildJobOf X options this this' :
  constructor X options this = (Normal tt, this') →
  enabledUnlessSubproject (opt_buildWorkflow options) this = true →
  buildJobOf this' (assembledBuildJob X options this).
Proof.
  intros R En. apply constructor_normal in R as [F ->].
  destruct (assembled_buildWorkflow X options this En F) as (g & G & W & _ & Ws).
  exists (length (gh_workflows g)). split; [done|].
  unfold emittedJob. unfold registeredWorkflows in Ws.
  destruct (github (assembledState X options this)) as [g'|]; [|done].
  injection Ws as Ws. simpl. rewrite Ws, list_lookup_middle by done. simpl.
  apply lookup_singleton_eq.
Qed.

Lemma buildJob_inputs this this' options :
  jobInputs this' = jobInputs this → buildJob this' options = buildJob this options.
Proof.
  intros [= H1 H2 H3 H4 H5 H6 H7].
  unfold buildJob, installWorkflowSteps, antitamperSteps, buildStep, runTaskCommand,
    codecovSteps, codecovStep, codecovWith, jestConfig.
  by rewrite H1, H2, H3, H4, H5, H6, H7.
Qed.

Lemma assembledState_jobInputs X options this :
  jobInputs (assembledState X options this)
  = jobInputs (jestState X options (setupState X options this)).
Proof.
  unfold assembledState. push_states jobInputs.
  unfold buildPhaseState, builtState. by repeat case_match.
Qed.

(** The build job of an assembled project is [buildJob] of that project. *)
Lemma assembled_buildJob X options this this' :
  constructor X options this = (Normal tt, this') →
  enabledUnlessSubproject (opt_buildWorkflow options) this = true →
  buildJobOf this' (buildJob this' (buildWorkflowOptions options)).
Proof.
  intros R En. pose proof (assembled_buildJobOf X options this this' R En) as J.
  apply constructor_normal in R as [_ ->].
  by rewrite (buildJob_inputs _ _ _ (assembledState_jobInputs X options this)).
Qed.

Lemma setupState_nodeVersion X options this :
  nodeVersion (setupState X options this) = workflowNodeVersion options this.
Proof. by setup_fact nodeVersion. Qed.

Lemma setupState_runScriptCommand X options this :
  runScriptCommand (setupState X options this)
  = Some (scriptCommand (pkg_packageManager (package this))).
Proof.
  by setup_fact runScriptCommand.
Qed.

Lemma assembledState_nodeVersion X options this :
  nodeVersion (assembledState X options this) = workflowNodeVersion options this.
Proof.
  unfold assembledState. push_states nodeVersion. apply setupState_nodeVersion.
Qed.

Lemma assembledState_runScriptCommand X options this :
  runScriptCommand (assembledState X options this)
  = Some (scriptCommand (pkg_packageManager (package this))).
Proof.
  unfold assembledState. push_states runScriptCommand. apply setupState_runScriptCommand.
Qed.

Lemma assembledState_packageOf X options this :
  packageOf (assembledState X options this) = packageOf this.
Proof. unfold assembledState. by push_states packageOf. Qed.

Lemma assembledState_jest X options this :
  jest (assembledState X options this)
  = if default true (opt_jest options)
    then Some {| jest_config := Jest_config X (opt_jestOptions options) |}
    else jest this.
Proof.
  unfold assembledState. push_states jest.
  unfold buildPhaseState, builtState, jestState.
  repeat case_match; simpl; by push_states jest.
Qed.

Lemma assembled_job_steps this options :
  job_steps (buildJob this (buildWorkflowOptions options))
  = [checkoutStep (buildWorkflowOptions options)]
    ++ installWorkflowSteps this
    ++ antitamperSteps this (buildWorkflowOptions options)
    ++ [gitIdentityStep; buildStep this]
    ++ codecovSteps this (buildWorkflowOptions options)
    ++ updateRepo "build" pullRequestBranch
    ++ antitamperSteps this (buildWorkflowOptions options).
Proof. by rewrite buildJob_steps. Qed.

(** X2. When the build workflow is enabled, an assembled project refers to
    it by [buildWorkflow] and to its job by the id ["build"]; the workflow
    is named ["Build"], is triggered by pull requests and by manual dispatch
    and by nothing else, and holds the one job, which is [buildJob] of the
    assembled project; the workflows the GitHub collaborator had before are
    kept in front of it. *)
Theorem assembled_build_workflow X options this this' :
  constructor X options this = (Normal tt, this') →
  enabledUnlessSubproject (opt_buildWorkflow options) this = true →
  ∃ g workflows w,
    github this = Some g
    ∧ buildWorkflow this' = Some (length (gh_workflows g))
    ∧ buildWorkflowJobId this' = Some "build"
    ∧ registeredWorkflows this' = Some workflows
    ∧ take (length (gh_workflows g)) workflows = gh_workflows g
    ∧ workflows !! length (gh_workflows g) = Some w
    ∧ wf_name w = "Build"
    ∧ wf_events w = {[ "pull_request" := JSObject []; "workflowDispatch" := JSObject [] ]}
    ∧ wf_jobs w = {[ "build" := buildJob this' (buildWorkflowOptions options) ]}.
Proof.
  intros R En. apply constructor_normal in R as [F ->].
  destruct (assembled_buildWorkflow X options this En F) as (g & G & W & J & Ws).
  eexists g, _, _. repeat split; [done..|exact Ws| | | | |].
  - by rewrite take_app_length.
  - by rewrite list_lookup_middle.
  - done.
  - simpl. apply map_eq. intros k.
    destruct (decide (k = "pull_request")) as [->|]; [done|].
    destruct (decide (k = "workflowDispatch")) as [->|]; [done|].
    rewrite lookup_union, !lookup_insert_ne, !lookup_singleton_ne by done. done.
  - simpl. by rewrite (buildJob_inputs _ _ _ (assembledState_jobInputs X options this)).
Qed.

Lemma assembled_build_workflow_witness :
  let options := sampleOptions None None None None in
  let this := sampleProject (Some sampleGitHub) in
  let this' := (constructor sampleExternals options this).2 in
  ∃ g workflows w,
    github this = Some g
    ∧ buildWorkflow this' = Some (length (gh_workflows g))
    ∧ buildWorkflowJobId this' = Some "build"
    ∧ registeredWorkflows this' = Some workflows
    ∧ take (length (gh_workflows g)) workflows = gh_workflows g
    ∧ workflows !! length (gh_workflows g) = Some w
    ∧ wf_name w = "Build"
    ∧ wf_events w = {[ "pull_request" := JSObject []; "workflowDispatch" := JSObject [] ]}
    ∧ wf_jobs w = {[ "build" := buildJob this' (buildWorkflowOptions options) ]}.
Proof.
  apply (assembled_build_workflow sampleExternals (sampleOptions None None None None)
           (sampleProject (Some sampleGitHub))).
  - vm_compute. reflexivity.
  - reflexivity.
Defined.

Lemma assembled_antitamperSteps X options this :
  enabledUnlessSubproject (opt_buildWorkflow options) this = true →
  antitamperSteps (assembledState X options this) (buildWorkflowOptions options)
  = if negb (default true (opt_mutableBuild options)) && default true (opt_antitamper options)
    then [antitamperStep] else [].
Proof.
  intros En. unfold antitamperSteps. rewrite assembledState_antitamper, En. simpl.
  by destruct (default true (opt_mutableBuild options)),
    (default true (opt_antitamper options)).
Qed.

(** X3. In the build job of an assembled project the anti-tamper check is
    there, after the install steps and again at the end, exactly when the
    build is not mutable ([mutableBuild] is [false]) and the [antitamper]
    option is not [false]; by default, when builds are mutable, the job has
    no anti-tamper check although the project's anti-tamper flag is set. *)
Theorem assembled_job_antitamper X options this this' :
  constructor X options this = (Normal tt, this') →
  enabledUnlessSubproject (opt_buildWorkflow options) this = true →
  ∃ job checks,
    buildJobOf this' job
    ∧ job_steps job
      = [checkoutStep (buildWorkflowOptions options)]
        ++ installWorkflowSteps this'
        ++ checks
        ++ [gitIdentityStep; buildStep this']
        ++ codecovSteps this' (buildWorkflowOptions options)
        ++ updateRepo "build" pullRequestBranch
        ++ checks
    ∧ (opt_mutableBuild options = Some false ∧ opt_antitamper options ≠ Some false
       → checks = [antitamperStep])
    ∧ (opt_mutableBuild options ≠ Some false ∨ opt_antitamper options = Some false
       → checks = [])
    ∧ (opt_mutableBuild options = None → opt_antitamper options = None →
       checks = [] ∧ antitamper this' = Some true).
Proof.
  intros R En. pose proof (assembled_buildJob X options this this' R En) as J.
  apply constructor_normal in R as [_ ->].
  eexists _, _. split; [exact J|]. split; [apply assembled_job_steps|].
  rewrite assembled_antitamperSteps by done. rewrite assembledState_antitamper, En.
  split; [|split].
  - intros [-> H]. by destruct (opt_antitamper options) as [[]|].
  - intros [H| ->].
    + by destruct (opt_mutableBuild options) as [[]|].
    + simpl. by rewrite andb_false_r.
  - by intros -> ->.
Qed.

Lemma assembled_job_antitamper_witness :
  let options := sampleOptions None None None None in
  let this := sampleProject (Some sampleGitHub) in
  let this' := (constructor sampleExternals options this).2 in
  ∃ job checks,
    buildJobOf this' job
    ∧ job_steps job
      = [checkoutStep (buildWorkflowOptions options)]
        ++ installWorkflowSteps this'
        ++ checks
        ++ [gitIdentityStep; buildStep this']
        ++ codecovSteps this' (buildWorkflowOptions options)
        ++ updateRepo "build" pullRequestBranch
        ++ checks
    ∧ (opt_mutableBuild options = Some false ∧ opt_antitamper options ≠ Some false
       → checks = [antitamperStep])
    ∧ (opt_mutableBuild options ≠ Some false ∨ opt_antitamper options = Some false
       → checks = [])
    ∧ (opt_mutableBuild options = None → opt_antitamper options = None →
       checks = [] ∧ antitamper this' = Some true).
Proof.
  apply (assembled_job_antitamper sampleExternals (sampleOptions None None None None)
           (sampleProject (Some sampleGitHub))).
  - vm_compute. reflexivity.
  - reflexivity.
Defined.

(** X4. [mutableBuild] decides how the build job checks out: with mutable
    builds (the default) the checkout step is given the branch and the
    repository of the pull request, otherwise it has no parameters.  The
    three steps that commit and push the changes of the build come last
    before the final anti-tamper checks in both cases. *)
Theorem assembled_job_mutable_build X options this this' :
  constructor X options this = (Normal tt, this') →
  enabledUnlessSubproject (opt_buildWorkflow options) this = true →
  ∃ job checkout rest before checks,
    buildJobOf this' job
    ∧ job_steps job = checkout :: rest
    ∧ step_uses checkout = Some "actions/checkout@v2"
    ∧ (opt_mutableBuild options ≠ Some false →
       step_with checkout
       = Some {[ "ref" := JSString pullRequestBranch;
                 "repository" := JSString pullRequestRepository ]})
    ∧ (opt_mutableBuild options = Some false → step_with checkout = None)
    ∧ job_steps job = before ++ updateRepo "build" pullRequestBranch ++ checks
    ∧ checks = antitamperSteps this' (buildWorkflowOptions options)
    ∧ (step_name <$> updateRepo "build" pullRequestBranch)
      = [ Some "Check for changes"; Some "Commit and push changes (if changed)";
          Some "Update status check (if changed)" ].
Proof.
  intros R En. pose proof (assembled_buildJob X options this this' R En) as J.
  eexists _, (checkoutStep (buildWorkflowOptions options)), _,
    ([checkoutStep (buildWorkflowOptions options)] ++ installWorkflowSteps this'
       ++ antitamperSteps this' (buildWorkflowOptions options)
       ++ [gitIdentityStep; buildStep this']
       ++ codecovSteps this' (buildWorkflowOptions options)), _.
  split; [exact J|]. rewrite assembled_job_steps.
  split; [reflexivity|]. split; [done|]. split; [|split; [|split; [|done]]].
  - intros H. simpl. by destruct (opt_mutableBuild options) as [[]|].
  - intros H. simpl. by rewrite H.
  - by rewrite <- !app_assoc.
Qed.

Lemma assembled_job_mutable_build_witness :
  let options := sampleOptions None None None None in
  let this := sampleProject (Some sampleGitHub) in
  let this' := (constructor sampleExternals options this).2 in
  ∃ job checkout rest before checks,
    buildJobOf this' job
    ∧ job_steps job = checkout :: rest
    ∧ step_uses checkout = Some "actions/checkout@v2"
    ∧ (opt_mutableBuild options ≠ Some false →
       step_with checkout
       = Some {[ "ref" := JSString pullRequestBranch;
                 "repository" := JSString pullRequestRepository ]})
    ∧ (opt_mutableBuild options = Some false → step_with checkout = None)
    ∧ job_steps job = before ++ updateRepo "build" pullRequestBranch ++ checks
    ∧ checks = antitamperSteps this' (buildWorkflowOptions options)
    ∧ (step_name <$> updateRepo "build" pullRequestBranch)
      = [ Some "Check for changes"; Some "Commit and push changes (if changed)";
          Some "Update status check (if changed)" ].
Proof.
  apply (assembled_job_mutable_build sampleExternals (sampleOptions None None None None)
           (sampleProject (Some sampleGitHub))).
  - vm_compute. reflexivity.
  - reflexivity.
Defined.

Lemma filter_coverage_updateRepo jobId branch :
  filter isCoverageUpload (updateRepo jobId branch) = [].
Proof. done. Qed.

(** X5. The build job of an assembled project uploads coverage exactly
    when [codeCov] is [true] or a secret name is supplied, the [jest]
    option is not [false] and the test framework reports a configuration;
    there is then one such step.  With [jest: false] there is none, whatever
    the coverage options are. *)
Theorem assembled_job_coverage X options this this' :
  constructor X options this = (Normal tt, this') →
  enabledUnlessSubproject (opt_buildWorkflow options) this = true →
  jest this = None →
  ∃ job,
    buildJobOf this' job
    ∧ ((opt_codeCov options = Some true
        ∨ ∃ secret, opt_codeCovTokenSecret options = Some secret ∧ secret ≠ "") →
       opt_jest options ≠ Some false →
       truthy (Jest_config X (opt_jestOptions options)) = true →
       filter isCoverageUpload (job_steps job)
       = [codecovStep this' (buildWorkflowOptions options)])
    ∧ (opt_jest options = Some false → filter isCoverageUpload (job_steps job) = [])
    ∧ (opt_codeCov options ≠ Some true →
       truthy_string (opt_codeCovTokenSecret options) = false →
       filter isCoverageUpload (job_steps job) = [])
    ∧ (truthy (Jest_config X (opt_jestOptions options)) = false →
       filter isCoverageUpload (job_steps job) = []).
Proof.
  intros R En Hj. pose proof (assembled_buildJob X options this this' R En) as J.
  apply constructor_normal in R as [_ ->].
  eexists. split; [exact J|].
  rewrite assembled_job_steps, !filter_app, filter_coverage_install,
    !filter_coverage_antitamper, filter_coverage_codecov, filter_coverage_updateRepo.
  simpl. rewrite app_nil_r.
  unfold codecovSteps, jestConfig. rewrite assembledState_jest, Hj.
  change (bw_codeCov (buildWorkflowOptions options))
    with (Some (default false (opt_codeCov options))).
  change (bw_codeCovTokenSecret (buildWorkflowOptions options))
    with (opt_codeCovTokenSecret options).
  split; [|split; [|split]].
  - intros Hc Hjest Hcfg.
    assert (default true (opt_jest options) = true) as ->
      by (by destruct (opt_jest options) as [[]|]).
    simpl. rewrite Hcfg, andb_true_r.
    destruct Hc as [->|(secret & -> & Hne)]; [done|]. simpl.
    by rewrite bool_decide_eq_false_2, orb_true_r.
  - intros ->. simpl. by rewrite andb_false_r.
  - intros Hc ->. by destruct (opt_codeCov options) as [[]|].
  - intros Hcfg. destruct (default true (opt_jest options)); simpl;
      [rewrite Hcfg|]; by rewrite andb_false_r.
Qed.

Lemma assembled_job_coverage_witness :
  let options := sampleOptions None None None None in
  let this := sampleProject (Some sampleGitHub) in
  ∃ job,
    buildJobOf (constructor sampleExternals options this).2 job
    ∧ filter isCoverageUpload (job_steps job) = [].
Proof.
  destruct (assembled_job_coverage sampleExternals (sampleOptions None None None None)
              (sampleProject (Some sampleGitHub))
              (constructor sampleExternals (sampleOptions None None None None)
                 (sampleProject (Some sampleGitHub))).2)
    as (job & J & _ & _ & H & _).
  - vm_compute. reflexivity.
  - reflexivity.
  - reflexivity.
  - exists job. split; [exact J|]. apply H.
    + discriminate.
    + reflexivity.
Defined.

Lemma installWorkflowSteps_value this :
  installWorkflowSteps this
  = match nodeVersion this with
    | Some version => if bool_decide (version = "") then [] else [setupNodeStep version]
    | None => []
    end ++ [installDependenciesStep (pkg_installCommand (package this))].
Proof.
  unfold installWorkflowSteps.
  destruct (nodeVersion this) as [version|]; [|done]. simpl.
  by destruct (bool_decide (version = "")).
Qed.

(** X6. The node version of the workflows of an assembled project is
    [workflowNodeVersion] when that option is given, and the package's
    minimum node version otherwise.  The install steps are the
    [Setup Node.js] step for that version, if it is a non-empty string, and
    the step that runs the package's install command.  An empty
    [workflowNodeVersion] is not replaced by the minimum node version: the
    install steps are then the install command alone. *)
Theorem assembled_install_steps X options this this' :
  constructor X options this = (Normal tt, this') →
  nodeVersion this' = workflowNodeVersion options this
  ∧ (∀ version, workflowNodeVersion options this = Some version → version ≠ "" →
       installWorkflowSteps this'
       = [setupNodeStep version;
          installDependenciesStep (pkg_installCommand (package this))])
  ∧ (workflowNodeVersion options this = None →
     installWorkflowSteps this'
     = [installDependenciesStep (pkg_installCommand (package this))])
  ∧ (opt_workflowNodeVersion options = Some "" →
     installWorkflowSteps this'
     = [installDependenciesStep (pkg_installCommand (package this))]).
Proof.
  intros R. apply constructor_normal in R as [_ ->].
  pose proof (assembledState_nodeVersion X options this) as N.
  pose proof (assembledState_packageOf X options this) as [= _ _ _ _ P _ _ _ _ _].
  rewrite installWorkflowSteps_value, N, P. split; [done|]. split; [|split].
  - intros version -> Hne. by rewrite bool_decide_eq_false_2.
  - by intros ->.
  - unfold workflowNodeVersion. by intros ->.
Qed.

Lemma assembled_install_steps_witness :
  let options := sampleOptions None None None None in
  let this := sampleProject (Some sampleGitHub) in
  installWorkflowSteps (constructor sampleExternals options this).2
  = [setupNodeStep "12.0.0";
     installDependenciesStep "yarn install --check-files --frozen-lockfile"].
Proof.
  apply (proj1 (proj2 (assembled_install_steps sampleExternals
           (sampleOptions None None None None) (sampleProject (Some sampleGitHub))
           (constructor sampleExternals (sampleOptions None None None None)
              (sampleProject (Some sampleGitHub))).2
           ltac:(vm_compute; reflexivity))) "12.0.0").
  - reflexivity.
  - discriminate.
Defined.

(** X7. In an assembled project the command that runs a task is the
    generator's command followed by the task name when tasks are executed
    by the generator, and otherwise [npm run], [yarn run] or [pnpm run],
    after the package manager, followed by the task name; the [Build] step
    of the build job runs that command for the task ["build"]. *)
Theorem assembled_run_task_command X options this this' :
  constructor X options this = (Normal tt, this') →
  (∀ task,
     runTaskCommand this' task
     = match pkg_npmTaskExecution (package this) with
       | PROJEN => pkg_projenCommand (package this) +:+ " " +:+ task
       | SHELL => scriptCommand (pkg_packageManager (package this)) +:+ " " +:+ task
       end)
  ∧ (enabledUnlessSubproject (opt_buildWorkflow options) this = true →
     ∃ job before after,
       buildJobOf this' job
       ∧ job_steps job = before ++ [buildStep this'] ++ after
       ∧ step_name (buildStep this') = Some "Build"
       ∧ step_run (buildStep this') = Some (runTaskCommand this' "build")).
Proof.
  intros R. split.
  - apply constructor_normal in R as [_ ->]. intros task. unfold runTaskCommand.
    pose proof (assembledState_packageOf X options this) as [= _ _ -> -> _ _ _ _ _ _].
    by rewrite assembledState_runScriptCommand.
  - intros En. pose proof (assembled_buildJob X options this this' R En) as J.
    eexists _, ([checkoutStep (buildWorkflowOptions options)] ++ installWorkflowSteps this'
                  ++ antitamperSteps this' (buildWorkflowOptions options)
                  ++ [gitIdentityStep]), _.
    split; [exact J|]. rewrite assembled_job_steps. split; [|done].
    by rewrite <- !app_assoc.
Qed.

Lemma assembled_run_task_command_witness :
  let options := sampleOptions None None None None in
  let this := sampleProject (Some sampleGitHub) in
  runTaskCommand (constructor sampleExternals options this).2 "build" = "npx projen build".
Proof.
  apply (proj1 (assembled_run_task_command sampleExternals
           (sampleOptions None None None None) (sampleProject (Some sampleGitHub))
           (constructor sampleExternals (sampleOptions None None None None)
              (sampleProject (Some sampleGitHub))).2
           ltac:(vm_compute; reflexivity)) "build").
Defined.

(** ** The components, the release and the ignore files *)

(** *** The components of an assembled project *)

Lemma setupState_components X options this :
  components (setupState X options this)
  = components this
    ++ (if truthy_string (pkg_license (package this))
        then [License (interpolate (pkg_license (package this)))
                (match opt_copyrightOwner options with
                 | Some owner => Some owner
                 | None => opt_authorName options
                 end)
                (opt_copyrightPeriod options)]
        else [])
    ++ (if default true (opt_npmignoreEnabled options) then [NpmIgnoreFile] else []).
Proof.
  setup_fact components.
  match goal with |- components (when _ _ ?s).2 = _ => set (this0 := s) end.
  assert (components this0
          = components this
            ++ (if truthy_string (pkg_license (package this))
                then [License (interpolate (pkg_license (package this)))
                        (match opt_copyrightOwner options with
                         | Some owner => Some owner
                         | None => opt_authorName options
                         end)
                        (opt_copyrightPeriod options)]
                else [])) as H.
  { unfold this0. push components.
    match goal with |- components (addLicense _ ?s).2 = _ => set (this1 := s) end.
    assert (components this1 = components this) as H1
      by (unfold this1; by push components).
    assert (package this1 = package this) as H2
      by (unfold this1; by push package).
    clearbody this1. unfold addLicense. rewrite bind_gets, H2, when_state.
    destruct (truthy_string (pkg_license (package this))); simpl.
    - by rewrite H1.
    - by rewrite app_nil_r. }
  clearbody this0. rewrite when_state.
  destruct (default true (opt_npmignoreEnabled options)); simpl.
  - by rewrite H, <- app_assoc.
  - by rewrite app_nil_r.
Qed.

Lemma finishedState_components options this :
  components (finishedState options this) = components this ++ finishComponents options.
Proof.
  unfold finishedState, finishComponents, addComponent.
  repeat case_match; simpl; by rewrite ?app_nil_r.
Qed.

Lemma upgradedState_components options this :
  components (upgradedState options this)
  = components this
    ++ match chosenMechanism options with
       | githubWorkflow upgradeOptions => [UpgradeDependencies upgradeOptions]
       | _ => []
       end
    ++ (if ignoresProjen (chosenMechanism options)
           && negb (bool_decide (pkg_packageName (package this) = "projen"))
        then [UpgradeDependencies (projenUpgradeOptions options this)]
        else []).
Proof.
  unfold upgradedState.
  assert (package (binder (chosenMechanism options) this) = package this) as ->
    by (by destruct (chosenMechanism options)).
  assert (projenUpgradeOptions options (binder (chosenMechanism options) this)
          = projenUpgradeOptions options this) as ->
    by (apply projenUpgradeOptions_autoMerge; by destruct (chosenMechanism options)).
  destruct (chosenMechanism options), (_ && _); simpl; by rewrite ?app_nil_r, <- ?app_assoc.
Qed.

Lemma autoMergedState_components X options this :
  components (autoMergedState X options this)
  = components this
    ++ (if from_option gh_mergify false (github this)
        then [AutoMergeComponent (buildWorkflowJobId this)
                (opt_mergifyAutoMergeLabel options)]
        else []).
Proof.
  unfold autoMergedState. destruct (from_option gh_mergify false (github this)); simpl;
    by rewrite ?app_nil_r.
Qed.

Lemma releasePhaseState_components X options this :
  components (releasePhaseState X options this)
  = components this
    ++ (if enabledUnlessSubproject (opt_releaseWorkflow options) this
        then [ReleaseComponent "build"
                (installWorkflowSteps this
                 ++ default [] (opt_releaseWorkflowSetupSteps options))]
        else []).
Proof.
  unfold releasePhaseState, releasedState.
  repeat case_match; simpl; by rewrite ?app_nil_r.
Qed.

Lemma buildPhaseState_components X options this :
  components (buildPhaseState X options this)
  = components this
    ++ (if default true (opt_jest options) then [JestComponent (opt_jestOptions options)]
        else []).
Proof.
  unfold buildPhaseState, builtState, jestState.
  repeat case_match; simpl; by rewrite ?app_nil_r.
Qed.

Lemma installWorkflowSteps_inputs this this' :
  jobInputs this' = jobInputs this → installWorkflowSteps this' = installWorkflowSteps this.
Proof. intros [= H1 H2 _ _ _ _ _]. unfold installWorkflowSteps. by rewrite H1, H2. Qed.

(** X8. The components of an assembled project are those it had, followed
    by the ones the constructor creates, in this order: the license (when
    the package has one), the [.npmignore] file (unless disabled), the test
    framework (unless [jest] is [false]), the release (when the release
    workflow is enabled, with the install steps in front of the caller's
    setup steps), the auto-merge policy (when the GitHub collaborator has
    mergify, for the job id of the build workflow), the upgrade pipeline of
    the bound mechanism (when it is a custom pipeline), the upgrade
    pipeline of the generator itself (when the mechanism ignores it and the
    package is not the generator), and the generator-config file (unless
    [projenrcJs] is [false]). *)
Theorem assembled_components X options this this' :
  constructor X options this = (Normal tt, this') →
  components this' = components this ++ createdComponents options this this'.
Proof.
  intros R. apply constructor_normal in R as [_ ->].
  unfold createdComponents.
  change (pkg_packageName (package this)) with (packageNameOf this).
  change (from_option gh_mergify false (github this)) with (mergifyOf this).
  unfold assembledState at 1.
  rewrite finishedState_components, upgradedState_components, autoMergedState_components,
    releasePhaseState_components, buildPhaseState_components, setupState_components.
  rewrite <- !app_assoc. do 3 f_equal.
  set (this2 := buildPhaseState X options (setupState X options this)).
  set (this3 := releasePhaseState X options this2).
  set (this4 := autoMergedState X options this3).
  assert (enabledUnlessSubproject (opt_releaseWorkflow options) this2
          = enabledUnlessSubproject (opt_releaseWorkflow options) this) as ->.
  { apply enabledUnlessSubproject_parent. unfold this2. by push_states parent. }
  assert (installWorkflowSteps (assembledState X options this) = installWorkflowSteps this2)
    as ->.
  { apply installWorkflowSteps_inputs. unfold assembledState. fold this2 this3 this4.
    unfold this4, this3. by push_states jobInputs. }
  f_equal.
  change (from_option gh_mergify false (github this3)) with (mergifyOf this3).
  assert (mergifyOf this3 = mergifyOf this) as ->.
  { unfold this3, this2. by push_states mergifyOf. }
  assert (buildWorkflowJobId (assembledState X options this) = buildWorkflowJobId this3)
    as ->.
  { unfold assembledState. fold this2 this3 this4. unfold this4.
    by push_states buildWorkflowJobId. }
  f_equal. f_equal.
  change (pkg_packageName (package this4)) with (packageNameOf this4).
  assert (packageNameOf this4 = packageNameOf this) as ->.
  { unfold this4, this3, this2. by push_states packageNameOf. }
  assert (projenUpgradeOptions options (assembledState X options this)
          = projenUpgradeOptions options this4) as ->; [|done].
  apply projenUpgradeOptions_autoMerge. unfold assembledState. fold this2 this3 this4.
  by push_states autoMerge.
Qed.

Lemma assembled_components_witness :
  let options := sampleOptions None None None None in
  let this := sampleProject (Some sampleGitHub) in
  let this' := (constructor sampleExternals options this).2 in
  components this' = components this ++ createdComponents options this this'.
Proof.
  apply (assembled_components sampleExternals (sampleOptions None None None None)
           (sampleProject (Some sampleGitHub))).
  vm_compute. reflexivity.
Defined.

(** *** Release, dependencies, ignore files, scripts and tasks *)

Lemma addDevDeps_devDeps deps this :
  devDepsOf (addDevDeps deps this).2 = devDepsOf this ++ deps.
Proof. reflexivity. Qed.

Lemma setupState_devDeps X options this :
  devDepsOf (setupState X options this)
  = devDepsOf this
    ++ (if default true (opt_projenDevDependency options)
        then ["projen@" +:+ default ("^" +:+ PROJEN_VERSION X) (opt_projenVersion options)]
        else []).
Proof.
  setup_fact devDepsOf. rewrite when_state.
  destruct (default true (opt_projenDevDependency options)).
  - rewrite addDevDeps_devDeps. f_equal. by push devDepsOf.
  - rewrite app_nil_r. by push devDepsOf.
Qed.

Lemma assembledState_release X options this :
  release (assembledState X options this)
  = if enabledUnlessSubproject (opt_releaseWorkflow options) this
    then Some {| release_publishToNpm :=
                   if default false (opt_releaseToNpm options)
                   then [npmPublishOptions (package this)] else [] |}
    else release this.
Proof.
  set (this2 := buildPhaseState X options (setupState X options this)).
  assert (enabledUnlessSubproject (opt_releaseWorkflow options) this2
          = enabledUnlessSubproject (opt_releaseWorkflow options) this) as En.
  { apply enabledUnlessSubproject_parent. unfold this2. by push_states parent. }
  assert (packageOf this2 = packageOf this) as [= _ _ _ _ _ _ _ Ht Hr Hs].
  { unfold this2. by push_states packageOf. }
  unfold assembledState. push_states release. fold this2.
  unfold releasePhaseState. rewrite En.
  destruct (enabledUnlessSubproject (opt_releaseWorkflow options) this).
  - unfold releasedState, npmPublishOptions. rewrite Ht, Hr, Hs.
    by destruct (default false _).
  - unfold this2. by push_states release.
Qed.

(** The development dependencies that the constructor itself adds. *)
Lemma assembledState_devDeps X options this :
  devDepsOf (assembledState X options this)
  = devDepsOf this
    ++ (if default true (opt_projenDevDependency options)
        then ["projen@"
              +:+ default ("^" +:+ PROJEN_VERSION X) (opt_projenVersion options)]
        else [])
    ++ (if enabledUnlessSubproject (opt_releaseWorkflow options) this
        then [STANDARD_VERSION X] else []).
Proof.
  set (this2 := buildPhaseState X options (setupState X options this)).
  assert (enabledUnlessSubproject (opt_releaseWorkflow options) this2
          = enabledUnlessSubproject (opt_releaseWorkflow options) this) as En.
  { apply enabledUnlessSubproject_parent. unfold this2. by push_states parent. }
  unfold assembledState. push_states devDepsOf. fold this2.
  assert (devDepsOf this2 = devDepsOf (setupState X options this)) as D
    by (unfold this2; by push_states devDepsOf).
  unfold releasePhaseState, releasedState. rewrite En.
  destruct (enabledUnlessSubproject (opt_releaseWorkflow options) this).
  - assert (∀ s, devDepsOf
              (if default false (opt_releaseToNpm options)
               then set_release
                      (Some {| release_publishToNpm :=
                                 [ {| npm_distTag := pkg_npmDistTag (package this2);
                                      npm_registry := pkg_npmRegistry (package this2);
                                      npm_npmTokenSecret :=
                                        pkg_npmTokenSecret (package this2) |} ] |}) s
               else s) = devDepsOf s) as -> by (intros s; by destruct (default false _)).
    unfold devDepsOf at 1. simpl. fold (devDepsOf this2).
    by rewrite D, setupState_devDeps, <- app_assoc.
  - by rewrite D, setupState_devDeps, app_nil_r.
Qed.

(** X9. An assembled project has a release exactly when the release
    workflow is enabled; the release then publishes to npm, once and with
    the dist tag, registry and token secret of the package, exactly when
    [releaseToNpm] is [true].  The development dependencies of the package
    include the ones it had, the generator (unless [projenDevDependency] is
    [false]) in the version asked for or [^] the generator's own version,
    and, when the release workflow is enabled, the version tool. *)
Theorem assembled_release X options this this' :
  constructor X options this = (Normal tt, this') →
  (enabledUnlessSubproject (opt_releaseWorkflow options) this = true →
   release this'
   = Some {| release_publishToNpm :=
               if default false (opt_releaseToNpm options)
               then [npmPublishOptions (package this)] else [] |})
  ∧ (enabledUnlessSubproject (opt_releaseWorkflow options) this = false →
     release this' = release this)
  ∧ (∀ dep, dep ∈ devDepsOf this → dep ∈ devDepsOf this')
  ∧ (opt_projenDevDependency options ≠ Some false →
     "projen@" +:+ default ("^" +:+ PROJEN_VERSION X) (opt_projenVersion options)
     ∈ devDepsOf this')
  ∧ (enabledUnlessSubproject (opt_releaseWorkflow options) this = true →
     STANDARD_VERSION X ∈ devDepsOf this').
Proof.
  intros R. apply constructor_normal in R as [_ ->].
  rewrite assembledState_release, assembledState_devDeps.
  split; [by intros ->|]. split; [by intros ->|]. split; [|split].
  - intros dep H. apply elem_of_app. by left.
  - intros H. apply elem_of_app. right. apply elem_of_app. left.
    destruct (opt_projenDevDependency options) as [[]|]; simpl; [| done |];
      apply list_elem_of_singleton; reflexivity.
  - intros ->. rewrite !elem_of_app. right. right. by apply list_elem_of_singleton.
Qed.

Lemma assembled_release_witness :
  let options := sampleOptions None (Some true) None None in
  let this := sampleProject (Some sampleGitHub) in
  release (constructor sampleExternals options this).2
  = Some {| release_publishToNpm := [npmPublishOptions (package this)] |}.
Proof.
  apply (proj1 (assembled_release sampleExternals (sampleOptions None (Some true) None None)
           (sampleProject (Some sampleGitHub))
           (constructor sampleExternals (sampleOptions None (Some true) None None)
              (sampleProject (Some sampleGitHub))).2
           ltac:(vm_compute; reflexivity))).
  reflexivity.
Defined.

Lemma npmignore_exclude_state patterns this :
  npmignore (npmignore_exclude patterns this).2
  = (λ l, l ++ (Exclude <$> patterns)) <$> npmignore this.
Proof. reflexivity. Qed.

Lemma setup_npmignore_state options this :
  npmignore (setup_npmignore options this).2
  = (λ l, l ++ (Exclude <$> default [] (opt_npmignore options))) <$> npmignore this.
Proof.
  unfold setup_npmignore.
  destruct (opt_npmignore options) as [[|p ps]|]; simpl.
  - destruct (npmignore this); simpl; rewrite ?app_nil_r; reflexivity.
  - rewrite bind_gets.
    destruct (npmignore this) eqn:E.
    + by rewrite npmignore_exclude_state, E.
    + simpl. by rewrite E.
  - destruct (npmignore this); simpl; rewrite ?app_nil_r; reflexivity.
Qed.

Lemma setupState_npmignore X options this :
  npmignore (setupState X options this)
  = (λ l, l ++ (Exclude <$> default [] (opt_npmignore options))
            ++ [Exclude ("/" +:+ PROJEN_RC X); Exclude ("/" +:+ PROJEN_DIR X)])
    <$> (if default true (opt_npmignoreEnabled options) then Some [] else npmignore this).
Proof.
  unfold setupState, setup_scripts. run_total. push npmignore.
  rewrite !npmignore_exclude_state. push npmignore.
  rewrite setup_npmignore_state, filesState_npmignore.
  destruct (if default true (opt_npmignoreEnabled options) then Some [] else npmignore this);
    simpl; [|done].
  by rewrite <- !app_assoc.
Qed.

(** The [.npmignore] patterns that the constructor itself adds to a project
    that had no [.npmignore] file. *)
Lemma assembledState_npmignore X options this :
  npmignore this = None →
  npmignore (assembledState X options this)
  = if default true (opt_npmignoreEnabled options)
    then Some ((Exclude <$> default [] (opt_npmignore options))
               ++ [Exclude ("/" +:+ PROJEN_RC X); Exclude ("/" +:+ PROJEN_DIR X)]
               ++ (if from_option gh_mergify false (github this)
                   then [Exclude "/.mergify.yml"] else []))
    else None.
Proof.
  intros Hn.
  set (this3 := releasePhaseState X options
                  (buildPhaseState X options (setupState X options this))).
  assert (mergifyOf this3 = mergifyOf this) as M
    by (unfold this3; by push_states mergifyOf).
  unfold mergifyOf in M.
  assert (npmignore this3 = npmignore (setupState X options this)) as N
    by (unfold this3; by push_states npmignore).
  rewrite setupState_npmignore, Hn in N.
  unfold assembledState. push_states npmignore. fold this3.
  unfold autoMergedState. rewrite M.
  destruct (default true (opt_npmignoreEnabled options)); simpl in N;
    destruct (from_option gh_mergify false (github this)); simpl; rewrite N; simpl;
    rewrite <- ?app_assoc, ?app_nil_r; reflexivity.
Qed.

Lemma assembledState_autoMerge X options this :
  autoMerge (assembledState X options this)
  = if from_option gh_mergify false (github this)
    then Some {| am_autoMergeLabel :=
                   AutoMerge_autoMergeLabel X (opt_mergifyAutoMergeLabel options) |}
    else autoMerge this.
Proof.
  set (this3 := releasePhaseState X options
                  (buildPhaseState X options (setupState X options this))).
  assert (mergifyOf this3 = mergifyOf this) as M
    by (unfold this3; by push_states mergifyOf).
  unfold mergifyOf in M.
  unfold assembledState. push_states autoMerge. fold this3.
  unfold autoMergedState. rewrite M.
  destruct (from_option gh_mergify false (github this)); [done|].
  unfold this3. by push_states autoMerge.
Qed.

(** X10. An assembled project has an auto-merge policy exactly when the
    GitHub collaborator has mergify.  It has an [.npmignore] file unless
    [npmignoreEnabled] is [false]; the file excludes the caller's patterns,
    the generator's rc file and directory and, with mergify, the mergify
    file. *)
Theorem assembled_auto_merge X options this this' :
  constructor X options this = (Normal tt, this') →
  npmignore this = None →
  (from_option gh_mergify false (github this) = true →
   autoMerge this'
   = Some {| am_autoMergeLabel :=
               AutoMerge_autoMergeLabel X (opt_mergifyAutoMergeLabel options) |})
  ∧ (from_option gh_mergify false (github this) = false → autoMerge this' = autoMerge this)
  ∧ (opt_npmignoreEnabled options = Some false → npmignore this' = None)
  ∧ (opt_npmignoreEnabled options ≠ Some false →
     ∃ patterns,
       npmignore this' = Some patterns
       ∧ (∀ pattern, pattern ∈ default [] (opt_npmignore options) →
            Exclude pattern ∈ patterns)
       ∧ Exclude ("/" +:+ PROJEN_RC X) ∈ patterns
       ∧ Exclude ("/" +:+ PROJEN_DIR X) ∈ patterns
       ∧ (from_option gh_mergify false (github this) = true →
          Exclude "/.mergify.yml" ∈ patterns)).
Proof.
  intros R Hn. apply constructor_normal in R as [_ ->].
  rewrite assembledState_autoMerge, assembledState_npmignore by done.
  split; [by intros ->|]. split; [by intros ->|]. split; [by intros ->|].
  intros E.
  assert (default true (opt_npmignoreEnabled options) = true) as ->
    by (by destruct (opt_npmignoreEnabled options) as [[]|]).
  eexists. split; [reflexivity|]. split; [|split; [|split]].
  - intros pattern H. apply elem_of_app. left. by apply list_elem_of_fmap_2.
  - rewrite !elem_of_app. right. left. apply list_elem_of_here.
  - rewrite !elem_of_app. right. left. apply list_elem_of_further, list_elem_of_here.
  - intros ->. rewrite !elem_of_app. right. right. apply list_elem_of_here.
Qed.

Lemma assembled_auto_merge_witness :
  let options := sampleOptions None None None None in
  let this := sampleProject (Some sampleGitHub) in
  autoMerge (constructor sampleExternals options this).2
  = Some {| am_autoMergeLabel := "auto-merge" |}.
Proof.
  apply (proj1 (assembled_auto_merge sampleExternals (sampleOptions None None None None)
           (sampleProject (Some sampleGitHub))
           (constructor sampleExternals (sampleOptions None None None None)
              (sampleProject (Some sampleGitHub))).2
           ltac:(vm_compute; reflexivity) eq_refl)).
  reflexivity.
Defined.

Lemma gitignore_add_state entries this :
  gitignore (gitignore_add entries this).2 = gitignore this ++ entries.
Proof. reflexivity. Qed.

(** The [.gitignore] patterns that the constructor itself adds. *)
Lemma assembledState_gitignore X options this :
  gitignore (assembledState X options this)
  = gitignore (addDefaultGitIgnore this).2
    ++ (Exclude <$> default [] (opt_gitignore options))
    ++ [Include ("/" +:+ PROJEN_RC X)].
Proof.
  unfold assembledState. push_states gitignore.
  unfold setupState, setup_scripts. run_total. push gitignore.
  rewrite gitignore_add_state. push gitignore.
  unfold filesState, setup_files. run_total. rewrite when_state.
  rewrite app_assoc. f_equal.
  assert (∀ s s', gitignore s = gitignore s' →
            gitignore (addDefaultGitIgnore s).2 = gitignore (addDefaultGitIgnore s').2) as D.
  { intros s s' E. unfold addDefaultGitIgnore. by rewrite !gitignore_add_state, E. }
  assert (preserves gitignore (setup_npmignore options)) as P
    by (unfold setup_npmignore; monadic ltac:(reflexivity)).
  rewrite P.
  assert ((if truthy_length (opt_gitignore options)
           then Exclude <$> default [] (opt_gitignore options) else [])
          = Exclude <$> default [] (opt_gitignore options)) as <-
    by (by destruct (opt_gitignore options) as [[|p ps]|]).
  assert (gitignore
            (when (default true (opt_npmignoreEnabled options))
               (modify (addComponent NpmIgnoreFile);; modify (set_npmignore (Some [])))
               (modify (λ this, set_npmRegistry (Some (pkg_npmRegistry (package this))) this)
                  (modify (λ this, set_npmDistTag (Some (pkg_npmDistTag (package this))) this)
                     (addLicense options
                        (setup_tasks options (setup_environment options this).2).2).2).2).2).2
          = gitignore this) as G
    by (push gitignore; unfold setup_tasks, setup_environment; by push gitignore).
  destruct (truthy_length (opt_gitignore options));
    rewrite ?gitignore_add_state, ?app_nil_r, (D _ _ G); reflexivity.
Qed.

(** X11. The [.gitignore] of an assembled project holds the patterns it
    had and the default patterns ([node_modules/] among them), excludes
    every pattern the caller gives, and includes the generator's rc
    file. *)
Theorem assembled_gitignore X options this this' :
  constructor X options this = (Normal tt, this') →
  (∀ entry, entry ∈ gitignore this → entry ∈ gitignore this')
  ∧ (∀ entry, entry ∈ gitignore (addDefaultGitIgnore this).2 → entry ∈ gitignore this')
  ∧ Exclude "node_modules/" ∈ gitignore this'
  ∧ (∀ pattern, pattern ∈ default [] (opt_gitignore options) →
       Exclude pattern ∈ gitignore this')
  ∧ Include ("/" +:+ PROJEN_RC X) ∈ gitignore this'.
Proof.
  intros R. apply constructor_normal in R as [_ ->].
  rewrite assembledState_gitignore.
  assert (∀ entry, entry ∈ gitignore (addDefaultGitIgnore this).2 →
            entry ∈ gitignore (addDefaultGitIgnore this).2
                    ++ (Exclude <$> default [] (opt_gitignore options))
                    ++ [Include ("/" +:+ PROJEN_RC X)]) as D
    by (intros entry H; apply elem_of_app; by left).
  split; [|split; [done|split; [|split]]].
  - intros entry H. apply D. unfold addDefaultGitIgnore. rewrite gitignore_add_state.
    apply elem_of_app. by left.
  - apply D. unfold addDefaultGitIgnore. rewrite gitignore_add_state.
    apply elem_of_app. right. apply list_elem_of_fmap_2.
    repeat first [apply list_elem_of_here | apply list_elem_of_further].
  - intros pattern H. rewrite !elem_of_app. right. left. by apply list_elem_of_fmap_2.
  - rewrite !elem_of_app. right. right. apply list_elem_of_here.
Qed.

Lemma assembled_gitignore_witness :
  let options := sampleOptions None None None None in
  let this := sampleProject (Some sampleGitHub) in
  Include "/.projenrc.js" ∈ gitignore (constructor sampleExternals options this).2.
Proof.
  apply (assembled_gitignore sampleExternals (sampleOptions None None None None)
           (sampleProject (Some sampleGitHub))).
  vm_compute. reflexivity.
Defined.

(** ** The GitHub collaborator, the tasks and the scripts *)

Lemma fmap_app_nil {A} (o : option (list A)) : (λ l, l ++ []) <$> o = o.
Proof. destruct o; simpl; by rewrite ?app_nil_r. Qed.

Lemma upgradedState_dependabot options this :
  dependabotOf (upgradedState options this)
  = (λ l, l ++ match chosenMechanism options with
               | dependabot botOptions => [botOptions]
               | _ => []
               end) <$> dependabotOf this.
Proof.
  unfold upgradedState, dependabotOf.
  destruct (chosenMechanism options); simpl;
    repeat case_match; simpl; rewrite ?fmap_app_nil; try done;
    by destruct (github this).
Qed.

Lemma finishedState_templates options this :
  templatesOf (finishedState options this)
  = (λ l, l ++ (if default true (opt_pullRequestTemplate options)
                then [from_option spread_string [] (opt_pullRequestTemplateContents options)]
                else [])) <$> templatesOf this.
Proof.
  unfold finishedState, templatesOf.
  repeat case_match; simpl; rewrite ?fmap_app_nil; try done;
    by destruct (github this).
Qed.

(** Spreading a string loses nothing: the code points, put together again,
    are the string. *)
Lemma spread_string_concat s : foldr String.append "" (spread_string s) = s.
Proof.
  induction s as [|c rest IH]; [done|]. simpl.
  destruct (spread_string rest) as [|point points]; simpl in *.
  - by rewrite <- IH.
  - destruct (continues rest); rewrite <- IH; reflexivity.
Qed.

Lemma spread_string_code_points :
  spread_string "a€b" = ["a"; "€"; "b"].
Proof. reflexivity. Qed.

(** X12. Assembly neither creates nor drops the GitHub collaborator and
    leaves its mergify flag as it is.  It gives the collaborator one bot
    configuration exactly when the bound mechanism is the bot-driven one.
    Unless [pullRequestTemplate] is [false] it asks the collaborator for a
    pull-request template, once; the call has the given contents as its
    arguments, one for each code point of the string, and has no argument
    when no contents are given. *)
Theorem assembled_github X options this this' :
  constructor X options this = (Normal tt, this') →
  mergifyFlagOf this' = mergifyFlagOf this
  ∧ dependabotOf this'
    = (λ l, l ++ match chosenMechanism options with
                 | dependabot botOptions => [botOptions]
                 | _ => []
                 end) <$> dependabotOf this
  ∧ templatesOf this'
    = (λ l, l ++ (if default true (opt_pullRequestTemplate options)
                  then [from_option spread_string [] (opt_pullRequestTemplateContents options)]
                  else [])) <$> templatesOf this.
Proof.
  intros R. apply constructor_normal in R as [_ ->].
  unfold assembledState. split; [|split].
  - by push_states mergifyFlagOf.
  - push_states dependabotOf. rewrite upgradedState_dependabot. by push_states dependabotOf.
  - rewrite finishedState_templates. by push_states templatesOf.
Qed.

Lemma assembled_github_witness :
  let options := sampleOptions None None (Some true) None in
  let this := sampleProject (Some sampleGitHub) in
  let this' := (constructor sampleExternals options this).2 in
  mergifyFlagOf this' = Some true
  ∧ dependabotOf this' = Some [noDependabotOptions]
  ∧ templatesOf this' = Some [[]].
Proof.
  apply (assembled_github sampleExternals (sampleOptions None None (Some true) None)
           (sampleProject (Some sampleGitHub))).
  vm_compute. reflexivity.
Defined.

Lemma setupState_tasks X options this :
  tasks (setupState X options this)
  = <["build" := newTask "build" "Full release build (test+compile)" BUILD
        (if default true (opt_projenDuringBuild options) && negb (parent this)
         then [Exec (pkg_projenCommand (package this))] else [])]>
      (<["test" := newTask "test" "Run tests" TEST [Spawn "test:compile"]]>
         (<["test:compile" := newTask "test:compile" "compiles the test code" TEST []]>
            (<["compile" := newTask "compile" "Only compile" BUILD []]> (tasks this)))).
Proof.
  unfold setupState, setup_scripts. run_total. push tasks.
  assert (preserves tasks (setup_npmignore options)) as P
    by (unfold setup_npmignore; monadic ltac:(reflexivity)).
  rewrite P. unfold filesState, setup_files. push tasks.
  unfold setup_tasks, setup_environment.
  unfold addTask, task_step, when, modify, gets, mbind, M_bind, mret, M_ret. simpl.
  destruct (default true (opt_projenDuringBuild options)); simpl;
    destruct (parent this); simpl;
    rewrite ?alter_insert_eq, ?alter_insert_ne, ?alter_insert_eq by done; reflexivity.
Qed.

Lemma setScript_scripts name command this :
  scriptsOf (setScript name command this).2 = <[name := command]> (scriptsOf this).
Proof. reflexivity. Qed.

Lemma setupState_scripts X options this :
  scriptsOf (setupState X options this)
  = <["start" := pkg_projenCommand (package this) +:+ " start"]>
      (<["projen" := pkg_projenCommand (package this)]> (scriptsOf this)).
Proof.
  assert (preserves scriptsOf (setup_npmignore options)) as P
    by (unfold setup_npmignore; monadic ltac:(reflexivity)).
  assert (preserves packageOf (setup_npmignore options)) as P'
    by (unfold setup_npmignore; monadic ltac:(reflexivity)).
  assert (packageOf (filesState options this) = packageOf this) as [= _ _ _ C _ _ _ _ _ _].
  { unfold filesState, setup_files, setup_tasks, setup_environment. by push packageOf. }
  assert (scriptsOf (filesState options this) = scriptsOf this) as S.
  { unfold filesState, setup_files, setup_tasks, setup_environment. by push scriptsOf. }
  unfold setupState, setup_scripts. run_total. push scriptsOf.
  rewrite !setScript_scripts, P, S.
  pose proof (P' (filesState options this)) as [= _ _ _ C' _ _ _ _ _ _].
  by rewrite C', C.
Qed.

(** The tasks and the scripts that the constructor itself sets up. *)
Lemma assembledState_tasks X options this :
  tasks (assembledState X options this)
  = <["build" := newTask "build" "Full release build (test+compile)" BUILD
        (if default true (opt_projenDuringBuild options) && negb (parent this)
         then [Exec (pkg_projenCommand (package this))] else [])]>
      (<["test" := newTask "test" "Run tests" TEST [Spawn "test:compile"]]>
         (<["test:compile" := newTask "test:compile" "compiles the test code" TEST []]>
            (<["compile" := newTask "compile" "Only compile" BUILD []]> (tasks this)))).
Proof. unfold assembledState. push_states tasks. apply setupState_tasks. Qed.

Lemma assembledState_scripts X options this :
  scriptsOf (assembledState X options this)
  = <["start" := pkg_projenCommand (package this) +:+ " start"]>
      (<["projen" := pkg_projenCommand (package this)]> (scriptsOf this)).
Proof. unfold assembledState. push_states scriptsOf. apply setupState_scripts. Qed.

Lemma startsAs_newTask name description category steps :
  startsAs name description category steps (newTask name description category steps).
Proof. by repeat split. Qed.

(** X13. An assembled project has the tasks [compile], [test:compile],
    [test] and [build], with the descriptions and categories the
    constructor gives them, whatever tasks of these names there were.  The
    first step of [test] spawns [test:compile], and the first step of
    [build] runs the generator, unless [projenDuringBuild] is [false] or the
    project is a subproject.  The scripts [projen] and [start] of the
    package run the generator. *)
Theorem assembled_tasks_and_scripts X options this this' :
  constructor X options this = (Normal tt, this') →
  let projenCommand := pkg_projenCommand (package this) in
  (∃ compile testCompile test build,
     tasks this' !! "compile" = Some compile
     ∧ tasks this' !! "test:compile" = Some testCompile
     ∧ tasks this' !! "test" = Some test
     ∧ tasks this' !! "build" = Some build
     ∧ startsAs "compile" "Only compile" BUILD [] compile
     ∧ startsAs "test:compile" "compiles the test code" TEST [] testCompile
     ∧ startsAs "test" "Run tests" TEST [Spawn "test:compile"] test
     ∧ startsAs "build" "Full release build (test+compile)" BUILD
         (if default true (opt_projenDuringBuild options) && negb (parent this)
          then [Exec projenCommand] else []) build)
  ∧ scriptsOf this' !! "projen" = Some projenCommand
  ∧ scriptsOf this' !! "start" = Some (projenCommand +:+ " start").
Proof.
  intros R. apply constructor_normal in R as [_ ->]. cbv zeta.
  rewrite assembledState_tasks, assembledState_scripts. split; [|split].
  - eexists _, _, _, _.
    split; [by rewrite !lookup_insert_ne, lookup_insert_eq by done|].
    split; [by rewrite !lookup_insert_ne, lookup_insert_eq by done|].
    split; [by rewrite !lookup_insert_ne, lookup_insert_eq by done|].
    split; [by rewrite lookup_insert_eq|].
    repeat split; apply startsAs_newTask.
  - by rewrite lookup_insert_ne, lookup_insert_eq by done.
  - by rewrite lookup_insert_eq.
Qed.

Lemma assembled_tasks_and_scripts_witness :
  let this' := (constructor sampleExternals defaultOptions (sampleProject (Some sampleGitHub))).2 in
  (∃ build,
     tasks this' !! "build" = Some build
     ∧ startsAs "build" "Full release build (test+compile)" BUILD [Exec "npx projen"] build)
  ∧ scriptsOf this' !! "start" = Some "npx projen start".
Proof.
  destruct (assembled_tasks_and_scripts sampleExternals defaultOptions (sampleProject (Some sampleGitHub))
              (constructor sampleExternals defaultOptions (sampleProject (Some sampleGitHub))).2
              ltac:(vm_compute; reflexivity))
    as [(_ & _ & _ & build & _ & _ & _ & B & _ & _ & _ & S) [_ T]].
  split; [by exists build|exact T].
Defined.

(** ** Projects without a build workflow *)

Lemma failedCheck_build_disabled options this :
  enabledUnlessSubproject (opt_buildWorkflow options) this = false →
  failedCheck options this ≠ Some err_no_github.
Proof.
  intros En. unfold failedCheck, setupCheck, releaseCheck. rewrite En. simpl.
  repeat case_match; simplify_eq; discriminate.
Qed.

(** X14. Without a build workflow ([buildWorkflow] is [false], or it is not
    given and the project is a subproject) the constructor never asks for
    GitHub support, and the project it assembles has the anti-tamper flag
    off, whatever the [antitamper] option says, and no build workflow or
    build job id of its own. *)
Theorem build_workflow_disabled X options this :
  opt_buildWorkflow options = Some false
  ∨ (opt_buildWorkflow options = None ∧ parent this = true) →
  (∀ this', constructor X options this ≠ (Throw (MkError err_no_github), this'))
  ∧ (∀ this', constructor X options this = (Normal tt, this') →
       antitamper this' = Some false
       ∧ buildWorkflow this' = buildWorkflow this
       ∧ buildWorkflowJobId this' = buildWorkflowJobId this).
Proof.
  intros H.
  assert (enabledUnlessSubproject (opt_buildWorkflow options) this = false) as En.
  { unfold enabledUnlessSubproject. by destruct H as [->|[-> ->]]. }
  split.
  - intros this' R. pose proof (constructor_run X options this) as C.
    destruct (failedCheck options this) as [m|] eqn:F.
    + destruct C as [s C]. rewrite C in R. injection R as -> _.
      by apply (failedCheck_build_disabled options this).
    + by rewrite C in R.
  - intros this' R. apply constructor_normal in R as [_ ->].
    rewrite assembledState_antitamper, En. split; [done|].
    unfold assembledState. push_states buildWorkflow. push_states buildWorkflowJobId.
    unfold buildPhaseState.
    rewrite (enabledUnlessSubproject_parent _ this _ (setupState_parent X options this)), En.
    unfold jestState. split; case_match; simpl.
    all: try by push_states buildWorkflow.
    all: by push_states buildWorkflowJobId.
Qed.

Lemma build_workflow_disabled_witness :
  let this' := (constructor sampleExternals defaultOptions sampleSubproject).2 in
  antitamper this' = Some false
  ∧ buildWorkflow this' = None
  ∧ buildWorkflowJobId this' = None.
Proof.
  apply (proj2 (build_workflow_disabled sampleExternals defaultOptions sampleSubproject
                  (or_intror (conj eq_refl eq_refl)))).
  vm_compute. reflexivity.
Defined.

(** ** The build workflow and its job *)

(** X15. The build job of an assembled project runs on the default hosted
    environment, in the container [workflowContainerImage] when that is a
    non-empty string and in no container otherwise; it has no condition,
    the environment [CI=true] and nothing else, and write permission for
    checks and contents and no other. *)
Theorem assembled_job_metadata X options this this' :
  constructor X options this = (Normal tt, this') →
  enabledUnlessSubproject (opt_buildWorkflow options) this = true →
  ∃ job,
    buildJobOf this' job
    ∧ job_runsOn job = "ubuntu-latest"
    ∧ job_container job
      = match opt_workflowContainerImage options with
        | Some image => if bool_decide (image = "") then None else Some image
        | None => None
        end
    ∧ job_if job = None
    ∧ job_env job = {[ "CI" := "true" ]}
    ∧ job_permissions job = {[ "checks" := WRITE; "contents" := WRITE ]}.
Proof.
  intros R En. pose proof (assembled_buildJob X options this this' R En) as J.
  eexists. split; [exact J|].
  unfold buildJob. change (bw_image (buildWorkflowOptions options))
    with (opt_workflowContainerImage options).
  destruct (opt_workflowContainerImage options) as [image|]; simpl.
  - destruct (bool_decide (image = "")); simpl; by rewrite (left_id_L ∅ (∪)).
  - by rewrite (left_id_L ∅ (∪)).
Qed.

Lemma assembled_job_metadata_witness :
  let options := sampleOptions None None None None in
  let this := sampleProject (Some sampleGitHub) in
  let this' := (constructor sampleExternals options this).2 in
  ∃ job,
    buildJobOf this' job
    ∧ job_runsOn job = "ubuntu-latest"
    ∧ job_container job = None
    ∧ job_if job = None
    ∧ job_env job = {[ "CI" := "true" ]}
    ∧ job_permissions job = {[ "checks" := WRITE; "contents" := WRITE ]}.
Proof.
  apply (assembled_job_metadata sampleExternals (sampleOptions None None None None)
           (sampleProject (Some sampleGitHub))).
  - vm_compute. reflexivity.
  - reflexivity.
Defined.



(** ** The deprecated command wrappers *)

Lemma set_tasks_id this : set_tasks (tasks this) this = this.
Proof. by destruct this. Qed.

Lemma task_add_steps_nil t : task_add_steps [] t = t.
Proof. destruct t. unfold task_add_steps. simpl. by rewrite app_nil_r. Qed.

Lemma task_add_steps_cons step steps t :
  task_add_steps steps (task_add_step step t) = task_add_steps (step :: steps) t.
Proof. unfold task_add_steps, task_add_step. simpl. by rewrite <- app_assoc. Qed.

(** Executing commands one by one in the task [name]. *)
Lemma for_of_exec name commands this t :
  tasks this !! name = Some t →
  for_of commands (λ c, task_step name (Exec c)) this
  = (Normal tt,
     set_tasks (<[name := task_add_steps (Exec <$> commands) t]> (tasks this)) this).
Proof.
  revert this t. induction commands as [|c commands IH]; intros this t H.
  - simpl. by rewrite task_add_steps_nil, insert_id, set_tasks_id.
  - cbn [for_of]. unfold mbind, M_bind. unfold task_step at 1. unfold modify.
    erewrite IH; simpl.
    + by rewrite insert_alter_eq, task_add_steps_cons.
    + by rewrite lookup_alter_eq, H.
Qed.

(** X17. The deprecated [addCompileCommand], [addTestCommand] and
    [addBuildCommand] append the given commands, in their order, to the
    steps of the task [compile], [test] or [build], and change nothing
    else: no other task, and no step the task already has. *)
Theorem command_wrappers_append commands this t :
  (tasks this !! "compile" = Some t →
   addCompileCommand commands this
   = (Normal tt,
      set_tasks (<["compile" := task_add_steps (Exec <$> commands) t]> (tasks this)) this))
  ∧ (tasks this !! "test" = Some t →
     addTestCommand commands this
     = (Normal tt,
        set_tasks (<["test" := task_add_steps (Exec <$> commands) t]> (tasks this)) this))
  ∧ (tasks this !! "build" = Some t →
     addBuildCommand commands this
     = (Normal tt,
        set_tasks (<["build" := task_add_steps (Exec <$> commands) t]> (tasks this)) this)).
Proof. repeat split; apply for_of_exec. Qed.

Lemma command_wrappers_append_witness :
  let this := (constructor sampleExternals defaultOptions sampleSubproject).2 in
  (addTestCommand ["jest"; "eslint"] this).1 = Normal tt
  ∧ task_steps <$> tasks (addTestCommand ["jest"; "eslint"] this).2 !! "test"
    = Some [Spawn "test:compile"; Exec "jest"; Exec "eslint"].
Proof.
  intros this.
  rewrite (proj1 (proj2 (command_wrappers_append ["jest"; "eslint"] this
                           (newTask "test" "Run tests" TEST [Spawn "test:compile"])))
             ltac:(vm_compute; reflexivity)).
  split; vm_compute; reflexivity.
Defined.
